(** * Library management service

    A shallow embedding of [services/library_service.py] and
    [services/payment_service.py], and the properties of the service that
    the specification states.

    Conventions of the embedding.
    - A Python [str] is a Rocq [string]; a character stands for the code
      point of the same number (0..255).  The one literal of the source
      outside that range is written with its UTF-8 bytes.
    - A Python [int] is a [Z].
    - A Python [float] is the rational it denotes (or an infinity, or NaN).
      Every amount the service computes is a multiple of one half far below
      2^53, where binary floating point is exact.
    - A [datetime] is a number of microseconds since 1970-01-01T00:00:00;
      a [timedelta] is a number of microseconds.
    - The service functions run in a state monad over the [World]: the
      relational store, the faults the store will answer its next writes
      with, and the log of the calls made on the payment gateway.  The
      reading of [datetime.now()] is an explicit argument [now]. *)

From Stdlib Require Import ZArith QArith Qround Qminmax Lqa Lia Ascii String.
From stdpp Require Import gmap strings list pretty sorting.

Set Warnings "-register-all".
Local Open Scope string_scope.
Local Open Scope Z_scope.

(** ** The fragment of Python the service uses *)

Definition dquote : string := String (ascii_of_N 34) EmptyString.

(** [str.isspace] of one character: TAB..CR, FS..US, space, NEL, NBSP. *)
Definition chr_isspace (c : ascii) : bool :=
  let n := N_of_ascii c in
  (((9 <=? n) && (n <=? 13)) || ((28 <=? n) && (n <=? 32))
   || (n =? 133) || (n =? 160))%N.

(** [str.isdigit] of one character: 0..9 and the superscripts 2, 3, 1. *)
Definition chr_isdigit (c : ascii) : bool :=
  let n := N_of_ascii c in
  (((48 <=? n) && (n <=? 57)) || (n =? 178) || (n =? 179) || (n =? 185))%N.

Fixpoint str_lstrip (s : string) : string :=
  match s with
  | EmptyString => EmptyString
  | String c s' => if chr_isspace c then str_lstrip s' else s
  end.

Fixpoint str_rstrip (s : string) : string :=
  match s with
  | EmptyString => EmptyString
  | String c s' =>
      match str_rstrip s' with
      | EmptyString => if chr_isspace c then EmptyString else String c EmptyString
      | r => String c r
      end
  end.

(** [s.strip()] *)
Definition str_strip (s : string) : string := str_rstrip (str_lstrip s).

Fixpoint str_forallb (p : ascii -> bool) (s : string) : bool :=
  match s with
  | EmptyString => true
  | String c s' => p c && str_forallb p s'
  end.

(** [s.isdigit()]: false on the empty string. *)
Definition str_isdigit (s : string) : bool :=
  match s with
  | EmptyString => false
  | _ => str_forallb chr_isdigit s
  end.

(** Truth value of a [str]. *)
Definition str_bool (s : string) : bool :=
  match s with
  | EmptyString => false
  | _ => true
  end.

(** [len(s)] *)
Definition len (s : string) : Z := Z.of_nat (String.length s).

(** Floats. *)
Inductive pyfloat : Type :=
  | FFin (q : Q)
  | FInf (negative : bool)
  | FNan.

(** [x <= y] and [x > y] on floats; every comparison with NaN is false. *)
Definition float_le (x y : pyfloat) : bool :=
  match x, y with
  | FNan, _ | _, FNan => false
  | FFin a, FFin b => Qle_bool a b
  | FInf true, _ => true
  | _, FInf false => true
  | FInf false, _ => false
  | _, FInf true => false
  end.

Definition float_gt (x y : pyfloat) : bool :=
  match x, y with
  | FNan, _ | _, FNan => false
  | _, _ => negb (float_le x y)
  end.

(** Rounding of a rational to the nearest integer, ties to even. *)
Definition round_half_even (q : Q) : Z :=
  let f := Qfloor q in
  let r := (q - inject_Z f)%Q in
  match (r ?= 1 # 2)%Q with
  | Lt => f
  | Gt => f + 1
  | Eq => if Z.even f then f else f + 1
  end.

(** [round(x, 2)] on a finite float: the decimal with two places nearest to
    the value of [x]. *)
Definition round2 (q : Q) : Q :=
  (inject_Z (round_half_even (q * 100)) / 100)%Q.

Definition float_round2 (x : pyfloat) : pyfloat :=
  match x with
  | FFin q => FFin (round2 q)
  | _ => x
  end.

(** Values that cross the boundary with the payment gateway and with the
    callers of the payment functions. *)
Inductive pyval : Type :=
  | PyNone
  | PyBool (b : bool)
  | PyInt (z : Z)
  | PyFloat (x : pyfloat)
  | PyStr (s : string)
  | PyList (l : list pyval)
  | PyDict (d : list (string * pyval)).

(** Truth value of an object. *)
Definition py_bool (v : pyval) : bool :=
  match v with
  | PyNone => false
  | PyBool b => b
  | PyInt z => negb (z =? 0)
  | PyFloat (FFin q) => negb (Qeq_bool q 0)
  | PyFloat _ => true
  | PyStr s => str_bool s
  | PyList l => match l with [] => false | _ => true end
  | PyDict d => match d with [] => false | _ => true end
  end.

Definition py_type_name (v : pyval) : string :=
  match v with
  | PyNone => "NoneType"
  | PyBool _ => "bool"
  | PyInt _ => "int"
  | PyFloat _ => "float"
  | PyStr _ => "str"
  | PyList _ => "list"
  | PyDict _ => "dict"
  end.

(** Exceptions: the class and the text [str(e)]. *)
Record exn : Type := Exn { exn_class : string; exn_str : string }.

Inductive outcome (A : Type) : Type :=
  | Returned (a : A)
  | Raised (e : exn).
Arguments Returned {A} a.
Arguments Raised {A} e.

(** [d.get(key)] on a dict held as its list of items. *)
Fixpoint dict_get (d : list (string * pyval)) (key : string) : option pyval :=
  match d with
  | [] => None
  | (k, v) :: d' => if String.eqb k key then Some v else dict_get d' key
  end.

(** [resp.get(key)]: only a dict has the method; the default is [None]. *)
Definition py_get (resp : pyval) (key : string) : outcome pyval :=
  match resp with
  | PyDict d => Returned (default PyNone (dict_get d key))
  | _ => Raised (Exn "AttributeError"
                   ("'" +:+ py_type_name resp +:+ "' object has no attribute 'get'"))
  end.

(** [resp[key]] *)
Definition py_getitem (resp : pyval) (key : string) : outcome pyval :=
  match resp with
  | PyDict d =>
      match dict_get d key with
      | Some v => Returned v
      | None => Raised (Exn "KeyError" ("'" +:+ key +:+ "'"))
      end
  | _ => Raised (Exn "TypeError"
                   ("'" +:+ py_type_name resp +:+ "' object is not subscriptable"))
  end.

(** [v != "literal"] *)
Definition py_ne_str (v : pyval) (s : string) : bool :=
  match v with
  | PyStr s' => negb (String.eqb s' s)
  | _ => true
  end.

Definition py_isinstance_dict (v : pyval) : bool :=
  match v with PyDict _ => true | _ => false end.

Definition py_isinstance_str (v : pyval) : bool :=
  match v with PyStr _ => true | _ => false end.

(** Dates and durations. *)
Definition datetime : Type := Z.
Definition timedelta : Type := Z.

Definition microseconds_per_day : Z := 86400 * 1000000.

(** [timedelta(days=n)] *)
Definition timedelta_days (n : Z) : timedelta := n * microseconds_per_day.

(** [td.days]: a timedelta is normalised with the remainder non-negative,
    so the days are the floor of the quotient. *)
Definition td_days (td : timedelta) : Z := td / microseconds_per_day.

(** Year, month and day of a count of days since 1970-01-01
    (proleptic Gregorian calendar). *)
Definition civil_from_days (z : Z) : Z * Z * Z :=
  let z := z + 719468 in
  let era := z / 146097 in
  let doe := z - era * 146097 in
  let yoe := (doe - doe / 1460 + doe / 36524 - doe / 146096) / 365 in
  let y := yoe + era * 400 in
  let doy := doe - (365 * yoe + yoe / 4 - yoe / 100) in
  let mp := (5 * doy + 2) / 153 in
  let d := doy - (153 * mp + 2) / 5 + 1 in
  let m := if mp <? 10 then mp + 3 else mp - 9 in
  (if m <=? 2 then y + 1 else y, m, d).

Definition pad2 (n : Z) : string :=
  if n <? 10 then "0" +:+ pretty n else pretty n.

Definition pad4 (n : Z) : string :=
  if n <? 10 then "000" +:+ pretty n
  else if n <? 100 then "00" +:+ pretty n
  else if n <? 1000 then "0" +:+ pretty n
  else pretty n.

(** [dt.strftime("%Y-%m-%d")], for the years 1000 to 9999.  Below 1000 the
    C library decides whether the year is padded with zeros, as it is
    here. *)
Definition strftime_ymd (dt : datetime) : string :=
  let '(y, m, d) := civil_from_days (dt / microseconds_per_day) in
  pad4 y +:+ "-" +:+ pad2 m +:+ "-" +:+ pad2 d.

(** ** The relational store

    [database.py] is not part of the sources at hand; the store and its
    access functions follow the interface the specification lists. *)

Module Book.
Record t : Type := mk {
  id : Z;
  title : string;
  author : string;
  isbn : string;
  total_copies : Z;
  available_copies : Z
}.
End Book.

Module BorrowRecord.
Record t : Type := mk {
  patron_id : string;
  book_id : Z;
  borrow_date : datetime;
  due_date : datetime;
  return_date : option datetime
}.
End BorrowRecord.

(** A row of [get_patron_borrowed_books]. *)
Module BorrowedBook.
Record t : Type := mk {
  book_id : Z;
  borrow_date : datetime;
  due_date : datetime;
  is_overdue : bool
}.
End BorrowedBook.

(** A row of the history query of the patron report. *)
Module HistoryRow.
Record t : Type := mk {
  book_id : Z;
  title : string;
  author : string;
  borrow_date : datetime;
  due_date : datetime;
  return_date : option datetime
}.
End HistoryRow.

Record Store : Type := mkStore {
  books : gmap Z Book.t;
  borrow_records : list BorrowRecord.t
}.

Inductive GatewayCall : Type :=
  | ProcessPayment (patron_id : string) (amount : pyfloat)
  | RefundPayment (transaction_id : string) (amount : pyfloat).

Record World : Type := mkWorld {
  db : Store;
  db_faults : list bool;
  gateway_calls : list GatewayCall
}.

(** ** The monad of the service functions *)

Definition M (A : Type) : Type := World -> outcome A * World.

Definition ret {A : Type} (a : A) : M A := fun w => (Returned a, w).

Definition raise {A : Type} (e : exn) : M A := fun w => (Raised e, w).

Definition bind {A B : Type} (m : M A) (k : A -> M B) : M B :=
  fun w =>
    match m w with
    | (Returned a, w') => k a w'
    | (Raised e, w') => (Raised e, w')
    end.

Notation "'do' x <- m ;; k" := (bind m (fun x => k))
  (at level 10, x name, m at level 99, k at level 200).

(** An outcome computed without touching the world. *)
Definition lift {A : Type} (o : outcome A) : M A := fun w => (o, w).

(** The body of a [try]: its outcome is handed to the code that follows. *)
Definition attempt {A : Type} (m : M A) : M (outcome A) :=
  fun w => let '(o, w') := m w in (Returned o, w').

(** Result and final world of a run. *)
Definition result {A : Type} (r : outcome A * World) : outcome A := fst r.
Definition world {A : Type} (r : outcome A * World) : World := snd r.

(** ** Access functions of the store *)

Definition is_unreturned (r : BorrowRecord.t) : bool :=
  match BorrowRecord.return_date r with
  | None => true
  | Some _ => false
  end.

(** An unreturned record of the patron. *)
Definition is_borrowed_by (patron_id : string) (r : BorrowRecord.t) : bool :=
  String.eqb (BorrowRecord.patron_id r) patron_id && is_unreturned r.

(** An unreturned record of the patron for the book. *)
Definition is_open_loan (patron_id : string) (book_id : Z)
    (r : BorrowRecord.t) : bool :=
  is_borrowed_by patron_id r && (BorrowRecord.book_id r =? book_id).

(** Modelled from the spec: a write on the store, missing from the sources.
    The specification lets a write fail and leave the store as it was; the
    world lists whether its next writes fail. *)
Definition db_write (f : Store -> Store) : M bool :=
  fun w =>
    match db_faults w with
    | true :: faults => (Returned false, mkWorld (db w) faults (gateway_calls w))
    | _ => (Returned true,
            mkWorld (f (db w)) (tail (db_faults w)) (gateway_calls w))
    end.

(** Modelled from the spec: [book_by_id(id)] of [database.py], missing from
    the sources. *)
Definition get_book_by_id (book_id : Z) : M (option Book.t) :=
  fun w => (Returned (books (db w) !! book_id), w).

(** Modelled from the spec: [book_by_isbn(isbn)] of [database.py], missing
    from the sources. *)
Definition get_book_by_isbn (isbn : string) : M (option Book.t) :=
  fun w =>
    (Returned (List.find (fun b => String.eqb (Book.isbn b) isbn)
                 (snd <$> map_to_list (books (db w)))), w).

(** The identity a new book receives: one more than the largest in use. *)
Definition fresh_book_id (m : gmap Z Book.t) : Z :=
  1 + foldr Z.max 0 (fst <$> map_to_list m).

(** Modelled from the spec: [insert_book(...)] of [database.py], missing
    from the sources. *)
Definition insert_book (title author isbn : string)
    (total_copies available_copies : Z) : M bool :=
  db_write (fun s =>
    let i := fresh_book_id (books s) in
    mkStore
      (<[i := Book.mk i title author isbn total_copies available_copies]>
         (books s))
      (borrow_records s)).

(** The book with [delta] added to its available copies. *)
Definition add_available (delta : Z) (b : Book.t) : Book.t :=
  Book.mk (Book.id b) (Book.title b) (Book.author b) (Book.isbn b)
    (Book.total_copies b) (Book.available_copies b + delta).

(** Modelled from the spec: [update_book_availability(id, delta)] of
    [database.py], missing from the sources. *)
Definition update_book_availability (book_id : Z) (delta : Z) : M bool :=
  db_write (fun s =>
    mkStore (alter (add_available delta) book_id (books s))
      (borrow_records s)).

(** Modelled from the spec: [patron_borrow_count(patron_id)] of
    [database.py], missing from the sources: the count of unreturned
    records. *)
Definition get_patron_borrow_count (patron_id : string) : M Z :=
  fun w =>
    (Returned
       (Z.of_nat
          (length (List.filter (is_borrowed_by patron_id)
                     (borrow_records (db w))))), w).

(** The row of an unreturned record: overdue once its due date is past. *)
Definition borrowed_row (now : datetime) (r : BorrowRecord.t)
    : BorrowedBook.t :=
  BorrowedBook.mk (BorrowRecord.book_id r) (BorrowRecord.borrow_date r)
    (BorrowRecord.due_date r) (BorrowRecord.due_date r <? now).

(** Modelled from the spec: [patron_borrowed_books(patron_id)] of
    [database.py], missing from the sources: the unreturned records, each
    flagged overdue or not, with its due date. *)
Definition get_patron_borrowed_books (now : datetime) (patron_id : string)
    : M (list BorrowedBook.t) :=
  fun w =>
    (Returned
       (List.map (borrowed_row now)
          (List.filter (is_borrowed_by patron_id) (borrow_records (db w)))),
     w).

(** Modelled from the spec: [insert_borrow_record(...)] of [database.py],
    missing from the sources. *)
Definition insert_borrow_record (patron_id : string) (book_id : Z)
    (borrow_date due_date : datetime) : M bool :=
  db_write (fun s =>
    mkStore (books s)
      (borrow_records s
         ++ [BorrowRecord.mk patron_id book_id borrow_date due_date None])).

(** The record with its return timestamp set. *)
Definition close_record (date : datetime) (r : BorrowRecord.t)
    : BorrowRecord.t :=
  BorrowRecord.mk (BorrowRecord.patron_id r) (BorrowRecord.book_id r)
    (BorrowRecord.borrow_date r) (BorrowRecord.due_date r) (Some date).

(** The return timestamp of every unreturned record of the pair is set. *)
Definition close_loan (patron_id : string) (book_id : Z) (date : datetime)
    (l : list BorrowRecord.t) : list BorrowRecord.t :=
  List.map
    (fun r =>
       if is_open_loan patron_id book_id r then close_record date r else r)
    l.

(** Modelled from the spec: [set_return_date(patron_id, book_id, date)] of
    [database.py], missing from the sources.  The write is addressed by the
    pair alone, as the call of [return_book_by_patron] is: it sets the
    return timestamp of the unreturned records of the pair, of each of them
    where the patron holds the book more than once.  A record already
    returned keeps its timestamp: a record goes from open to closed and
    never back. *)
Definition update_borrow_record_return_date (patron_id : string)
    (book_id : Z) (return_date : datetime) : M bool :=
  db_write (fun s =>
    mkStore (books s)
      (close_loan patron_id book_id return_date (borrow_records s))).

(** ** services/payment_service.py *)

(** A gateway object: what its two methods answer.  The service calls a
    gateway at most once per request, so an answer per call is all there
    is to a gateway here. *)
Record PaymentGateway : Type := mkGateway {
  process_payment : string -> pyfloat -> outcome pyval;
  refund_payment : string -> pyfloat -> outcome pyval
}.

(** [int(x)] on a finite float: truncation. *)
Definition int_of_Q (q : Q) : Z := Z.quot (Qnum q) (Z.pos (Qden q)).

(** The gateway class of the repository.  [amount * 100] is taken on the
    rationals: it is the product of the floats wherever that product is
    exact, as on the multiples of one half that the service charges.  On
    another amount (0.15, for one) the product of the floats is rounded
    before [int] truncates it, and the last digit of the transaction id can
    differ from the one computed here. *)
Definition payment_gateway : PaymentGateway :=
  mkGateway
    (fun patron_id amount =>
       if float_le amount (FFin 0) then
         Returned (PyDict [("status", PyStr "error");
                           ("reason", PyStr "invalid amount")])
       else
         match amount with
         | FFin q =>
             Returned
               (PyDict [("status", PyStr "success");
                        ("transaction_id",
                         PyStr ("TXN" +:+ patron_id
                                +:+ pretty (int_of_Q (q * 100))))])
         | FInf _ =>
             Raised (Exn "OverflowError"
                       "cannot convert float infinity to integer")
         | FNan => Raised (Exn "ValueError" "cannot convert float NaN to integer")
         end)
    (fun transaction_id amount =>
       if negb (str_bool transaction_id) || float_le amount (FFin 0) then
         Returned (PyDict [("status", PyStr "error");
                           ("reason", PyStr "invalid refund")])
       else
         Returned (PyDict [("status", PyStr "refunded");
                           ("refund_id", PyStr ("RF" +:+ transaction_id));
                           ("amount", PyFloat amount)])).

(** A call on the gateway: logged, then answered. *)
Definition call_process_payment (gw : PaymentGateway) (patron_id : string)
    (amount : pyfloat) : M pyval :=
  fun w =>
    (process_payment gw patron_id amount,
     mkWorld (db w) (db_faults w)
       (gateway_calls w ++ [ProcessPayment patron_id amount])).

Definition call_refund_payment (gw : PaymentGateway) (transaction_id : string)
    (amount : pyfloat) : M pyval :=
  fun w =>
    (refund_payment gw transaction_id amount,
     mkWorld (db w) (db_faults w)
       (gateway_calls w ++ [RefundPayment transaction_id amount])).

(** ** services/library_service.py

    [search_books_in_catalog], which none of the properties below concerns,
    is left out. *)

(** [total_copies] is an [int] here, so the [isinstance] test of the source
    holds. *)
Definition add_book_to_catalog (title author isbn : string)
    (total_copies : Z) : M (bool * string) :=
  if negb (str_bool title) || negb (str_bool (str_strip title)) then
    ret (false, "Title is required.")
  else if len (str_strip title) >? 200 then
    ret (false, "Title must be less than 200 characters.")
  else if negb (str_bool author) || negb (str_bool (str_strip author)) then
    ret (false, "Author is required.")
  else if len (str_strip author) >? 100 then
    ret (false, "Author must be less than 100 characters.")
  else if negb (len isbn =? 13) || negb (str_isdigit isbn) then
    ret (false, "ISBN must be exactly 13 digits.")
  else if total_copies <=? 0 then
    ret (false, "Total copies must be a positive integer.")
  else
    do existing <- get_book_by_isbn isbn ;;
    match existing with
    | Some _ => ret (false, "A book with this ISBN already exists.")
    | None =>
        do success <- insert_book (str_strip title) (str_strip author) isbn
                        total_copies total_copies ;;
        if success then
          ret (true, "Book " +:+ dquote +:+ str_strip title +:+ dquote
                     +:+ " has been successfully added to the catalog.")
        else
          ret (false, "Database error occurred while adding the book.")
    end.

Definition borrow_book_by_patron (now : datetime) (patron_id : string)
    (book_id : Z) : M (bool * string) :=
  if negb (str_bool patron_id) || negb (str_isdigit patron_id)
     || negb (len patron_id =? 6) then
    ret (false, "Invalid patron ID. Must be exactly 6 digits.")
  else
    do book <- get_book_by_id book_id ;;
    match book with
    | None => ret (false, "Book not found.")
    | Some book =>
        if Book.available_copies book <=? 0 then
          ret (false, "This book is currently not available.")
        else
          do current_borrowed <- get_patron_borrow_count patron_id ;;
          if current_borrowed >=? 5 then
            ret (false,
                 "You have reached the maximum borrowing limit of 5 books.")
          else
            let borrow_date := now in
            let due_date := borrow_date + timedelta_days 14 in
            do borrow_success <-
              insert_borrow_record patron_id book_id borrow_date due_date ;;
            if negb borrow_success then
              ret (false,
                   "Database error occurred while creating borrow record.")
            else
              do availability_success <-
                update_book_availability book_id (-1) ;;
              if negb availability_success then
                ret (false,
                     "Database error occurred while updating book availability.")
              else
                ret (true,
                     "Successfully borrowed " +:+ dquote +:+ Book.title book
                     +:+ dquote +:+ ". Due date: " +:+ strftime_ymd due_date
                     +:+ ".")
    end.

(** The loop that looks a book up among the borrowed ones: the first row
    of the book. *)
Definition find_borrowed (book_id : Z) (borrowed_books : list BorrowedBook.t)
    : option BorrowedBook.t :=
  List.find (fun record => BorrowedBook.book_id record =? book_id)
    borrowed_books.

Definition return_book_by_patron (now : datetime) (patron_id : string)
    (book_id : Z) : M (bool * string) :=
  if negb (str_bool patron_id) || negb (str_isdigit patron_id)
     || negb (len patron_id =? 6) then
    ret (false, "Invalid patron ID. Must be exactly 6 digits.")
  else
    do book <- get_book_by_id book_id ;;
    match book with
    | None => ret (false, "Book not found.")
    | Some book =>
        do borrowed_books <- get_patron_borrowed_books now patron_id ;;
        match find_borrowed book_id borrowed_books with
        | None =>
            ret (false, "No borrowing record found for this patron and book.")
        | Some borrow_record =>
            let return_date := now in
            do success <-
              update_borrow_record_return_date patron_id book_id return_date ;;
            if negb success then
              ret (false, "Database error occurred while updating return date.")
            else
              do availability_success <- update_book_availability book_id 1 ;;
              if negb availability_success then
                ret (false,
                     "Database error occurred while updating book availability.")
              else
                ret (true,
                     "Successfully returned " +:+ dquote +:+ Book.title book
                     +:+ dquote +:+ ". Return date: "
                     +:+ strftime_ymd return_date +:+ ".")
        end
    end.

(** The mapping [calculate_late_fee_for_book] returns. *)
Record LateFee : Type := mkLateFee {
  fee_amount : Q;
  days_overdue : Z;
  status : string
}.

Definition calculate_late_fee_for_book (now : datetime) (patron_id : string)
    (book_id : Z) : M LateFee :=
  if negb (str_bool patron_id) || negb (str_isdigit patron_id)
     || negb (len patron_id =? 6) then
    ret (mkLateFee 0.00 0 "Invalid patron ID. Must be exactly 6 digits.")
  else
    do book <- get_book_by_id book_id ;;
    match book with
    | None => ret (mkLateFee 0.00 0 "Book not found.")
    | Some book =>
        do borrowed_books <- get_patron_borrowed_books now patron_id ;;
        match find_borrowed book_id borrowed_books with
        | None => ret (mkLateFee 0.00 0 "No active borrowing record found.")
        | Some borrow_record =>
            let due_date := BorrowedBook.due_date borrow_record in
            let current_date := now in
            let days_overdue := Z.max 0 (td_days (current_date - due_date)) in
            let fee_amount :=
              if days_overdue >? 0 then
                Qmin
                  (if days_overdue <=? 7 then (inject_Z days_overdue * 0.50)%Q
                   else (7 * 0.50 + inject_Z (days_overdue - 7) * 1.00)%Q)
                  15.00%Q
              else 0.00%Q in
            ret (mkLateFee (round2 fee_amount) days_overdue
                   (if days_overdue =? 0 then "Success"
                    else "Overdue by " +:+ pretty days_overdue +:+ " days"))
        end
    end.

(** The late fee the report computes for one overdue row. *)
Definition report_late_fee (now : datetime) (record : BorrowedBook.t) : Q :=
  let days_overdue := td_days (now - BorrowedBook.due_date record) in
  let late_fee :=
    if days_overdue <=? 7 then (inject_Z days_overdue * 0.50)%Q
    else (7 * 0.50 + inject_Z (days_overdue - 7) * 1.00)%Q in
  Qmin late_fee 15.00%Q.

(** The order of the history query: newest borrow first. *)
Definition newer_first (a b : HistoryRow.t) : Prop :=
  HistoryRow.borrow_date b <= HistoryRow.borrow_date a.

#[global] Instance newer_first_dec (a b : HistoryRow.t) :
  Decision (newer_first a b) := Z_le_dec _ _.

(** The query the report runs on its own connection: the records of the
    patron joined with their books, newest borrow first. *)
Definition history_query (patron_id : string) : M (list HistoryRow.t) :=
  fun w =>
    (Returned
       (merge_sort newer_first
          (omap
             (fun br =>
                if String.eqb (BorrowRecord.patron_id br) patron_id then
                  match books (db w) !! BorrowRecord.book_id br with
                  | Some b =>
                      Some (HistoryRow.mk (BorrowRecord.book_id br)
                              (Book.title b) (Book.author b)
                              (BorrowRecord.borrow_date br)
                              (BorrowRecord.due_date br)
                              (BorrowRecord.return_date br))
                  | None => None
                  end
                else None)
             (borrow_records (db w)))), w).

(** The mapping [get_patron_status_report] returns; [error] is the entry
    only the report of an invalid patron has. *)
Record StatusReport : Type := mkStatusReport {
  error : option string;
  currently_borrowed_books : list BorrowedBook.t;
  total_borrowed : Z;
  total_late_fees : Q;
  borrowing_history : list HistoryRow.t
}.

Definition get_patron_status_report (now : datetime) (patron_id : string)
    : M StatusReport :=
  if negb (str_bool patron_id) || negb (str_isdigit patron_id)
     || negb (len patron_id =? 6) then
    ret (mkStatusReport
           (Some "Invalid patron ID. Must be exactly 6 digits.") [] 0 0.00%Q [])
  else
    do borrowed_books <- get_patron_borrowed_books now patron_id ;;
    let total_late_fees :=
      fold_left
        (fun total record =>
           if BorrowedBook.is_overdue record then
             (total + report_late_fee now record)%Q
           else total)
        borrowed_books 0.00%Q in
    do history_records <- history_query patron_id ;;
    let borrowing_history := history_records in
    ret (mkStatusReport None borrowed_books
           (Z.of_nat (length borrowed_books)) (round2 total_late_fees)
           borrowing_history).

Definition pay_late_fees (now : datetime) (patron_id : string) (book_id : Z)
    (payment_gateway : PaymentGateway) : M (bool * pyval) :=
  if negb (str_bool patron_id) || negb (str_isdigit patron_id)
     || negb (len patron_id =? 6) then
    ret (false, PyStr "Invalid patron ID")
  else
    do book <- get_book_by_id book_id ;;
    match book with
    | None => ret (false, PyStr "Book not found")
    | Some book =>
        do r <- calculate_late_fee_for_book now patron_id book_id ;;
        let fee := fee_amount r in
        let days := days_overdue r in
        if String.eqb (status r) "Book not found."
           || String.eqb (status r) "No active borrowing record found." then
          ret (false, PyStr (status r))
        else if Qle_bool fee 0 then
          ret (true, PyStr "No late fees")
        else
          do resp <-
            attempt (call_process_payment payment_gateway patron_id (FFin fee)) ;;
          match resp with
          | Raised e => ret (false, PyStr ("Payment exception: " +:+ exn_str e))
          | Returned resp =>
              do failed <-
                (if negb (py_bool resp) then ret true
                 else
                   do st <- lift (py_get resp "status") ;;
                   ret (py_ne_str st "success")) ;;
              if failed then
                if py_isinstance_dict resp then
                  do reason <- lift (py_get resp "reason") ;;
                  ret (false, reason)
                else ret (false, PyStr "Payment failed")
              else
                do transaction_id <- lift (py_getitem resp "transaction_id") ;;
                ret (true,
                     PyDict [("transaction_id", transaction_id);
                             ("charged", PyFloat (FFin (round2 fee)));
                             ("days_overdue", PyInt days)])
          end
    end.

Section Refund.

(** [float(s)] on a string: the number read, or nothing where the text is
    not one. *)
Variable float_of_str : string -> option pyfloat.

(** [float(v)] *)
Definition py_float (v : pyval) : outcome pyfloat :=
  match v with
  | PyFloat x => Returned x
  | PyInt z =>
      if 2 ^ 1024 - 2 ^ 970 <=? Z.abs z then
        Raised (Exn "OverflowError" "int too large to convert to float")
      else Returned (FFin (inject_Z z))
  | PyBool b => Returned (FFin (if b then 1 else 0))
  | PyStr s =>
      match float_of_str s with
      | Some x => Returned x
      | None =>
          Raised (Exn "ValueError"
                    ("could not convert string to float: '" +:+ s +:+ "'"))
      end
  | _ =>
      Raised (Exn "TypeError"
                ("float() argument must be a string or a real number, not '"
                 +:+ py_type_name v +:+ "'"))
  end.

Definition refund_late_fee_payment (transaction_id amount : pyval)
    (payment_gateway : PaymentGateway) : M (bool * pyval) :=
  if negb (py_bool transaction_id) || negb (py_isinstance_str transaction_id)
  then ret (false, PyStr "Invalid transaction")
  else
    match py_float amount with
    | Raised _ => ret (false, PyStr "Invalid amount")
    | Returned amt =>
        if float_le amt (FFin 0) || float_gt amt (FFin 15.0) then
          ret (false, PyStr "Amount must be >0 and â‰¤15")
        else
          do resp <-
            attempt
              (call_refund_payment payment_gateway
                 (match transaction_id with PyStr t => t | _ => EmptyString end)
                 amt) ;;
          match resp with
          | Raised e => ret (false, PyStr ("Refund exception: " +:+ exn_str e))
          | Returned resp =>
              do failed <-
                (if negb (py_bool resp) then ret true
                 else
                   do st <- lift (py_get resp "status") ;;
                   ret (py_ne_str st "refunded")) ;;
              if failed then
                if py_isinstance_dict resp then
                  do reason <- lift (py_get resp "reason") ;;
                  ret (false, reason)
                else ret (false, PyStr "Refund failed")
              else
                do refund_id <- lift (py_getitem resp "refund_id") ;;
                ret (true,
                     PyDict [("refund_id", refund_id);
                             ("refunded", PyFloat (float_round2 amt))])
          end
    end.

End Refund.

(** ** Notions the properties are stated with *)

(** A patron id the service accepts: six characters, all digits. *)
Definition valid_patron_id (patron_id : string) : bool :=
  str_isdigit patron_id && (len patron_id =? 6).

(** The unreturned record of the pair that comes first in the store. *)
Definition first_open_loan (patron_id : string) (book_id : Z) (s : Store)
    : option BorrowRecord.t :=
  List.find (is_open_loan patron_id book_id) (borrow_records s).

(** An unreturned record of the book, whoever holds it. *)
Definition is_out (book_id : Z) (r : BorrowRecord.t) : bool :=
  is_unreturned r && (BorrowRecord.book_id r =? book_id).

(** Number of unreturned records of a book. *)
Definition unreturned_count (book_id : Z) (s : Store) : Z :=
  Z.of_nat (length (List.filter (is_out book_id) (borrow_records s))).

(** Number of unreturned records of a patron. *)
Definition patron_loans (patron_id : string) (s : Store) : Z :=
  Z.of_nat (length (List.filter (is_borrowed_by patron_id) (borrow_records s))).

(** Available copies of a book of the store. *)
Definition available_of (book_id : Z) (s : Store) : option Z :=
  Book.available_copies <$> books s !! book_id.

(** The invariant of the data model: for every book,
    available = total - unreturned records. *)
Definition availability_invariant (s : Store) : Prop :=
  forall (i : Z) (b : Book.t),
    books s !! i = Some b ->
    Book.available_copies b = Book.total_copies b - unreturned_count i s.

(** A gateway that answers every call the same way, as the mocks of the
    test suite do. *)
Definition mock_gateway (answer : outcome pyval) : PaymentGateway :=
  mkGateway (fun _ _ => answer) (fun _ _ => answer).

(** A store for the examples: one book, three copies, nothing lent. *)
Definition example_book : Book.t := Book.mk 1 "T" "A" "1234567890123" 3 3.

Definition example_world : World :=
  mkWorld (mkStore {[ 1 := example_book ]} []) [] [].

(** Day [n] after the epoch, at midnight. *)
Definition day (n : Z) : datetime := n * microseconds_per_day.

(** The example store after patron 123456 borrowed book 1 on day 19000
    (due on day 19014). *)
Definition lent_world : World :=
  world (borrow_book_by_patron (day 19000) "123456" 1 example_world).

(** ... and after the same patron borrowed the same book once more. *)
Definition twice_lent_world : World :=
  world (borrow_book_by_patron (day 19001) "123456" 1 lent_world).

(** The store with the book lent once, after the patron returned it on day
    19002. *)
Definition returned_world : World :=
  world (return_book_by_patron (day 19002) "123456" 1 lent_world).

(** The store in which the patron holds the book twice, after the patron
    returned it on day 19002. *)
Definition twice_returned_world : World :=
  world (return_book_by_patron (day 19002) "123456" 1 twice_lent_world).

(** A store in which patron 123456 holds five unreturned copies of a book
    of which four more are available. *)
Definition five_loans_world : World :=
  mkWorld
    (mkStore {[ 1 := Book.mk 1 "T" "A" "1234567890123" 9 4 ]}
       (replicate 5
          (BorrowRecord.mk "123456" 1 (day 19000) (day 19014) None)))
    [] [].

Fixpoint str_repeat (c : ascii) (n : nat) : string :=
  match n with
  | O => EmptyString
  | S n' => String c (str_repeat c n')
  end.

(** A title of 200 letters with a space before and after: 202 characters. *)
Definition padded_title : string :=
  " " +:+ str_repeat "A"%char 200 +:+ " ".

(** ** The catalog search *)

(** [c.lower()] of one character: A..Z and the capital letters of Latin-1
    (the multiplication sign, 215, is none). *)
Definition chr_lower (c : ascii) : ascii :=
  let n := N_of_ascii c in
  if (((65 <=? n) && (n <=? 90))
      || ((192 <=? n) && (n <=? 222) && negb (n =? 215)))%N
  then ascii_of_N (n + 32)
  else c.

(** [s.lower()] *)
Fixpoint str_lower (s : string) : string :=
  match s with
  | EmptyString => EmptyString
  | String c s' => String (chr_lower c) (str_lower s')
  end.

(** [needle in hay]: [needle] starts at some position of [hay]. *)
Fixpoint str_contains (needle hay : string) : bool :=
  String.prefix needle hay
  || match hay with
     | EmptyString => false
     | String _ hay' => str_contains needle hay'
     end.

(** The order of the catalog: by title, character by character. *)
Definition title_le (a b : Book.t) : Prop :=
  String.leb (Book.title a) (Book.title b) = true.

#[global] Instance title_le_dec (a b : Book.t) : Decision (title_le a b) :=
  bool_eq_dec _ _.

(** Modelled from the spec: [all_books()] of [database.py], missing from
    the sources: the books, ordered by title. *)
Definition get_all_books : M (list Book.t) :=
  fun w =>
    (Returned (merge_sort title_le (snd <$> map_to_list (books (db w)))), w).

(** The test of the search loop on one book. *)
Definition search_matches (search_term search_type : string)
    (book : Book.t) : bool :=
  let search_term_lower := str_lower (str_strip search_term) in
  if String.eqb search_type "title" then
    str_contains search_term_lower (str_lower (Book.title book))
  else if String.eqb search_type "author" then
    str_contains search_term_lower (str_lower (Book.author book))
  else if String.eqb search_type "isbn" then
    String.eqb (Book.isbn book) (str_strip search_term)
  else false.

Definition search_books_in_catalog (search_term search_type : string)
    : M (list Book.t) :=
  if negb (str_bool search_term) || negb (str_bool (str_strip search_term))
  then ret []
  else
    let valid_types := ["title"; "author"; "isbn"] in
    if negb (existsb (String.eqb search_type) valid_types) then ret []
    else
      do books <- get_all_books ;;
      ret (List.filter (search_matches search_term search_type) books).

(** ** Further notions the properties are stated with *)

(** No patron holds more than five unreturned records. *)
Definition loan_limit (s : Store) : Prop :=
  forall patron_id : string, patron_loans patron_id s <= 5.

(** No book has a negative number of available copies. *)
Definition available_nonneg (s : Store) : Prop :=
  forall (i : Z) (b : Book.t),
    books s !! i = Some b -> 0 <= Book.available_copies b.

(** No two books of the store share an ISBN. *)
Definition isbn_unique (s : Store) : Prop :=
  forall (i j : Z) (b1 b2 : Book.t),
    books s !! i = Some b1 -> books s !! j = Some b2 ->
    Book.isbn b1 = Book.isbn b2 -> i = j.

(** The fee of the report summed over the overdue rows, before rounding. *)
Definition sum_late_fees (now : datetime) (rows : list BorrowedBook.t) : Q :=
  fold_left
    (fun total record =>
       if BorrowedBook.is_overdue record then
         (total + report_late_fee now record)%Q
       else total)
    rows 0.00%Q.

(** A catalog of three books for the examples. *)
Definition three_books_world : World :=
  mkWorld
    (mkStore
       (list_to_map
          [(1, Book.mk 1 "Operating Systems" "Silberschatz" "9781119320913" 2 2);
           (2, Book.mk 2 "Discrete Math" "Kenneth Rosen" "9781259676512" 1 1);
           (3, Book.mk 3 "Semiotics: The Science of Signs" "Donato Santeramo"
                 "9783862902279" 3 3)])
       [])
    [] [].

(** The write on the store that comes [n] writes from now does not fail. *)
Definition write_ok (n : nat) (w : World) : Prop :=
  db_faults w !! n <> Some true.

(** Number of unreturned records of a pair. *)
Definition open_loans (patron_id : string) (book_id : Z) (s : Store) : Z :=
  Z.of_nat
    (length (List.filter (is_open_loan patron_id book_id) (borrow_records s))).

(** The fee after [d] whole days overdue, in cents. *)
Definition fee_cents (d : Z) : Z :=
  if d <=? 7 then 50 * d else Z.min (350 + 100 * (d - 7)) 1500.

(** The example store on which the first write succeeds and the second
    fails. *)
Definition faulty_world : World :=
  mkWorld (db example_world) [false; true] [].

(** A store whose one copy of book 1 is lent to patron 111111. *)
Definition lent_out_world : World :=
  mkWorld
    (mkStore {[ 1 := Book.mk 1 "T" "A" "1234567890123" 1 0 ]}
       [BorrowRecord.mk "111111" 1 (day 19000) (day 19014) None])
    [] [].

(** The example store after patron 123456 borrowed book 1, returned it and
    borrowed it again on day 19005, and patron 654321 borrowed it on day
    19006. *)
Definition history_world : World :=
  world
    (borrow_book_by_patron (day 19006) "654321" 1
       (world (borrow_book_by_patron (day 19005) "123456" 1 returned_world))).

(** The example store after the addition of a second book. *)
Definition added_world : World :=
  world (add_book_to_catalog "  Hello " " Bob  " "9783862902279" 2
           example_world).

(** * Properties *)

(** ** Rounding and the fee schedule *)

Lemma round_half_even_comp (q q' : Q) :
  (q == q')%Q -> round_half_even q = round_half_even q'.
Proof.
  intros H. unfold round_half_even.
  rewrite (Qfloor_comp _ _ H).
  assert (E : ((q - inject_Z (Qfloor q') ?= 1 # 2)
               = (q' - inject_Z (Qfloor q') ?= 1 # 2))%Q) by now rewrite H.
  now rewrite E.
Qed.

Lemma round_half_even_Z (z : Z) : round_half_even (inject_Z z) = z.
Proof.
  unfold round_half_even. rewrite Qfloor_Z.
  assert (E : ((inject_Z z - inject_Z z ?= 1 # 2) = Lt)%Q).
  { rewrite <- Qlt_alt. lra. }
  now rewrite E.
Qed.

Lemma round2_comp (q q' : Q) : (q == q')%Q -> (round2 q == round2 q')%Q.
Proof.
  intros H. unfold round2.
  assert (E : (q * 100 == q' * 100)%Q) by now rewrite H.
  now rewrite (round_half_even_comp _ _ E).
Qed.

(** Rounding to cents leaves a multiple of one half as it is. *)
Lemma round2_halves (k : Z) (q : Q) :
  (q == inject_Z k * (1 # 2))%Q -> (round2 q == q)%Q.
Proof.
  intros H. unfold round2.
  assert (E : (q * 100 == inject_Z (50 * k))%Q).
  { rewrite H, inject_Z_mult. change (inject_Z 50) with (50 # 1)%Q. lra. }
  rewrite (round_half_even_comp _ _ E), round_half_even_Z.
  rewrite inject_Z_mult, H. change (inject_Z 50) with (50 # 1)%Q. field.
Qed.

Lemma inject_Z_le (a b : Z) : a <= b -> (inject_Z a <= inject_Z b)%Q.
Proof. intros H. now rewrite <- Zle_Qle. Qed.

(** The fee of the calculator, as a function of the days overdue. *)
Lemma fee_first_week (d : Z) :
  1 <= d <= 7 ->
  (round2 (Qmin (inject_Z d * 0.50) 15.00) == inject_Z d * 0.50)%Q.
Proof.
  intros [H1 H7].
  assert (Hq := inject_Z_le _ _ H7). change (inject_Z 7) with (7 # 1)%Q in Hq.
  assert (E : (Qmin (inject_Z d * 0.50) 15.00 == inject_Z d * 0.50)%Q).
  { apply Q.min_l. lra. }
  rewrite (round2_comp _ _ E). apply (round2_halves d). lra.
Qed.

Lemma fee_later (d : Z) :
  7 < d ->
  (round2 (Qmin (7 * 0.50 + inject_Z (d - 7) * 1.00) 15.00)
   == Qmin (3.50 + inject_Z (d - 7) * 1.00) 15.00)%Q.
Proof.
  intros H7.
  assert (E : (Qmin (7 * 0.50 + inject_Z (d - 7) * 1.00) 15.00
               == Qmin (3.50 + inject_Z (d - 7) * 1.00) 15.00)%Q).
  { apply Q.min_compat; lra. }
  rewrite (round2_comp _ _ E).
  destruct (Q.min_spec (3.50 + inject_Z (d - 7) * 1.00) 15.00)%Q
    as [[_ Hm] | [_ Hm]]; rewrite (round2_comp _ _ Hm), Hm.
  - apply (round2_halves (2 * d - 7)).
    replace (2 * d - 7) with (2 * (d - 7) + 7) by lia.
    rewrite inject_Z_plus, inject_Z_mult.
    change (inject_Z 2) with (2 # 1)%Q. change (inject_Z 7) with (7 # 1)%Q.
    lra.
  - apply (round2_halves 30). reflexivity.
Qed.

(** ** The checks and lookups the service functions share *)

Lemma patron_check_valid (patron_id : string) :
  valid_patron_id patron_id = true ->
  negb (str_bool patron_id) || negb (str_isdigit patron_id)
  || negb (len patron_id =? 6) = false.
Proof.
  unfold valid_patron_id. intros [Hd Hl]%andb_prop.
  rewrite Hd, Hl. destruct patron_id; [discriminate Hd | reflexivity].
Qed.

Lemma patron_check_invalid (patron_id : string) :
  valid_patron_id patron_id = false ->
  negb (str_bool patron_id) || negb (str_isdigit patron_id)
  || negb (len patron_id =? 6) = true.
Proof.
  unfold valid_patron_id. intros H.
  destruct (str_bool patron_id), (str_isdigit patron_id),
    (len patron_id =? 6); simpl in *; congruence.
Qed.

(** The lookup loop over the borrowed rows finds the row of the first
    unreturned record of the pair. *)
Lemma find_borrowed_rows (now : datetime) (patron_id : string) (book_id : Z)
    (l : list BorrowRecord.t) :
  find_borrowed book_id
    (List.map (borrowed_row now) (List.filter (is_borrowed_by patron_id) l))
  = borrowed_row now <$> List.find (is_open_loan patron_id book_id) l.
Proof.
  unfold find_borrowed, is_open_loan.
  induction l as [| r l IH]; simpl; [reflexivity |].
  destruct (is_borrowed_by patron_id r); simpl; [| exact IH].
  destruct (BorrowRecord.book_id r =? book_id); [reflexivity | exact IH].
Qed.

Lemma td_days_nonneg (td : timedelta) : 0 <= td -> 0 <= td_days td.
Proof.
  intros H. unfold td_days, microseconds_per_day. apply Z.div_pos; lia.
Qed.

(** The calculator on a pair with an unreturned record. *)
Lemma calculate_late_fee_found (w : World) (now : datetime)
    (patron_id : string) (book_id : Z) (book : Book.t)
    (record : BorrowRecord.t) :
  valid_patron_id patron_id = true ->
  books (db w) !! book_id = Some book ->
  first_open_loan patron_id book_id (db w) = Some record ->
  calculate_late_fee_for_book now patron_id book_id w
  = (let days_overdue :=
       Z.max 0 (td_days (now - BorrowRecord.due_date record)) in
     Returned
       (mkLateFee
          (round2
             (if days_overdue >? 0 then
                Qmin
                  (if days_overdue <=? 7 then (inject_Z days_overdue * 0.50)%Q
                   else (7 * 0.50 + inject_Z (days_overdue - 7) * 1.00)%Q)
                  15.00%Q
              else 0.00%Q))
          days_overdue
          (if days_overdue =? 0 then "Success"
           else "Overdue by " +:+ pretty days_overdue +:+ " days")), w).
Proof.
  intros Hp Hb Hr. unfold calculate_late_fee_for_book.
  rewrite (patron_check_valid _ Hp).
  unfold bind, get_book_by_id, get_patron_borrowed_books, ret. simpl.
  rewrite Hb, find_borrowed_rows.
  unfold first_open_loan in Hr. rewrite Hr. reflexivity.
Qed.

(** C1. For a valid patron id, an existing book and an unreturned record of
    the pair whose due date is not after the current time, the fee calculator
    returns the whole days elapsed since the due date as [days_overdue], and
    as [fee_amount]: 0 at 0 days; 0.50 a day from 1 to 7 days; 3.50 plus
    1.00 a day beyond the seventh, capped at 15.00, after 7 days; the status
    is "Success" at 0 days and "Overdue by N days" otherwise. *)
Theorem late_fee_schedule (w : World) (now : datetime) (patron_id : string)
    (book_id : Z) (book : Book.t) (record : BorrowRecord.t) :
  valid_patron_id patron_id = true ->
  books (db w) !! book_id = Some book ->
  first_open_loan patron_id book_id (db w) = Some record ->
  BorrowRecord.due_date record <= now ->
  exists r : LateFee,
    calculate_late_fee_for_book now patron_id book_id w = (Returned r, w)
    /\ days_overdue r = td_days (now - BorrowRecord.due_date record)
    /\ 0 <= days_overdue r
    /\ (days_overdue r = 0 ->
        (fee_amount r == 0)%Q /\ status r = "Success")
    /\ (1 <= days_overdue r <= 7 ->
        (fee_amount r == inject_Z (days_overdue r) * 0.50)%Q
        /\ status r = "Overdue by " +:+ pretty (days_overdue r) +:+ " days")
    /\ (7 < days_overdue r ->
        (fee_amount r
         == Qmin (3.50 + inject_Z (days_overdue r - 7) * 1.00) 15.00)%Q
        /\ status r = "Overdue by " +:+ pretty (days_overdue r) +:+ " days").
Proof.
  intros Hp Hb Hr Hdue.
  rewrite (calculate_late_fee_found w now _ _ _ _ Hp Hb Hr).
  assert (Hd : 0 <= td_days (now - BorrowRecord.due_date record))
    by (apply td_days_nonneg; lia).
  cbv zeta. rewrite (Z.max_r _ _ Hd).
  set (d := td_days (now - BorrowRecord.due_date record)) in *.
  eexists. split; [reflexivity |]. simpl.
  split; [reflexivity |]. split; [exact Hd |].
  split; [| split].
  - intros E. rewrite E. split; reflexivity.
  - intros H. destruct (Z.gtb_spec d 0) as [_ | ?]; [| lia].
    destruct (Z.leb_spec d 7) as [_ | ?]; [| lia].
    destruct (Z.eqb_spec d 0) as [? | _]; [lia |].
    split; [apply fee_first_week; exact H | reflexivity].
  - intros H. destruct (Z.gtb_spec d 0) as [_ | ?]; [| lia].
    destruct (Z.leb_spec d 7) as [? | _]; [lia |].
    destruct (Z.eqb_spec d 0) as [? | _]; [lia |].
    split; [apply fee_later; exact H | reflexivity].
Qed.

(** ** What a successful borrow and a successful return write *)

Lemma borrow_success_inv (w w' : World) (now : datetime) (patron_id : string)
    (book_id : Z) (msg : string) :
  borrow_book_by_patron now patron_id book_id w = (Returned (true, msg), w') ->
  valid_patron_id patron_id = true
  /\ (exists book : Book.t,
        books (db w) !! book_id = Some book /\ 0 < Book.available_copies book)
  /\ patron_loans patron_id (db w) < 5
  /\ db w'
     = mkStore (alter (add_available (-1)) book_id (books (db w)))
         (borrow_records (db w)
            ++ [BorrowRecord.mk patron_id book_id now
                  (now + timedelta_days 14) None])
  /\ gateway_calls w' = gateway_calls w.
Proof.
  unfold borrow_book_by_patron.
  destruct (valid_patron_id patron_id) eqn:Hp;
    [rewrite (patron_check_valid _ Hp)
    | rewrite (patron_check_invalid _ Hp); discriminate].
  unfold bind, get_book_by_id, get_patron_borrow_count, insert_borrow_record,
    update_book_availability, db_write, ret. simpl.
  destruct (books (db w) !! book_id) as [book |] eqn:Hb; [| discriminate].
  destruct (Z.leb_spec (Book.available_copies book) 0) as [? | Ha];
    [discriminate |].
  fold (patron_loans patron_id (db w)).
  destruct (Z.geb_spec (patron_loans patron_id (db w)) 5) as [? | Hc];
    [discriminate |].
  destruct (db_faults w) as [| [] [| [] faults]]; simpl;
    intros H; try discriminate H; injection H as _ <-; simpl;
    (split; [reflexivity |]); (split; [exists book; split; [reflexivity | lia] |]);
    (split; [lia |]); split; reflexivity.
Qed.

Lemma return_success_inv (w w' : World) (now : datetime) (patron_id : string)
    (book_id : Z) (msg : string) :
  return_book_by_patron now patron_id book_id w = (Returned (true, msg), w') ->
  valid_patron_id patron_id = true
  /\ (exists book : Book.t, books (db w) !! book_id = Some book)
  /\ (exists record : BorrowRecord.t,
        first_open_loan patron_id book_id (db w) = Some record)
  /\ db w'
     = mkStore (alter (add_available 1) book_id (books (db w)))
         (close_loan patron_id book_id now (borrow_records (db w)))
  /\ gateway_calls w' = gateway_calls w.
Proof.
  unfold return_book_by_patron.
  destruct (valid_patron_id patron_id) eqn:Hp;
    [rewrite (patron_check_valid _ Hp)
    | rewrite (patron_check_invalid _ Hp); discriminate].
  unfold bind, get_book_by_id, get_patron_borrowed_books,
    update_borrow_record_return_date, update_book_availability, db_write, ret.
  simpl.
  destruct (books (db w) !! book_id) as [book |] eqn:Hb; [| discriminate].
  rewrite find_borrowed_rows. fold (first_open_loan patron_id book_id (db w)).
  destruct (first_open_loan patron_id book_id (db w)) as [record |] eqn:Hr;
    [| discriminate].
  simpl.
  destruct (db_faults w) as [| [] [| [] faults]]; simpl;
    intros H; try discriminate H; injection H as _ <-; simpl;
    (split; [reflexivity |]); (split; [exists book; reflexivity |]);
    (split; [exists record; reflexivity |]); split; reflexivity.
Qed.

(** A return without an unreturned record of the pair is refused, and
    nothing is written. *)
Lemma return_without_loan (w : World) (now : datetime) (patron_id : string)
    (book_id : Z) (book : Book.t) :
  valid_patron_id patron_id = true ->
  books (db w) !! book_id = Some book ->
  first_open_loan patron_id book_id (db w) = None ->
  return_book_by_patron now patron_id book_id w
  = (Returned (false, "No borrowing record found for this patron and book."),
     w).
Proof.
  intros Hp Hb Hr. unfold return_book_by_patron.
  rewrite (patron_check_valid _ Hp).
  unfold bind, get_book_by_id, get_patron_borrowed_books, ret. simpl.
  rewrite Hb, find_borrowed_rows.
  unfold first_open_loan in Hr. rewrite Hr. reflexivity.
Qed.

(** ** Counting unreturned records *)

Lemma length_filter_app {A : Type} (f : A -> bool) (l1 l2 : list A) :
  length (List.filter f (l1 ++ l2))
  = (length (List.filter f l1) + length (List.filter f l2))%nat.
Proof. rewrite List.filter_app. apply length_app. Qed.

(** What closing the loans of a pair does to a count of records: the
    records of the pair that were counted are counted no more. *)
Lemma close_loan_filter (f : BorrowRecord.t -> bool) (counted : bool)
    (patron_id : string) (book_id : Z) (date : datetime)
    (l : list BorrowRecord.t) :
  (forall r : BorrowRecord.t,
     is_open_loan patron_id book_id r = true -> f r = counted) ->
  (forall r : BorrowRecord.t, f (close_record date r) = false) ->
  (length (List.filter f (close_loan patron_id book_id date l))
   + (if counted
      then length (List.filter (is_open_loan patron_id book_id) l)
      else 0)
   = length (List.filter f l))%nat.
Proof.
  intros Hopen Hclosed. unfold close_loan.
  induction l as [| r l IH]; simpl; [destruct counted; reflexivity |].
  destruct (is_open_loan patron_id book_id r) eqn:Hr; simpl.
  - rewrite Hclosed, (Hopen r Hr). destruct counted; simpl; lia.
  - destruct (f r); simpl; lia.
Qed.

(** Without an unreturned record of the pair, closing its loans changes
    nothing. *)
Lemma close_loan_id (patron_id : string) (book_id : Z) (date : datetime)
    (l : list BorrowRecord.t) :
  length (List.filter (is_open_loan patron_id book_id) l) = 0%nat ->
  close_loan patron_id book_id date l = l.
Proof.
  unfold close_loan. induction l as [| r l IH]; simpl; [reflexivity |].
  destruct (is_open_loan patron_id book_id r); simpl; [discriminate |].
  intros H. now rewrite (IH H).
Qed.

(** With one unreturned record of the pair, closing its loans closes that
    record and leaves the others as they are. *)
Lemma close_loan_single (patron_id : string) (book_id : Z) (date : datetime)
    (l : list BorrowRecord.t) :
  length (List.filter (is_open_loan patron_id book_id) l) = 1%nat ->
  exists (l1 l2 : list BorrowRecord.t) (r : BorrowRecord.t),
    l = (l1 ++ r :: l2)%list
    /\ is_open_loan patron_id book_id r = true
    /\ close_loan patron_id book_id date l
       = (l1 ++ close_record date r :: l2)%list.
Proof.
  unfold close_loan.
  induction l as [| r l IH]; simpl; [discriminate |].
  destruct (is_open_loan patron_id book_id r) eqn:Hr; simpl.
  - intros [= H]. exists [], l, r.
    split; [reflexivity |]. split; [exact Hr |].
    pose proof (close_loan_id patron_id book_id date l H) as Hid.
    unfold close_loan in Hid. rewrite Hid. reflexivity.
  - intros H. destruct (IH H) as (l1 & l2 & r' & E & Ho & Hc).
    exists (r :: l1), l2, r'.
    split; [rewrite E; reflexivity |]. split; [exact Ho |].
    rewrite Hc. reflexivity.
Qed.

(** The patron holds an unreturned record of the book exactly when the
    lookup of the services finds one. *)
Lemma open_loans_pos (patron_id : string) (book_id : Z) (s : Store) :
  0 < open_loans patron_id book_id s
  <-> exists record : BorrowRecord.t,
        first_open_loan patron_id book_id s = Some record.
Proof.
  unfold open_loans, first_open_loan.
  induction (borrow_records s) as [| r l IH]; simpl.
  - split; [lia | intros [? ?]; discriminate].
  - destruct (is_open_loan patron_id book_id r); simpl; [| exact IH].
    split; [eauto | lia].
Qed.

Lemma is_open_loan_out (patron_id : string) (book_id i : Z)
    (r : BorrowRecord.t) :
  is_open_loan patron_id book_id r = true ->
  is_out i r = (book_id =? i).
Proof.
  unfold is_open_loan, is_borrowed_by, is_out.
  intros [[_ Hu]%andb_prop Hb%Z.eqb_eq]%andb_prop.
  rewrite Hu, Hb. reflexivity.
Qed.

Lemma unreturned_count_close (patron_id : string) (book_id i : Z)
    (date : datetime) (s : Store) (m : gmap Z Book.t) :
  unreturned_count i
    (mkStore m (close_loan patron_id book_id date (borrow_records s)))
  = unreturned_count i s
    - (if book_id =? i then open_loans patron_id book_id s else 0).
Proof.
  unfold unreturned_count, open_loans. simpl.
  assert (H := close_loan_filter (is_out i) (book_id =? i) patron_id book_id
                 date (borrow_records s)
                 (fun r Hr => is_open_loan_out _ _ i r Hr)
                 (fun r => eq_refl)).
  destruct (book_id =? i); lia.
Qed.

Lemma unreturned_count_insert (patron_id : string) (book_id i : Z)
    (borrow_date due_date : datetime) (s : Store) (m : gmap Z Book.t) :
  unreturned_count i
    (mkStore m
       (borrow_records s
          ++ [BorrowRecord.mk patron_id book_id borrow_date due_date None]))
  = unreturned_count i s + (if book_id =? i then 1 else 0).
Proof.
  unfold unreturned_count. simpl. rewrite length_filter_app. simpl.
  unfold is_out at 2. simpl. destruct (book_id =? i); simpl; lia.
Qed.

(** The invariant under a paired update: [delta] on the available copies of
    one book, the opposite on the count of its unreturned records. *)
Lemma availability_invariant_step (s s' : Store) (book_id delta : Z) :
  availability_invariant s ->
  books s' = alter (add_available delta) book_id (books s) ->
  (forall i : Z,
     unreturned_count i s'
     = unreturned_count i s - (if book_id =? i then delta else 0)) ->
  availability_invariant s'.
Proof.
  intros Hinv Hb Hc i b. rewrite Hb, Hc, lookup_alter.
  destruct (decide (book_id = i)) as [-> | Hne].
  - rewrite Z.eqb_refl.
    destruct (books s !! i) as [b0 |] eqn:E; simpl; [| discriminate].
    intros [= <-]. simpl. rewrite (Hinv i b0 E). lia.
  - destruct (Z.eqb_spec book_id i) as [? | _]; [contradiction |].
    intros E. rewrite (Hinv i b E). lia.
Qed.

(** ** Circulation *)

(** C2, as the code has it. If available = total - unreturned records
    holds for every book of the store, it holds again after a successful
    borrow, and after a successful return by a patron who holds one
    unreturned record of the book: a successful borrow appends exactly one
    unreturned record and takes one from the available copies of the book;
    such a return closes exactly one unreturned record of the pair and adds
    one to the available copies of the book. *)
Theorem availability_invariant_preserved (w w' : World) (now : datetime)
    (patron_id : string) (book_id : Z) (msg : string) :
  availability_invariant (db w) ->
  (borrow_book_by_patron now patron_id book_id w = (Returned (true, msg), w') ->
   availability_invariant (db w')
   /\ borrow_records (db w')
      = (borrow_records (db w)
         ++ [BorrowRecord.mk patron_id book_id now (now + timedelta_days 14)
               None])%list
   /\ books (db w') = alter (add_available (-1)) book_id (books (db w)))
  /\ (return_book_by_patron now patron_id book_id w
      = (Returned (true, msg), w') ->
      open_loans patron_id book_id (db w) = 1 ->
      availability_invariant (db w')
      /\ (exists (l1 l2 : list BorrowRecord.t) (r : BorrowRecord.t),
            borrow_records (db w) = (l1 ++ r :: l2)%list
            /\ is_open_loan patron_id book_id r = true
            /\ borrow_records (db w')
               = (l1 ++ close_record now r :: l2)%list)
      /\ books (db w') = alter (add_available 1) book_id (books (db w))).
Proof.
  intros Hinv. split; intros H.
  - apply borrow_success_inv in H as (_ & _ & _ & E & _).
    rewrite E. simpl. split; [| split; reflexivity].
    apply (availability_invariant_step (db w) _ book_id (-1) Hinv);
      [reflexivity |].
    intros i. rewrite unreturned_count_insert.
    destruct (book_id =? i); lia.
  - intros Hone.
    apply return_success_inv in H as (_ & _ & _ & E & _).
    rewrite E. simpl. split; [| split; [| reflexivity]].
    + apply (availability_invariant_step (db w) _ book_id 1 Hinv);
        [reflexivity |].
      intros i. rewrite unreturned_count_close, Hone. reflexivity.
    + apply close_loan_single. unfold open_loans in Hone. lia.
Qed.

Lemma add_available_cancel (b : Book.t) :
  add_available 1 (add_available (-1) b) = b.
Proof.
  destruct b. unfold add_available. simpl. f_equal. lia.
Qed.

Lemma available_after_borrow_return (m : gmap Z Book.t) (book_id : Z) :
  alter (add_available 1) book_id (alter (add_available (-1)) book_id m) = m.
Proof.
  apply map_eq. intros i.
  destruct (decide (book_id = i)) as [-> | Hne].
  - rewrite !lookup_alter_eq.
    destruct (m !! i) as [b |]; simpl; [| reflexivity].
    now rewrite add_available_cancel.
  - now rewrite !lookup_alter_ne.
Qed.

Lemma find_app_none {A : Type} (f : A -> bool) (l1 l2 : list A) :
  List.find f l1 = None -> List.find f (l1 ++ l2) = List.find f l2.
Proof.
  induction l1 as [| a l1 IH]; simpl; [reflexivity |].
  destruct (f a); [discriminate | exact IH].
Qed.

Lemma new_loan_is_open (patron_id : string) (book_id : Z)
    (borrow_date due_date : datetime) :
  is_open_loan patron_id book_id
    (BorrowRecord.mk patron_id book_id borrow_date due_date None) = true.
Proof.
  unfold is_open_loan, is_borrowed_by. simpl.
  now rewrite String.eqb_refl, Z.eqb_refl.
Qed.

Lemma closed_record_not_open (patron_id : string) (book_id : Z)
    (date : datetime) (r : BorrowRecord.t) :
  is_open_loan patron_id book_id (close_record date r) = false.
Proof.
  unfold is_open_loan, is_borrowed_by. simpl.
  now rewrite andb_false_r.
Qed.

(** Once the loans of a pair are closed the lookup of the services finds
    no unreturned record of the pair. *)
Lemma close_loan_no_open (patron_id : string) (book_id : Z) (date : datetime)
    (l : list BorrowRecord.t) :
  List.find (is_open_loan patron_id book_id)
    (close_loan patron_id book_id date l) = None.
Proof.
  unfold close_loan. induction l as [| r l IH]; simpl; [reflexivity |].
  destruct (is_open_loan patron_id book_id r) eqn:Hr.
  - rewrite closed_record_not_open. exact IH.
  - rewrite Hr. exact IH.
Qed.

(** C3. A successful borrow followed by a successful return of the same
    pair restores the available copies of the book, and a second return of
    the pair then fails with the message of a missing record and writes
    nothing. *)
Theorem borrow_return_round_trip (w w1 w2 : World) (now1 now2 now3 : datetime)
    (patron_id : string) (book_id : Z) (msg1 msg2 : string) :
  borrow_book_by_patron now1 patron_id book_id w
  = (Returned (true, msg1), w1) ->
  return_book_by_patron now2 patron_id book_id w1
  = (Returned (true, msg2), w2) ->
  available_of book_id (db w2) = available_of book_id (db w)
  /\ return_book_by_patron now3 patron_id book_id w2
     = (Returned
          (false, "No borrowing record found for this patron and book."),
        w2).
Proof.
  intros Hb Hr.
  apply borrow_success_inv in Hb as (Hp & [book [Hbook _]] & _ & E1 & _).
  apply return_success_inv in Hr as (_ & _ & _ & E2 & _).
  rewrite E1 in E2. simpl in E2.
  rewrite available_after_borrow_return in E2.
  split.
  - unfold available_of. rewrite E2. reflexivity.
  - apply return_without_loan with (book := book).
    + exact Hp.
    + rewrite E2. exact Hbook.
    + unfold first_open_loan. rewrite E2. cbn [borrow_records].
      apply close_loan_no_open.
Qed.

(** C4. A valid patron with five or more unreturned records is refused
    every borrow, whatever the book and its availability, and the refusal
    leaves the world as it was: no record is inserted and no available count
    changes. *)
Theorem borrow_limit (w : World) (now : datetime) (patron_id : string)
    (book_id : Z) :
  valid_patron_id patron_id = true ->
  5 <= patron_loans patron_id (db w) ->
  exists reason : string,
    borrow_book_by_patron now patron_id book_id w
    = (Returned (false, reason), w).
Proof.
  intros Hp Hc. unfold borrow_book_by_patron.
  rewrite (patron_check_valid _ Hp).
  unfold bind, get_book_by_id, get_patron_borrow_count, ret. simpl.
  destruct (books (db w) !! book_id) as [book |]; [| eauto].
  destruct (Book.available_copies book <=? 0); [eauto |].
  fold (patron_loans patron_id (db w)).
  destruct (Z.geb_spec (patron_loans patron_id (db w)) 5) as [_ | ?];
    [eauto | lia].
Qed.

(** ** Payments *)

(** The calculator always returns, and writes nothing. *)
Lemma calculate_late_fee_pure (w : World) (now : datetime)
    (patron_id : string) (book_id : Z) :
  exists r : LateFee,
    calculate_late_fee_for_book now patron_id book_id w = (Returned r, w).
Proof.
  unfold calculate_late_fee_for_book.
  destruct (negb (str_bool patron_id) || negb (str_isdigit patron_id)
            || negb (len patron_id =? 6)); [unfold ret; eauto |].
  unfold bind, get_book_by_id, get_patron_borrowed_books, ret. simpl.
  destruct (books (db w) !! book_id); [| eauto].
  destruct (find_borrowed book_id _); eauto.
Qed.

(** With an unreturned record of the pair, the status of the calculator is
    none of its error texts. *)
Lemma calculate_late_fee_status (w w' : World) (now : datetime)
    (patron_id : string) (book_id : Z) (book : Book.t)
    (record : BorrowRecord.t) (r : LateFee) :
  valid_patron_id patron_id = true ->
  books (db w) !! book_id = Some book ->
  first_open_loan patron_id book_id (db w) = Some record ->
  calculate_late_fee_for_book now patron_id book_id w = (Returned r, w') ->
  w' = w
  /\ String.eqb (status r) "Book not found."
     || String.eqb (status r) "No active borrowing record found." = false.
Proof.
  intros Hp Hb Hr.
  rewrite (calculate_late_fee_found w now _ _ _ _ Hp Hb Hr). cbv zeta.
  intros [= <- <-]. split; [reflexivity |]. simpl.
  destruct (Z.max 0 (td_days (now - BorrowRecord.due_date record)) =? 0);
    reflexivity.
Qed.

(** C6. With a valid patron id, an existing book and an unreturned record of
    the pair, a computed fee that is not positive makes [pay_late_fees]
    return success with the message "No late fees"; the world is left as it
    was, so the gateway is not called. *)
Theorem pay_late_fees_no_fee (w w' : World) (now : datetime)
    (patron_id : string) (book_id : Z) (gw : PaymentGateway) (book : Book.t)
    (record : BorrowRecord.t) (r : LateFee) :
  valid_patron_id patron_id = true ->
  books (db w) !! book_id = Some book ->
  first_open_loan patron_id book_id (db w) = Some record ->
  calculate_late_fee_for_book now patron_id book_id w = (Returned r, w') ->
  (fee_amount r <= 0)%Q ->
  pay_late_fees now patron_id book_id gw w
  = (Returned (true, PyStr "No late fees"), w)
  /\ gateway_calls (world (pay_late_fees now patron_id book_id gw w))
     = gateway_calls w.
Proof.
  intros Hp Hb Hr Hc Hfee.
  destruct (calculate_late_fee_status _ _ _ _ _ _ _ _ Hp Hb Hr Hc)
    as [-> Hs].
  assert (E : pay_late_fees now patron_id book_id gw w
              = (Returned (true, PyStr "No late fees"), w)).
  { unfold pay_late_fees. rewrite (patron_check_valid _ Hp).
    unfold bind at 1. unfold get_book_by_id. rewrite Hb.
    unfold bind at 1. rewrite Hc, Hs.
    apply Qle_bool_iff in Hfee. rewrite Hfee. reflexivity. }
  rewrite E. split; reflexivity.
Qed.

(** What [pay_late_fees] makes of the answer of the gateway, once there is a
    fee to charge: a dict that does not report success has its reason relayed
    as it is ([None] where it states none); [None] and the other false
    values that are no dict give the generic message. *)
Lemma pay_late_fees_declined (w : World) (now : datetime)
    (patron_id : string) (book_id : Z) (gw : PaymentGateway) (book : Book.t)
    (record : BorrowRecord.t) (r : LateFee) (resp : pyval) :
  valid_patron_id patron_id = true ->
  books (db w) !! book_id = Some book ->
  first_open_loan patron_id book_id (db w) = Some record ->
  calculate_late_fee_for_book now patron_id book_id w = (Returned r, w) ->
  (0 < fee_amount r)%Q ->
  process_payment gw patron_id (FFin (fee_amount r)) = Returned resp ->
  match resp with
  | PyDict d =>
      py_ne_str (default PyNone (dict_get d "status")) "success" = true ->
      result (pay_late_fees now patron_id book_id gw w)
      = Returned (false, default PyNone (dict_get d "reason"))
  | _ =>
      py_bool resp = false ->
      result (pay_late_fees now patron_id book_id gw w)
      = Returned (false, PyStr "Payment failed")
  end.
Proof.
  intros Hp Hb Hr Hc Hfee Hgw.
  destruct (calculate_late_fee_status _ _ _ _ _ _ _ _ Hp Hb Hr Hc)
    as [_ Hs].
  assert (Hq : Qle_bool (fee_amount r) 0 = false).
  { destruct (Qle_bool (fee_amount r) 0) eqn:E; [| reflexivity].
    apply Qle_bool_iff in E. lra. }
  destruct resp as [| b | z | x | s | l | d]; intros H;
    unfold pay_late_fees; rewrite (patron_check_valid _ Hp);
    unfold bind at 1; unfold get_book_by_id; rewrite Hb;
    unfold bind at 1; rewrite Hc, Hs, Hq;
    unfold bind at 1; unfold attempt, call_process_payment; rewrite Hgw;
    unfold bind, ret, lift, result; simpl in *; try rewrite H;
    try reflexivity.
  destruct d as [| [k v] d]; reflexivity.
Qed.

(** Case analysis on whatever a run still branches on. *)
Ltac split_run :=
  repeat (simpl;
          match goal with
          | |- context [match ?x with _ => _ end] =>
              lazymatch x with
              | context [match _ with _ => _ end] => fail
              | _ => destruct x
              end
          end);
  simpl.

(** C9. Whatever the input and whatever the gateway answers, [pay_late_fees]
    and [refund_late_fee_payment] leave the store as it was: the books with
    their counts and the borrow records are the same after the call, whether
    it returns success, returns failure or raises. *)
Theorem payments_leave_store (float_of_str : string -> option pyfloat)
    (w : World) (now : datetime) (patron_id : string) (book_id : Z)
    (transaction_id amount : pyval) (gw : PaymentGateway) :
  db (world (pay_late_fees now patron_id book_id gw w)) = db w
  /\ db (world (refund_late_fee_payment float_of_str transaction_id amount
                  gw w))
     = db w.
Proof.
  split.
  - unfold pay_late_fees.
    destruct (negb (str_bool patron_id) || negb (str_isdigit patron_id)
              || negb (len patron_id =? 6)); [reflexivity |].
    unfold bind at 1. unfold get_book_by_id.
    destruct (books (db w) !! book_id); [| reflexivity].
    unfold bind at 1.
    destruct (calculate_late_fee_pure w now patron_id book_id) as [r ->].
    destruct (String.eqb (status r) "Book not found."
              || String.eqb (status r) "No active borrowing record found.");
      [reflexivity |].
    destruct (Qle_bool (fee_amount r) 0); [reflexivity |].
    unfold bind, attempt, call_process_payment, lift, ret, world.
    destruct (process_payment gw patron_id (FFin (fee_amount r)))
      as [resp | e]; [| reflexivity].
    destruct resp; split_run; reflexivity.
  - unfold refund_late_fee_payment.
    destruct (negb (py_bool transaction_id)
              || negb (py_isinstance_str transaction_id)); [reflexivity |].
    destruct (py_float float_of_str amount) as [amt | e]; [| reflexivity].
    destruct (float_le amt (FFin 0) || float_gt amt (FFin 15.0));
      [reflexivity |].
    unfold bind, attempt, call_refund_payment, lift, ret, world.
    destruct (refund_payment gw _ amt) as [resp | e]; [| reflexivity].
    destruct resp; split_run; reflexivity.
Qed.

(** C7, as the code has it. [refund_late_fee_payment] refuses a
    transaction id that is empty or no string, an amount [float] cannot
    read, and an amount that is at most 0 or above 15, each time returning
    failure with the world as it was, so without a call on the gateway; with
    a transaction id that passes, the amounts above 0 and up to 15.0, 15.0
    included, pass too and the gateway receives exactly one call, the refund
    of the amount on that transaction. *)
Theorem refund_validation (float_of_str : string -> option pyfloat)
    (w : World) (transaction_id amount : pyval) (gw : PaymentGateway) :
  ((forall t : string, transaction_id <> PyStr t)
   \/ transaction_id = PyStr EmptyString ->
   refund_late_fee_payment float_of_str transaction_id amount gw w
   = (Returned (false, PyStr "Invalid transaction"), w))
  /\ (forall t : string,
        transaction_id = PyStr t -> t <> EmptyString ->
        (forall e : exn,
           py_float float_of_str amount = Raised e ->
           refund_late_fee_payment float_of_str transaction_id amount gw w
           = (Returned (false, PyStr "Invalid amount"), w))
        /\ (forall q : Q,
              py_float float_of_str amount = Returned (FFin q) ->
              (q <= 0 \/ 15 < q)%Q ->
              exists reason : pyval,
                refund_late_fee_payment float_of_str transaction_id amount
                  gw w
                = (Returned (false, reason), w))
        /\ (forall negative : bool,
              py_float float_of_str amount = Returned (FInf negative) ->
              exists reason : pyval,
                refund_late_fee_payment float_of_str transaction_id amount
                  gw w
                = (Returned (false, reason), w))
        /\ (forall q : Q,
              py_float float_of_str amount = Returned (FFin q) ->
              (0 < q <= 15)%Q ->
              gateway_calls
                (world
                   (refund_late_fee_payment float_of_str transaction_id amount
                      gw w))
              = (gateway_calls w ++ [RefundPayment t (FFin q)])%list)).
Proof.
  split.
  - intros H. unfold refund_late_fee_payment.
    destruct H as [H | ->]; [| reflexivity].
    destruct transaction_id as [| b | z | x | t | l | d];
      try (now rewrite orb_true_r).
    now destruct (H t).
  - intros t -> Ht.
    assert (Hid : negb (py_bool (PyStr t)) || negb (py_isinstance_str (PyStr t))
                  = false).
    { destruct t; [contradiction | reflexivity]. }
    unfold refund_late_fee_payment. rewrite Hid.
    split; [| split; [| split]].
    + intros e ->. reflexivity.
    + intros q -> H.
      assert (E : float_le (FFin q) (FFin 0) || float_gt (FFin q) (FFin 15.0)
                  = true).
      { simpl. destruct H as [H | H].
        - apply Qle_bool_iff in H. now rewrite H.
        - destruct (Qle_bool q 15.0) eqn:E15; [| apply orb_true_r].
          apply Qle_bool_iff in E15. lra. }
      rewrite E. eauto.
    + intros negative ->. destruct negative; simpl; eauto.
    + intros q -> [Hpos Hmax].
      assert (E : float_le (FFin q) (FFin 0) || float_gt (FFin q) (FFin 15.0)
                  = false).
      { simpl. assert (Hm : (q <= 15.0)%Q) by lra.
        apply Qle_bool_iff in Hm. rewrite Hm.
        destruct (Qle_bool q 0) eqn:E0; [| reflexivity].
        apply Qle_bool_iff in E0. lra. }
      rewrite E.
      unfold bind, attempt, call_refund_payment, lift, ret, world.
      destruct (refund_payment gw t (FFin q)) as [resp | e];
        [| reflexivity].
      destruct resp; split_run; reflexivity.
Qed.

(** ** The patron report *)

(** C8. For an unreturned record that is overdue (its due date is before
    the current time) -- the record of its pair the calculator looks at, of
    a valid patron and an existing book -- the late fee the patron report
    computes for its row equals the [fee_amount] the calculator returns for
    the pair at the same current time. *)
Theorem report_fee_agrees (w : World) (now : datetime) (patron_id : string)
    (book_id : Z) (book : Book.t) (record : BorrowRecord.t) :
  valid_patron_id patron_id = true ->
  books (db w) !! book_id = Some book ->
  first_open_loan patron_id book_id (db w) = Some record ->
  BorrowRecord.due_date record < now ->
  exists r : LateFee,
    calculate_late_fee_for_book now patron_id book_id w = (Returned r, w)
    /\ (report_late_fee now (borrowed_row now record) == fee_amount r)%Q.
Proof.
  intros Hp Hb Hr Ho.
  rewrite (calculate_late_fee_found w now _ _ _ _ Hp Hb Hr). cbv zeta.
  eexists. split; [reflexivity |].
  unfold report_late_fee. simpl in *.
  assert (Hd : 0 <= td_days (now - BorrowRecord.due_date record))
    by (apply td_days_nonneg; lia).
  rewrite (Z.max_r _ _ Hd).
  set (d := td_days (now - BorrowRecord.due_date record)) in *.
  destruct (Z.gtb_spec d 0) as [Hpos | Hzero].
  - destruct (Z.leb_spec d 7) as [H7 | H7].
    + rewrite (fee_first_week d) by lia. apply Q.min_l.
      assert (Hq := inject_Z_le _ _ H7).
      change (inject_Z 7) with (7 # 1)%Q in Hq. lra.
    + rewrite (fee_later d H7). apply Q.min_compat; lra.
  - assert (E : d = 0) by lia. rewrite E. reflexivity.
Qed.

(** ** The catalog *)

(** The blank test of the catalog: a title is refused as blank exactly when
    nothing is left of it once stripped. *)
Lemma blank_check (s : string) :
  negb (str_bool s) || negb (str_bool (str_strip s))
  = negb (str_bool (str_strip s)).
Proof. destruct s; reflexivity || (simpl; reflexivity). Qed.

Lemma max_key_bound (l : list Z) (k : Z) : k ∈ l -> k <= foldr Z.max 0 l.
Proof.
  induction l as [| a l IH]; simpl.
  - intros H. inversion H.
  - intros [-> | H]%elem_of_cons; [lia |]. specialize (IH H). lia.
Qed.

(** The identity of a new book is not in use. *)
Lemma fresh_book_id_fresh (m : gmap Z Book.t) : m !! fresh_book_id m = None.
Proof.
  destruct (m !! fresh_book_id m) as [b |] eqn:E; [| reflexivity].
  apply elem_of_map_to_list in E.
  assert (H : fresh_book_id m ∈ (map_to_list m).*1).
  { apply list_elem_of_fmap. exists (fresh_book_id m, b). auto. }
  apply max_key_bound in H. unfold fresh_book_id in H at 1. 
  unfold fresh_book_id in H. lia.
Qed.

(** The catalog on a request that passes every check, with the store
    answering its write. *)
Lemma add_book_success (w : World) (title author isbn : string)
    (total_copies : Z) :
  str_strip title <> EmptyString ->
  len (str_strip title) <= 200 ->
  str_strip author <> EmptyString ->
  len (str_strip author) <= 100 ->
  len isbn = 13 ->
  str_isdigit isbn = true ->
  0 < total_copies ->
  get_book_by_isbn isbn w = (Returned None, w) ->
  head (db_faults w) <> Some true ->
  add_book_to_catalog title author isbn total_copies w
  = (Returned
       (true,
        "Book " +:+ dquote +:+ str_strip title +:+ dquote
        +:+ " has been successfully added to the catalog."),
     mkWorld
       (mkStore
          (<[fresh_book_id (books (db w)) :=
               Book.mk (fresh_book_id (books (db w))) (str_strip title)
                 (str_strip author) isbn total_copies total_copies]>
             (books (db w)))
          (borrow_records (db w)))
       (tail (db_faults w)) (gateway_calls w)).
Proof.
  intros Ht Hl Ha Hla Hi Hd Hn Hdup Hf.
  unfold add_book_to_catalog. rewrite !blank_check.
  destruct (str_strip title) as [| c t] eqn:Et; [contradiction |].
  destruct (str_strip author) as [| c' a] eqn:Ea; [contradiction |].
  cbn [str_bool negb].
  destruct (Z.gtb_spec (len (String c t)) 200); [lia |].
  destruct (Z.gtb_spec (len (String c' a)) 100); [lia |].
  rewrite Hi, Hd. cbn [Z.eqb Pos.eqb negb orb].
  destruct (Z.leb_spec total_copies 0); [lia |].
  unfold bind at 1. rewrite Hdup.
  unfold bind, insert_book, db_write, ret.
  destruct (db_faults w) as [| [] faults]; simpl in Hf; try congruence;
    reflexivity.
Qed.

(** C10. The catalog validates and stores the stripped title and author: a
    title or an author of which stripping leaves nothing is refused as
    missing; the limits of 200 and 100 characters are those of the stripped
    strings, so white space around a title or an author never counts; and
    the book stored on success carries the stripped title and author. *)
Theorem add_book_strips_whitespace (w : World) (title author isbn : string)
    (total_copies : Z) :
  (str_strip title = EmptyString ->
   add_book_to_catalog title author isbn total_copies w
   = (Returned (false, "Title is required."), w))
  /\ (str_strip title <> EmptyString ->
      200 < len (str_strip title) ->
      add_book_to_catalog title author isbn total_copies w
      = (Returned (false, "Title must be less than 200 characters."), w))
  /\ (str_strip title <> EmptyString ->
      len (str_strip title) <= 200 ->
      str_strip author = EmptyString ->
      add_book_to_catalog title author isbn total_copies w
      = (Returned (false, "Author is required."), w))
  /\ (str_strip title <> EmptyString ->
      len (str_strip title) <= 200 ->
      str_strip author <> EmptyString ->
      100 < len (str_strip author) ->
      add_book_to_catalog title author isbn total_copies w
      = (Returned (false, "Author must be less than 100 characters."), w))
  /\ (str_strip title <> EmptyString ->
      len (str_strip title) <= 200 ->
      str_strip author <> EmptyString ->
      len (str_strip author) <= 100 ->
      len isbn = 13 ->
      str_isdigit isbn = true ->
      0 < total_copies ->
      get_book_by_isbn isbn w = (Returned None, w) ->
      head (db_faults w) <> Some true ->
      let i := fresh_book_id (books (db w)) in
      let w' := world (add_book_to_catalog title author isbn total_copies w) in
      result (add_book_to_catalog title author isbn total_copies w)
      = Returned
          (true,
           "Book " +:+ dquote +:+ str_strip title +:+ dquote
           +:+ " has been successfully added to the catalog.")
      /\ books (db w') !! i
         = Some (Book.mk i (str_strip title) (str_strip author) isbn
                   total_copies total_copies)
      /\ (forall j : Z, j <> i -> books (db w') !! j = books (db w) !! j)
      /\ books (db w) !! i = None).
Proof.
  assert (Hne : forall s : string,
            s <> EmptyString -> negb (str_bool s) = false).
  { intros [| c s] H; [contradiction | reflexivity]. }
  assert (Hgt : forall n k : Z, k < n -> (n >? k) = true).
  { intros n k H. destruct (Z.gtb_spec n k); [reflexivity | lia]. }
  assert (Hle : forall n k : Z, n <= k -> (n >? k) = false).
  { intros n k H. destruct (Z.gtb_spec n k); [lia | reflexivity]. }
  split; [| split; [| split; [| split]]].
  - intros E. unfold add_book_to_catalog. rewrite !blank_check.
    now rewrite E.
  - intros Ht Hl. unfold add_book_to_catalog. rewrite !blank_check.
    now rewrite (Hne _ Ht), (Hgt _ _ Hl).
  - intros Ht Hl E. unfold add_book_to_catalog. rewrite !blank_check.
    now rewrite (Hne _ Ht), (Hle _ _ Hl), E.
  - intros Ht Hl Ha Hla. unfold add_book_to_catalog. rewrite !blank_check.
    now rewrite (Hne _ Ht), (Hle _ _ Hl), (Hne _ Ha), (Hgt _ _ Hla).
  - intros Ht Hl Ha Hla Hi Hd Hn Hdup Hf. cbv zeta.
    rewrite (add_book_success w title author isbn total_copies)
      by assumption.
    unfold result, world. simpl.
    split; [reflexivity |]. split; [apply lookup_insert_eq |].
    split; [intros j Hj; now apply lookup_insert_ne
           | apply fresh_book_id_fresh].
Qed.

(** ** The service on the example stores *)

(** The four amounts of the fee schedule: after 0, 5, 10 and 100 days. *)
Example late_fee_0_5_10_100_days :
  result (calculate_late_fee_for_book (day 19014) "123456" 1 lent_world)
  = Returned (mkLateFee 0.00 0 "Success")
  /\ result (calculate_late_fee_for_book (day 19019) "123456" 1 lent_world)
     = Returned (mkLateFee 2.50 5 "Overdue by 5 days")
  /\ result (calculate_late_fee_for_book (day 19024) "123456" 1 lent_world)
     = Returned (mkLateFee 6.50 10 "Overdue by 10 days")
  /\ result (calculate_late_fee_for_book (day 19114) "123456" 1 lent_world)
     = Returned (mkLateFee 15.00 100 "Overdue by 100 days").
Proof. repeat split; vm_compute; reflexivity. Qed.

Lemma late_fee_schedule_witness :
  exists r : LateFee,
    calculate_late_fee_for_book (day 19024) "123456" 1 lent_world
    = (Returned r, lent_world)
    /\ days_overdue r = 10
    /\ (fee_amount r == 6.50)%Q
    /\ status r = "Overdue by 10 days".
Proof.
  destruct (late_fee_schedule lent_world (day 19024) "123456" 1
              (add_available (-1) example_book)
              (BorrowRecord.mk "123456" 1 (day 19000) (day 19014) None))
    as (r & Hr & Hd & _ & _ & _ & H7).
  - reflexivity.
  - vm_compute. reflexivity.
  - vm_compute. reflexivity.
  - vm_compute. discriminate.
  - change (td_days _) with 10 in Hd. rewrite Hd in H7.
    destruct (H7 eq_refl) as [Hf Hs].
    exists r. split; [exact Hr |]. split; [exact Hd |].
    split; [rewrite Hf | rewrite Hs]; vm_compute; reflexivity.
Defined.

Lemma example_world_invariant : availability_invariant (db example_world).
Proof.
  intros i b H. unfold example_world in H. cbn [db books] in H.
  apply lookup_singleton_Some in H as [<- <-].
  vm_compute. reflexivity.
Defined.

Lemma availability_invariant_preserved_witness :
  availability_invariant (db lent_world)
  /\ availability_invariant (db returned_world).
Proof.
  destruct (availability_invariant_preserved example_world lent_world
              (day 19000) "123456" 1
              ("Successfully borrowed " +:+ dquote +:+ "T" +:+ dquote
               +:+ ". Due date: 2022-01-22.")
              example_world_invariant) as [Hb _].
  destruct Hb as [H1 _]; [vm_compute; reflexivity |].
  split; [exact H1 |].
  destruct (availability_invariant_preserved lent_world returned_world
              (day 19002) "123456" 1
              ("Successfully returned " +:+ dquote +:+ "T" +:+ dquote
               +:+ ". Return date: 2022-01-10.")
              H1) as [_ Hr].
  destruct Hr as [H2 _];
    [vm_compute; reflexivity | vm_compute; reflexivity | exact H2].
Defined.

Lemma borrow_return_round_trip_witness :
  available_of 1 (db returned_world) = available_of 1 (db example_world)
  /\ return_book_by_patron (day 19003) "123456" 1 returned_world
     = (Returned
          (false, "No borrowing record found for this patron and book."),
        returned_world).
Proof.
  destruct (borrow_return_round_trip example_world lent_world returned_world
              (day 19000) (day 19002) (day 19003) "123456" 1
              ("Successfully borrowed " +:+ dquote +:+ "T" +:+ dquote
               +:+ ". Due date: 2022-01-22.")
              ("Successfully returned " +:+ dquote +:+ "T" +:+ dquote
               +:+ ". Return date: 2022-01-10.")) as [Ha Hs].
  - vm_compute. reflexivity.
  - vm_compute. reflexivity.
  - split; [exact Ha | exact Hs].
Defined.

(** The invariant on a store of one book. *)
Lemma availability_invariant_singleton (i : Z) (b : Book.t)
    (l : list BorrowRecord.t) :
  availability_invariant (mkStore {[ i := b ]} l)
  <-> Book.available_copies b
      = Book.total_copies b - unreturned_count i (mkStore {[ i := b ]} l).
Proof.
  split.
  - intros H. apply H. simpl. apply lookup_singleton_eq.
  - intros H j b' Hj. simpl in Hj.
    apply lookup_singleton_Some in Hj as [<- <-]. exact H.
Qed.

(** A patron borrows a book already held and returns it: both borrows and
    the return succeed, the one return closes the two records and adds one
    copy, and the invariant, which held before the return, is lost: of three
    copies two are available while none is lent. *)
Lemma return_of_book_held_twice_breaks_invariant :
  borrow_book_by_patron (day 19001) "123456" 1 lent_world
  = (Returned
       (true,
        "Successfully borrowed " +:+ dquote +:+ "T" +:+ dquote
        +:+ ". Due date: 2022-01-23."), twice_lent_world)
  /\ availability_invariant (db twice_lent_world)
  /\ return_book_by_patron (day 19002) "123456" 1 twice_lent_world
     = (Returned
          (true,
           "Successfully returned " +:+ dquote +:+ "T" +:+ dquote
           +:+ ". Return date: 2022-01-10."), twice_returned_world)
  /\ available_of 1 (db twice_returned_world) = Some 2
  /\ unreturned_count 1 (db twice_returned_world) = 0
  /\ ~ availability_invariant (db twice_returned_world).
Proof.
  assert (E1 : db twice_lent_world
               = mkStore {[ 1 := Book.mk 1 "T" "A" "1234567890123" 3 1 ]}
                   [BorrowRecord.mk "123456" 1 (day 19000) (day 19014) None;
                    BorrowRecord.mk "123456" 1 (day 19001) (day 19015) None])
    by (vm_compute; reflexivity).
  assert (E2 : db twice_returned_world
               = mkStore {[ 1 := Book.mk 1 "T" "A" "1234567890123" 3 2 ]}
                   [BorrowRecord.mk "123456" 1 (day 19000) (day 19014)
                      (Some (day 19002));
                    BorrowRecord.mk "123456" 1 (day 19001) (day 19015)
                      (Some (day 19002))])
    by (vm_compute; reflexivity).
  split; [vm_compute; reflexivity |].
  split; [rewrite E1; apply availability_invariant_singleton; vm_compute;
          reflexivity |].
  split; [vm_compute; reflexivity |].
  split; [vm_compute; reflexivity |].
  split; [vm_compute; reflexivity |].
  rewrite E2. intros H.
  apply (proj1 (availability_invariant_singleton _ _ _)) in H.
  vm_compute in H. discriminate H.
Qed.

Lemma borrow_limit_witness :
  exists reason : string,
    borrow_book_by_patron (day 19001) "123456" 1 five_loans_world
    = (Returned (false, reason), five_loans_world).
Proof.
  apply (borrow_limit five_loans_world (day 19001) "123456" 1).
  - reflexivity.
  - vm_compute. discriminate.
Defined.

(** C5. The answers of the gateway that [pay_late_fees] does not turn into
    a failure with a message, on the store with a fee of 2.50 to charge: an
    answer that is true and no dict (here a string) raises [AttributeError];
    a dict without a reason gives [None] for a message; a dict that reports
    success without a transaction id raises [KeyError]. *)
Theorem pay_late_fees_malformed_response :
  result (pay_late_fees (day 19019) "123456" 1
            (mock_gateway (Returned (PyStr "declined"))) lent_world)
  = Raised (Exn "AttributeError" "'str' object has no attribute 'get'")
  /\ result (pay_late_fees (day 19019) "123456" 1
               (mock_gateway (Returned (PyDict [("status", PyStr "error")])))
               lent_world)
     = Returned (false, PyNone)
  /\ result (pay_late_fees (day 19019) "123456" 1
               (mock_gateway (Returned (PyDict [("status", PyStr "success")])))
               lent_world)
     = Raised (Exn "KeyError" "'transaction_id'").
Proof. repeat split; vm_compute; reflexivity. Qed.

(** The decline of the test suite: the reason is relayed as it is; and
    [None] for an answer gives the generic message. *)
Example pay_late_fees_decline :
  result (pay_late_fees (day 19019) "123456" 1
            (mock_gateway
               (Returned (PyDict [("status", PyStr "error");
                                  ("reason", PyStr "DECLINED")])))
            lent_world)
  = Returned (false, PyStr "DECLINED")
  /\ result (pay_late_fees (day 19019) "123456" 1
               (mock_gateway (Returned PyNone)) lent_world)
     = Returned (false, PyStr "Payment failed").
Proof. split; vm_compute; reflexivity. Qed.

(** A charge through the gateway of the repository. *)
Example pay_late_fees_charge :
  pay_late_fees (day 19019) "123456" 1 payment_gateway lent_world
  = (Returned
       (true,
        PyDict [("transaction_id", PyStr "TXN123456250");
                ("charged", PyFloat (FFin 2.50));
                ("days_overdue", PyInt 5)]),
     mkWorld (db lent_world) []
       [ProcessPayment "123456" (FFin 2.50)]).
Proof. vm_compute. reflexivity. Qed.

Lemma pay_late_fees_no_fee_witness :
  pay_late_fees (day 19010) "123456" 1 payment_gateway lent_world
  = (Returned (true, PyStr "No late fees"), lent_world)
  /\ gateway_calls
       (world (pay_late_fees (day 19010) "123456" 1 payment_gateway
                 lent_world))
     = gateway_calls lent_world.
Proof.
  apply (pay_late_fees_no_fee lent_world lent_world (day 19010) "123456" 1
           payment_gateway (add_available (-1) example_book)
           (BorrowRecord.mk "123456" 1 (day 19000) (day 19014) None)
           (mkLateFee 0.00 0 "Success")).
  - reflexivity.
  - vm_compute. reflexivity.
  - vm_compute. reflexivity.
  - vm_compute. reflexivity.
  - vm_compute. discriminate.
Defined.

(** The amounts of the test suite: 0 and 16.0 are refused without a call,
    15.0 is refunded. *)
Example refund_0_16_15 :
  let refund amount :=
    refund_late_fee_payment (fun _ => None) (PyStr "tx") amount
      payment_gateway example_world in
  result (refund (PyInt 0)) = result (refund (PyFloat (FFin 16.0)))
  /\ world (refund (PyInt 0)) = example_world
  /\ world (refund (PyFloat (FFin 16.0))) = example_world
  /\ fst <$> match result (refund (PyInt 0)) with
             | Returned r => Some r
             | Raised _ => None
             end
     = Some false
  /\ refund (PyFloat (FFin 15.0))
     = (Returned
          (true,
           PyDict [("refund_id", PyStr "RFtx");
                   ("refunded", PyFloat (FFin 15.00))]),
        mkWorld (db example_world) [] [RefundPayment "tx" (FFin 15.0)]).
Proof. cbv zeta. repeat split; vm_compute; reflexivity. Qed.

(** A transaction id of spaces is blank, yet not empty: it passes the
    check, the gateway is called with it, and the gateway of the repository
    refunds. *)
Lemma refund_blank_id_reaches_gateway :
  str_strip "   " = EmptyString
  /\ refund_late_fee_payment (fun _ => None) (PyStr "   ")
       (PyFloat (FFin 5.0)) payment_gateway example_world
     = (Returned
          (true,
           PyDict [("refund_id", PyStr "RF   ");
                   ("refunded", PyFloat (FFin 5.00))]),
        mkWorld (db example_world) [] [RefundPayment "   " (FFin 5.0)]).
Proof. split; vm_compute; reflexivity. Qed.

Lemma refund_validation_witness :
  gateway_calls
    (world
       (refund_late_fee_payment (fun _ => None) (PyStr "tx")
          (PyFloat (FFin 15.0)) payment_gateway example_world))
  = [RefundPayment "tx" (FFin 15.0)]
  /\ exists reason : pyval,
       refund_late_fee_payment (fun _ => None) (PyStr "tx")
         (PyFloat (FFin 16.0)) payment_gateway example_world
       = (Returned (false, reason), example_world).
Proof.
  split.
  - destruct (refund_validation (fun _ => None) example_world (PyStr "tx")
                (PyFloat (FFin 15.0)) payment_gateway) as [_ H].
    destruct (H "tx" eq_refl) as (_ & _ & _ & H15); [discriminate |].
    apply (H15 15.0%Q eq_refl). split; vm_compute; [reflexivity | discriminate].
  - destruct (refund_validation (fun _ => None) example_world (PyStr "tx")
                (PyFloat (FFin 16.0)) payment_gateway) as [_ H].
    destruct (H "tx" eq_refl) as (_ & H16 & _ & _); [discriminate |].
    apply (H16 16.0%Q eq_refl). right. vm_compute. reflexivity.
Defined.

Lemma report_fee_agrees_witness :
  exists r : LateFee,
    calculate_late_fee_for_book (day 19024) "123456" 1 lent_world
    = (Returned r, lent_world)
    /\ (report_late_fee (day 19024)
          (borrowed_row (day 19024)
             (BorrowRecord.mk "123456" 1 (day 19000) (day 19014) None))
        == fee_amount r)%Q.
Proof.
  apply (report_fee_agrees lent_world (day 19024) "123456" 1
           (add_available (-1) example_book)
           (BorrowRecord.mk "123456" 1 (day 19000) (day 19014) None)).
  - reflexivity.
  - vm_compute. reflexivity.
  - vm_compute. reflexivity.
  - vm_compute. reflexivity.
Defined.

(** The report and the calculator on the example store, ten days late. *)
Example report_total_late_fees :
  total_late_fees
    <$> match result (get_patron_status_report (day 19024) "123456" lent_world)
        with Returned r => Some r | Raised _ => None end
  = Some 6.50%Q.
Proof. vm_compute. reflexivity. Qed.

(** White space around a title does not count against the limit. *)
Example add_book_padded_title :
  len padded_title = 202
  /\ len (str_strip padded_title) = 200
  /\ result (add_book_to_catalog padded_title " Bob  " "9783862902279" 2
               example_world)
     = Returned
         (true,
          "Book " +:+ dquote +:+ str_repeat "A"%char 200 +:+ dquote
          +:+ " has been successfully added to the catalog.")
  /\ books
       (db (world (add_book_to_catalog padded_title " Bob  " "9783862902279"
                     2 example_world))) !! 2
     = Some (Book.mk 2 (str_repeat "A"%char 200) "Bob" "9783862902279" 2 2).
Proof. repeat split; vm_compute; reflexivity. Qed.

Lemma add_book_strips_whitespace_witness :
  result (add_book_to_catalog "  Hello " " Bob  " "9783862902279" 2
            example_world)
  = Returned
      (true,
       "Book " +:+ dquote +:+ "Hello" +:+ dquote
       +:+ " has been successfully added to the catalog.")
  /\ books
       (db (world (add_book_to_catalog "  Hello " " Bob  " "9783862902279" 2
                     example_world))) !! 2
     = Some (Book.mk 2 "Hello" "Bob" "9783862902279" 2 2).
Proof.
  destruct (add_book_strips_whitespace example_world "  Hello " " Bob  "
              "9783862902279" 2) as (_ & _ & _ & _ & H).
  destruct H as (H1 & H2 & _).
  - vm_compute. discriminate.
  - vm_compute. discriminate.
  - vm_compute. discriminate.
  - vm_compute. discriminate.
  - reflexivity.
  - reflexivity.
  - reflexivity.
  - vm_compute. reflexivity.
  - vm_compute. discriminate.
  - split; [exact H1 | exact H2].
Defined.

(** * Further properties of the service *)

(** ** Circulation: success, refusal and partial failure *)

Lemma write_ok_cases (w : World) :
  write_ok 0 w -> write_ok 1 w ->
  db_faults w = []
  \/ db_faults w = [false]
  \/ (exists faults : list bool, db_faults w = false :: false :: faults).
Proof.
  unfold write_ok. destruct (db_faults w) as [| [] [| [] faults]]; simpl;
    intros H0 H1; try congruence; eauto.
Qed.

(** A borrow that passes every check, with the store answering both
    writes. *)
Lemma borrow_book_success (w : World) (now : datetime) (patron_id : string)
    (book_id : Z) (book : Book.t) :
  valid_patron_id patron_id = true ->
  books (db w) !! book_id = Some book ->
  0 < Book.available_copies book ->
  patron_loans patron_id (db w) < 5 ->
  write_ok 0 w -> write_ok 1 w ->
  borrow_book_by_patron now patron_id book_id w
  = (Returned
       (true,
        "Successfully borrowed " +:+ dquote +:+ Book.title book +:+ dquote
        +:+ ". Due date: " +:+ strftime_ymd (now + timedelta_days 14) +:+ "."),
     mkWorld
       (mkStore (alter (add_available (-1)) book_id (books (db w)))
          (borrow_records (db w)
             ++ [BorrowRecord.mk patron_id book_id now
                   (now + timedelta_days 14) None]))
       (tail (tail (db_faults w))) (gateway_calls w)).
Proof.
  intros Hp Hb Ha Hc H0 H1. unfold borrow_book_by_patron.
  rewrite (patron_check_valid _ Hp).
  unfold bind, get_book_by_id, get_patron_borrow_count, insert_borrow_record,
    update_book_availability, db_write, ret. simpl.
  rewrite Hb.
  destruct (Z.leb_spec (Book.available_copies book) 0); [lia |].
  fold (patron_loans patron_id (db w)).
  destruct (Z.geb_spec (patron_loans patron_id (db w)) 5); [lia |].
  destruct (write_ok_cases w H0 H1) as [E | [E | [faults E]]];
    rewrite E; reflexivity.
Qed.

(** X1. A borrow succeeds exactly when the patron id is valid, the book
    exists with a copy available, the patron holds fewer than five
    unreturned records and the store answers the two writes; the record it
    writes is due fourteen days after the borrow. *)
Theorem borrow_succeeds_iff (w : World) (now : datetime) (patron_id : string)
    (book_id : Z) :
  (exists (msg : string) (w' : World),
     borrow_book_by_patron now patron_id book_id w
     = (Returned (true, msg), w'))
  <-> valid_patron_id patron_id = true
      /\ (exists book : Book.t,
            books (db w) !! book_id = Some book
            /\ 0 < Book.available_copies book)
      /\ patron_loans patron_id (db w) < 5
      /\ write_ok 0 w /\ write_ok 1 w.
Proof.
  split.
  - intros (msg & w' & H).
    destruct (borrow_success_inv _ _ _ _ _ _ H) as (Hp & Hb & Hc & _ & _).
    split; [exact Hp |]. split; [exact Hb |]. split; [exact Hc |].
    destruct Hb as (book & Hb & Ha).
    revert H. unfold borrow_book_by_patron.
    rewrite (patron_check_valid _ Hp).
    unfold bind, get_book_by_id, get_patron_borrow_count,
      insert_borrow_record, update_book_availability, db_write, ret, write_ok.
    simpl. rewrite Hb.
    destruct (Z.leb_spec (Book.available_copies book) 0); [lia |].
    fold (patron_loans patron_id (db w)).
    destruct (Z.geb_spec (patron_loans patron_id (db w)) 5); [lia |].
    destruct (db_faults w) as [| [] [| [] faults]]; simpl;
      intros Hrun; try discriminate Hrun; split; congruence.
  - intros (Hp & (book & Hb & Ha) & Hc & H0 & H1).
    rewrite (borrow_book_success w now _ _ book Hp Hb Ha Hc H0 H1). eauto.
Qed.

(** A return that passes every check, with the store answering both
    writes. *)
Lemma return_book_success (w : World) (now : datetime) (patron_id : string)
    (book_id : Z) (book : Book.t) (record : BorrowRecord.t) :
  valid_patron_id patron_id = true ->
  books (db w) !! book_id = Some book ->
  first_open_loan patron_id book_id (db w) = Some record ->
  write_ok 0 w -> write_ok 1 w ->
  return_book_by_patron now patron_id book_id w
  = (Returned
       (true,
        "Successfully returned " +:+ dquote +:+ Book.title book +:+ dquote
        +:+ ". Return date: " +:+ strftime_ymd now +:+ "."),
     mkWorld
       (mkStore (alter (add_available 1) book_id (books (db w)))
          (close_loan patron_id book_id now (borrow_records (db w))))
       (tail (tail (db_faults w))) (gateway_calls w)).
Proof.
  intros Hp Hb Hr H0 H1. unfold return_book_by_patron.
  rewrite (patron_check_valid _ Hp).
  unfold bind, get_book_by_id, get_patron_borrowed_books,
    update_borrow_record_return_date, update_book_availability, db_write, ret.
  simpl. rewrite Hb, find_borrowed_rows.
  unfold first_open_loan in Hr. rewrite Hr. simpl.
  destruct (write_ok_cases w H0 H1) as [E | [E | [faults E]]];
    rewrite E; reflexivity.
Qed.

(** X2. A return succeeds exactly when the patron id is valid, the book
    exists, the patron holds an unreturned record of the book and the store
    answers the two writes. *)
Theorem return_succeeds_iff (w : World) (now : datetime) (patron_id : string)
    (book_id : Z) :
  (exists (msg : string) (w' : World),
     return_book_by_patron now patron_id book_id w
     = (Returned (true, msg), w'))
  <-> valid_patron_id patron_id = true
      /\ (exists book : Book.t, books (db w) !! book_id = Some book)
      /\ 0 < open_loans patron_id book_id (db w)
      /\ write_ok 0 w /\ write_ok 1 w.
Proof.
  assert (Hopen : 0 < open_loans patron_id book_id (db w)
                  <-> exists record : BorrowRecord.t,
                        first_open_loan patron_id book_id (db w)
                        = Some record).
  { unfold open_loans, first_open_loan.
    induction (borrow_records (db w)) as [| r l IH]; simpl.
    - split; [lia | intros [? ?]; discriminate].
    - destruct (is_open_loan patron_id book_id r); simpl; [| exact IH].
      split; [eauto | lia]. }
  split.
  - intros (msg & w' & H).
    destruct (return_success_inv _ _ _ _ _ _ H) as (Hp & Hb & Hr & _ & _).
    split; [exact Hp |]. split; [exact Hb |].
    split; [apply Hopen; exact Hr |].
    destruct Hb as (book & Hb). destruct Hr as (record & Hr).
    revert H. unfold return_book_by_patron.
    rewrite (patron_check_valid _ Hp).
    unfold bind, get_book_by_id, get_patron_borrowed_books,
      update_borrow_record_return_date, update_book_availability, db_write,
      ret, write_ok.
    simpl. rewrite Hb, find_borrowed_rows.
    unfold first_open_loan in Hr. rewrite Hr. simpl.
    destruct (db_faults w) as [| [] [| [] faults]]; simpl;
      intros Hrun; try discriminate Hrun; split; congruence.
  - intros (Hp & (book & Hb) & Ho & H0 & H1).
    apply Hopen in Ho as (record & Hr).
    rewrite (return_book_success w now _ _ book record Hp Hb Hr H0 H1). eauto.
Qed.

(** X3. While the store answers its writes, a borrow, a return or an
    addition to the catalog that is refused leaves the world exactly as it
    was. *)
Theorem refusal_writes_nothing (w : World) (now : datetime)
    (patron_id title author isbn : string) (book_id total_copies : Z) :
  write_ok 0 w -> write_ok 1 w ->
  (forall msg : string,
     result (borrow_book_by_patron now patron_id book_id w)
     = Returned (false, msg) ->
     world (borrow_book_by_patron now patron_id book_id w) = w)
  /\ (forall msg : string,
        result (return_book_by_patron now patron_id book_id w)
        = Returned (false, msg) ->
        world (return_book_by_patron now patron_id book_id w) = w)
  /\ (forall msg : string,
        result (add_book_to_catalog title author isbn total_copies w)
        = Returned (false, msg) ->
        world (add_book_to_catalog title author isbn total_copies w) = w).
Proof.
  intros H0 H1. unfold result, world. split; [| split]; intros msg.
  - unfold borrow_book_by_patron.
    destruct (negb (str_bool patron_id) || negb (str_isdigit patron_id)
              || negb (len patron_id =? 6)); [reflexivity |].
    unfold bind, get_book_by_id, get_patron_borrow_count,
      insert_borrow_record, update_book_availability, db_write, ret. simpl.
    destruct (books (db w) !! book_id) as [book |]; [| reflexivity].
    destruct (Book.available_copies book <=? 0); [reflexivity |].
    destruct (_ >=? 5); [reflexivity |].
    destruct (write_ok_cases w H0 H1) as [E | [E | [faults E]]];
      rewrite E; simpl; discriminate.
  - unfold return_book_by_patron.
    destruct (negb (str_bool patron_id) || negb (str_isdigit patron_id)
              || negb (len patron_id =? 6)); [reflexivity |].
    unfold bind, get_book_by_id, get_patron_borrowed_books,
      update_borrow_record_return_date, update_book_availability, db_write,
      ret. simpl.
    destruct (books (db w) !! book_id) as [book |]; [| reflexivity].
    destruct (find_borrowed book_id _); [| reflexivity].
    destruct (write_ok_cases w H0 H1) as [E | [E | [faults E]]];
      rewrite E; simpl; discriminate.
  - unfold add_book_to_catalog.
    repeat match goal with
           | |- context [if ?c then ret _ else _] =>
               destruct c; [reflexivity |]
           end.
    unfold bind, get_book_by_isbn, insert_book, db_write, ret.
    destruct (List.find _ _); [reflexivity |].
    destruct (write_ok_cases w H0 H1) as [E | [E | [faults E]]];
      rewrite E; simpl; discriminate.
Qed.

(** X4. The two writes of a borrow and of a return are not undone together:
    when the record write succeeds and the availability write fails, the
    call reports a database error, keeps the record written (or closed),
    leaves the available copies as they were, and so breaks
    available = total - unreturned records for the book. *)
Theorem paired_writes_not_atomic (w : World) (now : datetime)
    (patron_id : string) (book_id : Z) (book : Book.t) :
  valid_patron_id patron_id = true ->
  books (db w) !! book_id = Some book ->
  write_ok 0 w ->
  db_faults w !! 1%nat = Some true ->
  availability_invariant (db w) ->
  (0 < Book.available_copies book ->
   patron_loans patron_id (db w) < 5 ->
   let w' := world (borrow_book_by_patron now patron_id book_id w) in
   result (borrow_book_by_patron now patron_id book_id w)
   = Returned
       (false, "Database error occurred while updating book availability.")
   /\ borrow_records (db w')
      = (borrow_records (db w)
         ++ [BorrowRecord.mk patron_id book_id now (now + timedelta_days 14)
               None])%list
   /\ books (db w') = books (db w)
   /\ ~ availability_invariant (db w'))
  /\ (forall record : BorrowRecord.t,
        first_open_loan patron_id book_id (db w) = Some record ->
        let w' := world (return_book_by_patron now patron_id book_id w) in
        result (return_book_by_patron now patron_id book_id w)
        = Returned
            (false,
             "Database error occurred while updating book availability.")
        /\ borrow_records (db w')
           = close_loan patron_id book_id now (borrow_records (db w))
        /\ books (db w') = books (db w)
        /\ ~ availability_invariant (db w')).
Proof.
  intros Hp Hb H0 H1 Hinv.
  assert (Hf : exists faults : list bool,
             db_faults w = false :: true :: faults).
  { unfold write_ok in H0. destruct (db_faults w) as [| [] [| [] faults]];
      simpl in *; try congruence. eauto. }
  destruct Hf as [faults Hf]. split.
  - intros Ha Hc. cbv zeta.
    assert (E : borrow_book_by_patron now patron_id book_id w
                = (Returned
                     (false,
                      "Database error occurred while updating book availability."),
                   mkWorld
                     (mkStore (books (db w))
                        (borrow_records (db w)
                           ++ [BorrowRecord.mk patron_id book_id now
                                 (now + timedelta_days 14) None]))
                     faults (gateway_calls w))).
    { unfold borrow_book_by_patron. rewrite (patron_check_valid _ Hp).
      unfold bind, get_book_by_id, get_patron_borrow_count,
        insert_borrow_record, update_book_availability, db_write, ret. simpl.
      rewrite Hb.
      destruct (Z.leb_spec (Book.available_copies book) 0); [lia |].
      fold (patron_loans patron_id (db w)).
      destruct (Z.geb_spec (patron_loans patron_id (db w)) 5); [lia |].
      rewrite Hf. reflexivity. }
    rewrite E. unfold result, world. simpl.
    split; [reflexivity |]. split; [reflexivity |]. split; [reflexivity |].
    intros Hinv'. specialize (Hinv book_id book Hb).
    specialize (Hinv' book_id book Hb).
    rewrite unreturned_count_insert, Z.eqb_refl in Hinv'. lia.
  - intros record Hr. cbv zeta.
    assert (E : return_book_by_patron now patron_id book_id w
                = (Returned
                     (false,
                      "Database error occurred while updating book availability."),
                   mkWorld
                     (mkStore (books (db w))
                        (close_loan patron_id book_id now
                           (borrow_records (db w))))
                     faults (gateway_calls w))).
    { unfold return_book_by_patron. rewrite (patron_check_valid _ Hp).
      unfold bind, get_book_by_id, get_patron_borrowed_books,
        update_borrow_record_return_date, update_book_availability, db_write,
        ret. simpl.
      rewrite Hb, find_borrowed_rows.
      unfold first_open_loan in Hr. rewrite Hr. simpl.
      rewrite Hf. reflexivity. }
    rewrite E. unfold result, world. simpl.
    split; [reflexivity |]. split; [reflexivity |]. split; [reflexivity |].
    intros Hinv'. specialize (Hinv book_id book Hb).
    specialize (Hinv' book_id book Hb).
    rewrite unreturned_count_close, Z.eqb_refl in Hinv'.
    assert (Hpos : 0 < open_loans patron_id book_id (db w))
      by (apply open_loans_pos; eauto).
    lia.
Qed.

(** ** Circulation: what the store keeps *)

Lemma patron_loans_insert (patron_id q : string) (book_id : Z)
    (borrow_date due_date : datetime) (s : Store) (m : gmap Z Book.t) :
  patron_loans q
    (mkStore m
       (borrow_records s
          ++ [BorrowRecord.mk patron_id book_id borrow_date due_date None]))
  = patron_loans q s + (if String.eqb patron_id q then 1 else 0).
Proof.
  unfold patron_loans. simpl. rewrite length_filter_app. simpl.
  unfold is_borrowed_by at 2. simpl.
  destruct (String.eqb patron_id q); simpl; lia.
Qed.

Lemma patron_loans_close (patron_id q : string) (book_id : Z)
    (date : datetime) (s : Store) (m : gmap Z Book.t) :
  patron_loans q
    (mkStore m (close_loan patron_id book_id date (borrow_records s)))
  = patron_loans q s
    - (if String.eqb patron_id q then open_loans patron_id book_id s else 0).
Proof.
  assert (Hopen : forall r : BorrowRecord.t,
            is_open_loan patron_id book_id r = true ->
            is_borrowed_by q r = String.eqb patron_id q).
  { intros r Ho. unfold is_open_loan, is_borrowed_by in *.
    apply andb_prop in Ho as [[Hn Hu]%andb_prop _].
    apply String.eqb_eq in Hn. rewrite Hn, Hu. apply andb_true_r. }
  assert (Hclosed : forall r : BorrowRecord.t,
            is_borrowed_by q (close_record date r) = false).
  { intros r. unfold is_borrowed_by. simpl. apply andb_false_r. }
  assert (H := close_loan_filter (is_borrowed_by q) (String.eqb patron_id q)
                 patron_id book_id date (borrow_records s) Hopen Hclosed).
  unfold patron_loans, open_loans. simpl.
  destruct (String.eqb patron_id q); lia.
Qed.

(** X5. The limit of five unreturned records a patron is kept by every
    borrow and every return, whatever their outcome and whatever the store
    answers to the writes. *)
Theorem loan_limit_preserved (w : World) (now : datetime)
    (patron_id : string) (book_id : Z) :
  loan_limit (db w) ->
  loan_limit (db (world (borrow_book_by_patron now patron_id book_id w)))
  /\ loan_limit (db (world (return_book_by_patron now patron_id book_id w))).
Proof.
  intros Hl. split.
  - unfold borrow_book_by_patron.
    destruct (negb (str_bool patron_id) || negb (str_isdigit patron_id)
              || negb (len patron_id =? 6)); [exact Hl |].
    unfold bind, get_book_by_id, get_patron_borrow_count,
      insert_borrow_record, update_book_availability, db_write, ret, world.
    simpl.
    destruct (books (db w) !! book_id) as [book |]; [| exact Hl].
    destruct (Book.available_copies book <=? 0); [exact Hl |].
    fold (patron_loans patron_id (db w)).
    destruct (Z.geb_spec (patron_loans patron_id (db w)) 5) as [? | Hc];
      [exact Hl |].
    assert (Hins : forall m : gmap Z Book.t,
              loan_limit
                (mkStore m
                   (borrow_records (db w)
                      ++ [BorrowRecord.mk patron_id book_id now
                            (now + timedelta_days 14) None]))).
    { intros m q. rewrite patron_loans_insert. specialize (Hl q).
      destruct (String.eqb_spec patron_id q) as [<- | _]; lia. }
    destruct (db_faults w) as [| [] [| [] faults]]; simpl;
      try exact Hl; apply Hins.
  - unfold return_book_by_patron.
    destruct (negb (str_bool patron_id) || negb (str_isdigit patron_id)
              || negb (len patron_id =? 6)); [exact Hl |].
    unfold bind, get_book_by_id, get_patron_borrowed_books,
      update_borrow_record_return_date, update_book_availability, db_write,
      ret, world. simpl.
    destruct (books (db w) !! book_id) as [book |]; [| exact Hl].
    destruct (find_borrowed book_id _); [| exact Hl].
    assert (Hcl : forall m : gmap Z Book.t,
              loan_limit
                (mkStore m
                   (close_loan patron_id book_id now
                      (borrow_records (db w))))).
    { intros m q. specialize (Hl q). rewrite patron_loans_close.
      assert (Hpos : 0 <= open_loans patron_id book_id (db w))
        by (unfold open_loans; lia).
      destruct (String.eqb patron_id q); lia. }
    destruct (db_faults w) as [| [] [| [] faults]]; simpl;
      try exact Hl; apply Hcl.
Qed.

(** X6. No borrow and no return, whatever its outcome, makes the available
    copies of a book negative. *)
Theorem available_nonneg_preserved (w : World) (now : datetime)
    (patron_id : string) (book_id : Z) :
  available_nonneg (db w) ->
  available_nonneg (db (world (borrow_book_by_patron now patron_id book_id w)))
  /\ available_nonneg
       (db (world (return_book_by_patron now patron_id book_id w))).
Proof.
  intros Hn.
  assert (Halt : forall (delta : Z) (l : list BorrowRecord.t),
            (forall b : Book.t,
               books (db w) !! book_id = Some b ->
               0 <= Book.available_copies b + delta) ->
            available_nonneg
              (mkStore (alter (add_available delta) book_id (books (db w)))
                 l)).
  { intros delta l Hd i b. simpl. rewrite lookup_alter.
    destruct (decide (book_id = i)) as [<- | _].
    - destruct (books (db w) !! book_id) as [b0 |] eqn:E; simpl;
        [| discriminate].
      intros [= <-]. simpl. apply Hd. reflexivity.
    - apply Hn. }
  assert (Hsame : forall l : list BorrowRecord.t,
            available_nonneg (mkStore (books (db w)) l)).
  { intros l i b. simpl. apply Hn. }
  split.
  - unfold borrow_book_by_patron.
    destruct (negb (str_bool patron_id) || negb (str_isdigit patron_id)
              || negb (len patron_id =? 6)); [exact Hn |].
    unfold bind, get_book_by_id, get_patron_borrow_count,
      insert_borrow_record, update_book_availability, db_write, ret, world.
    simpl.
    destruct (books (db w) !! book_id) as [book |] eqn:Hb; [| exact Hn].
    destruct (Z.leb_spec (Book.available_copies book) 0) as [? | Ha];
      [exact Hn |].
    destruct (_ >=? 5); [exact Hn |].
    destruct (db_faults w) as [| [] [| [] faults]]; simpl;
      try exact Hn; try apply Hsame; apply Halt; intros b [= <-]; lia.
  - unfold return_book_by_patron.
    destruct (negb (str_bool patron_id) || negb (str_isdigit patron_id)
              || negb (len patron_id =? 6)); [exact Hn |].
    unfold bind, get_book_by_id, get_patron_borrowed_books,
      update_borrow_record_return_date, update_book_availability, db_write,
      ret, world. simpl.
    destruct (books (db w) !! book_id) as [book |] eqn:Hb; [| exact Hn].
    destruct (find_borrowed book_id _); [| exact Hn].
    destruct (db_faults w) as [| [] [| [] faults]]; simpl;
      try exact Hn; try apply Hsame; apply Halt; intros b [= <-];
      specialize (Hn book_id book Hb); lia.
Qed.

(** X7. A successful return takes at least one from the unreturned records
    of the patron and none from those of another patron; so, when the limit
    held before and the store answers the writes, the patron can borrow the
    returned book again at once. *)
Theorem return_frees_a_loan (w w1 : World) (now1 now2 : datetime)
    (patron_id : string) (book_id : Z) (msg : string) :
  loan_limit (db w) ->
  available_nonneg (db w) ->
  return_book_by_patron now1 patron_id book_id w
  = (Returned (true, msg), w1) ->
  patron_loans patron_id (db w1) < patron_loans patron_id (db w)
  /\ (forall q : string,
        q <> patron_id -> patron_loans q (db w1) = patron_loans q (db w))
  /\ (write_ok 0 w1 -> write_ok 1 w1 ->
      exists (msg2 : string) (w2 : World),
        borrow_book_by_patron now2 patron_id book_id w1
        = (Returned (true, msg2), w2)).
Proof.
  intros Hl Hn H.
  destruct (return_success_inv _ _ _ _ _ _ H)
    as (Hp & (book & Hb) & Hr & E & _).
  apply open_loans_pos in Hr.
  assert (Hloans : forall q : string,
            patron_loans q (db w1)
            = patron_loans q (db w)
              - (if String.eqb patron_id q
                 then open_loans patron_id book_id (db w) else 0)).
  { intros q. rewrite E. apply patron_loans_close. }
  split; [| split].
  - rewrite Hloans, String.eqb_refl. lia.
  - intros q Hq. rewrite Hloans.
    destruct (String.eqb_spec patron_id q) as [-> | _]; [contradiction | lia].
  - intros H0 H1.
    assert (Hb1 : books (db w1) !! book_id = Some (add_available 1 book)).
    { rewrite E. simpl. now rewrite lookup_alter_eq, Hb. }
    rewrite (borrow_book_success w1 now2 _ _ _ Hp Hb1); eauto.
    + simpl. specialize (Hn book_id book Hb). lia.
    + rewrite Hloans, String.eqb_refl. specialize (Hl patron_id). lia.
Qed.

(** ** Fees *)

(** The fee after [d] whole days, as the calculator computes and rounds
    it. *)
Lemma fee_of_days (d : Z) :
  0 <= d ->
  (round2
     (if d >? 0 then
        Qmin
          (if d <=? 7 then inject_Z d * 0.50
           else 7 * 0.50 + inject_Z (d - 7) * 1.00)
          15.00
      else 0.00)
   == (if d <=? 7 then inject_Z d * 0.50
       else Qmin (3.50 + inject_Z (d - 7) * 1.00) 15.00))%Q.
Proof.
  intros Hd. destruct (Z.gtb_spec d 0) as [Hpos | Hzero].
  - destruct (Z.leb_spec d 7) as [H7 | H7].
    + apply fee_first_week. lia.
    + apply fee_later. exact H7.
  - assert (E : d = 0) by lia. rewrite E. reflexivity.
Qed.

Lemma fee_of_days_bounds (d : Z) :
  0 <= d ->
  (0 <= (if d <=? 7 then inject_Z d * 0.50
         else Qmin (3.50 + inject_Z (d - 7) * 1.00) 15.00) <= 15)%Q.
Proof.
  intros Hd. assert (Hq := inject_Z_le _ _ Hd).
  change (inject_Z 0) with (0 # 1)%Q in Hq.
  destruct (Z.leb_spec d 7) as [H7 | H7].
  - assert (Hq7 := inject_Z_le _ _ H7).
    change (inject_Z 7) with (7 # 1)%Q in Hq7. lra.
  - assert (Hq7 : (0 <= inject_Z (d - 7))%Q).
    { change 0%Q with (inject_Z 0). apply inject_Z_le. lia. }
    split.
    + apply Q.min_glb; lra.
    + pose proof (Q.le_min_r (3.50 + inject_Z (d - 7) * 1.00) 15.00)%Q as Hm.
      lra.
Qed.

Lemma fee_of_days_mono (d d' : Z) :
  0 <= d <= d' ->
  ((if d <=? 7 then inject_Z d * 0.50
    else Qmin (3.50 + inject_Z (d - 7) * 1.00) 15.00)
   <= (if d' <=? 7 then inject_Z d' * 0.50
       else Qmin (3.50 + inject_Z (d' - 7) * 1.00) 15.00))%Q.
Proof.
  intros [Hd Hle].
  assert (Hq := inject_Z_le _ _ Hle).
  destruct (Z.leb_spec d 7) as [H7 | H7], (Z.leb_spec d' 7) as [H7' | H7'];
    try lia.
  - lra.
  - assert (Hq7 := inject_Z_le _ _ H7).
    change (inject_Z 7) with (7 # 1)%Q in Hq7.
    assert (Hq' : (0 <= inject_Z (d' - 7))%Q).
    { change 0%Q with (inject_Z 0). apply inject_Z_le. lia. }
    apply Q.min_glb; lra.
  - assert (Hs : (inject_Z (d - 7) <= inject_Z (d' - 7))%Q)
      by (apply inject_Z_le; lia).
    apply Q.min_le_compat_r. lra.
Qed.

(** The calculator on any input: either one of its error mappings,
    whatever the time, or the fee of an unreturned record. *)
Lemma calculate_late_fee_cases (w : World) (patron_id : string)
    (book_id : Z) :
  (exists s : string,
     s <> "Success"
     /\ forall now : datetime,
          calculate_late_fee_for_book now patron_id book_id w
          = (Returned (mkLateFee 0.00 0 s), w))
  \/ (exists (book : Book.t) (record : BorrowRecord.t),
        valid_patron_id patron_id = true
        /\ books (db w) !! book_id = Some book
        /\ first_open_loan patron_id book_id (db w) = Some record).
Proof.
  destruct (valid_patron_id patron_id) eqn:Hp.
  - destruct (books (db w) !! book_id) as [book |] eqn:Hb.
    + destruct (first_open_loan patron_id book_id (db w)) as [record |] eqn:Hr.
      * right. eauto.
      * left. exists "No active borrowing record found.".
        split; [discriminate |]. intros now.
        unfold calculate_late_fee_for_book.
        rewrite (patron_check_valid _ Hp).
        unfold bind, get_book_by_id, get_patron_borrowed_books, ret. simpl.
        rewrite Hb, find_borrowed_rows.
        unfold first_open_loan in Hr. rewrite Hr. reflexivity.
    + left. exists "Book not found.". split; [discriminate |]. intros now.
      unfold calculate_late_fee_for_book.
      rewrite (patron_check_valid _ Hp).
      unfold bind, get_book_by_id, ret. simpl. rewrite Hb. reflexivity.
  - left. exists "Invalid patron ID. Must be exactly 6 digits.".
    split; [discriminate |]. intros now.
    unfold calculate_late_fee_for_book.
    rewrite (patron_check_invalid _ Hp). reflexivity.
Qed.

(** X8. On every input the calculator returns a fee between 0 and 15.00
    and a non-negative number of days, the fee is 0 exactly when the days
    are 0, and nothing is written. *)
Theorem late_fee_bounds (w : World) (now : datetime) (patron_id : string)
    (book_id : Z) :
  exists r : LateFee,
    calculate_late_fee_for_book now patron_id book_id w = (Returned r, w)
    /\ (0 <= fee_amount r <= 15)%Q
    /\ 0 <= days_overdue r
    /\ ((fee_amount r == 0)%Q <-> days_overdue r = 0).
Proof.
  destruct (calculate_late_fee_cases w patron_id book_id)
    as [(s & _ & E) | (book & record & Hp & Hb & Hr)].
  - eexists. split; [apply E |]. simpl.
    split; [split; discriminate |]. split; [lia |]. split; reflexivity.
  - rewrite (calculate_late_fee_found w now _ _ _ _ Hp Hb Hr). cbv zeta.
    set (d := Z.max 0 (td_days (now - BorrowRecord.due_date record))).
    assert (Hd : 0 <= d) by apply Z.le_max_l.
    eexists. split; [reflexivity |]. simpl.
    rewrite (fee_of_days d Hd).
    split; [apply fee_of_days_bounds; exact Hd |]. split; [exact Hd |].
    assert (Hq := inject_Z_le _ _ Hd).
    change (inject_Z 0) with (0 # 1)%Q in Hq.
    destruct (Z.leb_spec d 7) as [H7 | H7].
    + split.
      * intros E. assert (E0 : (inject_Z d == inject_Z 0)%Q).
        { change (inject_Z 0) with (0 # 1)%Q. lra. }
        exact (proj1 (inject_Z_injective d 0) E0).
      * intros ->. reflexivity.
    + split; [| lia]. intros E. exfalso.
      assert (Hs : (0 <= inject_Z (d - 7))%Q).
      { change 0%Q with (inject_Z 0). apply inject_Z_le. lia. }
      destruct (Q.min_spec (3.50 + inject_Z (d - 7) * 1.00) 15.00)%Q
        as [[_ Hm] | [_ Hm]]; rewrite Hm in E; lra.
Qed.

(** X9. The fee never decreases as time passes: for one store and one
    pair, a later reading of the clock gives at least as many days overdue
    and at least as high a fee. *)
Theorem late_fee_monotone (w : World) (now now' : datetime)
    (patron_id : string) (book_id : Z) :
  now <= now' ->
  exists r r' : LateFee,
    calculate_late_fee_for_book now patron_id book_id w = (Returned r, w)
    /\ calculate_late_fee_for_book now' patron_id book_id w
       = (Returned r', w)
    /\ days_overdue r <= days_overdue r'
    /\ (fee_amount r <= fee_amount r')%Q.
Proof.
  intros Hle.
  destruct (calculate_late_fee_cases w patron_id book_id)
    as [(s & _ & E) | (book & record & Hp & Hb & Hr)].
  - exists (mkLateFee 0.00 0 s), (mkLateFee 0.00 0 s). simpl.
    split; [apply E |]. split; [apply E |]. split; [lia | discriminate].
  - rewrite !(calculate_late_fee_found w _ _ _ _ _ Hp Hb Hr). cbv zeta.
    set (d := Z.max 0 (td_days (now - BorrowRecord.due_date record))).
    set (d' := Z.max 0 (td_days (now' - BorrowRecord.due_date record))).
    assert (Hd : 0 <= d) by apply Z.le_max_l.
    assert (Hdd : d <= d').
    { unfold d, d', td_days, microseconds_per_day.
      apply Z.max_le_compat_l. apply Z.div_le_mono; lia. }
    eexists _, _. split; [reflexivity |]. split; [reflexivity |]. simpl.
    split; [exact Hdd |].
    rewrite (fee_of_days d Hd), (fee_of_days d') by lia.
    apply fee_of_days_mono. lia.
Qed.

Lemma first_open_loan_after_borrow (patron_id : string) (book_id : Z)
    (borrow_date due_date : datetime) (s : Store) (m : gmap Z Book.t) :
  first_open_loan patron_id book_id s = None ->
  first_open_loan patron_id book_id
    (mkStore m
       (borrow_records s
          ++ [BorrowRecord.mk patron_id book_id borrow_date due_date None]))
  = Some (BorrowRecord.mk patron_id book_id borrow_date due_date None).
Proof.
  unfold first_open_loan. simpl. intros H.
  rewrite (find_app_none _ _ _ H). cbn [List.find].
  now rewrite new_loan_is_open.
Qed.

(** X10. A book just borrowed, by a patron who held no other copy of it,
    carries no fee until fifteen days have passed: fourteen days to the due
    date and the day that has not fully elapsed; from then on the days
    overdue are the whole days since the borrow less fourteen. *)
Theorem borrow_then_late_fee (w w1 : World) (now t : datetime)
    (patron_id : string) (book_id : Z) (msg : string) :
  first_open_loan patron_id book_id (db w) = None ->
  borrow_book_by_patron now patron_id book_id w
  = (Returned (true, msg), w1) ->
  exists r : LateFee,
    calculate_late_fee_for_book t patron_id book_id w1 = (Returned r, w1)
    /\ days_overdue r = Z.max 0 (td_days (t - now) - 14)
    /\ (t < now + timedelta_days 15 ->
        (fee_amount r == 0)%Q /\ status r = "Success")
    /\ (now + timedelta_days 15 <= t -> (0 < fee_amount r)%Q).
Proof.
  intros Hnone H.
  destruct (borrow_success_inv _ _ _ _ _ _ H)
    as (Hp & (book & Hb & _) & _ & E & _).
  assert (Hb1 : books (db w1) !! book_id = Some (add_available (-1) book)).
  { rewrite E. simpl. now rewrite lookup_alter_eq, Hb. }
  assert (Hr1 : first_open_loan patron_id book_id (db w1)
                = Some (BorrowRecord.mk patron_id book_id now
                          (now + timedelta_days 14) None)).
  { rewrite E. now apply first_open_loan_after_borrow. }
  rewrite (calculate_late_fee_found w1 t _ _ _ _ Hp Hb1 Hr1). cbv zeta.
  cbn [BorrowRecord.due_date].
  assert (Hdays : td_days (t - (now + timedelta_days 14))
                  = td_days (t - now) - 14).
  { unfold td_days, timedelta_days, microseconds_per_day.
    replace (t - (now + 14 * (86400 * 1000000)))
      with (t - now + -14 * (86400 * 1000000)) by lia.
    rewrite Z.div_add by lia. lia. }
  rewrite Hdays.
  set (d := Z.max 0 (td_days (t - now) - 14)).
  assert (Hd : 0 <= d) by apply Z.le_max_l.
  eexists. split; [reflexivity |]. simpl. split; [reflexivity |].
  assert (Hlate : now + timedelta_days 15 <= t <-> 1 <= td_days (t - now) - 14).
  { unfold td_days, timedelta_days, microseconds_per_day.
    split; intros Ht.
    - assert (15 <= (t - now) / (86400 * 1000000)); [| lia].
      apply Z.div_le_lower_bound; lia.
    - assert (Hlt : ~ t - now < 15 * (86400 * 1000000)); [| lia].
      intros Hlt.
      assert ((t - now) / (86400 * 1000000) < 15); [| lia].
      apply Z.div_lt_upper_bound; lia. }
  split.
  - intros Ht. assert (E0 : d = 0) by (unfold d; lia).
    rewrite E0. split; reflexivity.
  - intros Ht. apply Hlate in Ht.
    rewrite (fee_of_days d Hd).
    assert (H1 : 1 <= d) by (unfold d; lia).
    assert (Hq := inject_Z_le _ _ H1).
    change (inject_Z 1) with (1 # 1)%Q in Hq.
    destruct (Z.leb_spec d 7) as [H7 | H7]; [lra |].
    assert (Hs : (0 <= inject_Z (d - 7))%Q).
    { change 0%Q with (inject_Z 0). apply inject_Z_le. lia. }
    destruct (Q.min_spec (3.50 + inject_Z (d - 7) * 1.00) 15.00)%Q
      as [[_ Hm] | [_ Hm]]; rewrite Hm; lra.
Qed.

(** After a borrow and a return of the pair, by a patron who held no other
    copy, no unreturned record of the pair is left. *)
Lemma no_loan_after_round_trip (w w1 w2 : World) (now1 now2 : datetime)
    (patron_id : string) (book_id : Z) (msg1 msg2 : string) :
  first_open_loan patron_id book_id (db w) = None ->
  borrow_book_by_patron now1 patron_id book_id w
  = (Returned (true, msg1), w1) ->
  return_book_by_patron now2 patron_id book_id w1
  = (Returned (true, msg2), w2) ->
  first_open_loan patron_id book_id (db w2) = None
  /\ books (db w2) = books (db w).
Proof.
  intros Hnone Hb Hr.
  apply borrow_success_inv in Hb as (_ & _ & _ & E1 & _).
  apply return_success_inv in Hr as (_ & _ & _ & E2 & _).
  rewrite E1 in E2. simpl in E2.
  rewrite available_after_borrow_return in E2.
  rewrite E2. split; [| reflexivity].
  unfold first_open_loan. cbn [borrow_records]. apply close_loan_no_open.
Qed.

(** Without an unreturned record of the pair the calculator reports so,
    and the payment is refused with the same text before any call on the
    gateway. *)
Lemma pay_late_fees_no_loan (w : World) (now : datetime) (patron_id : string)
    (book_id : Z) (gw : PaymentGateway) (book : Book.t) :
  valid_patron_id patron_id = true ->
  books (db w) !! book_id = Some book ->
  first_open_loan patron_id book_id (db w) = None ->
  calculate_late_fee_for_book now patron_id book_id w
  = (Returned (mkLateFee 0.00 0 "No active borrowing record found."), w)
  /\ pay_late_fees now patron_id book_id gw w
     = (Returned (false, PyStr "No active borrowing record found."), w).
Proof.
  intros Hp Hb Hr.
  assert (E : calculate_late_fee_for_book now patron_id book_id w
              = (Returned
                   (mkLateFee 0.00 0 "No active borrowing record found."),
                 w)).
  { unfold calculate_late_fee_for_book. rewrite (patron_check_valid _ Hp).
    unfold bind, get_book_by_id, get_patron_borrowed_books, ret. simpl.
    rewrite Hb, find_borrowed_rows.
    unfold first_open_loan in Hr. rewrite Hr. reflexivity. }
  split; [exact E |].
  unfold pay_late_fees. rewrite (patron_check_valid _ Hp).
  unfold bind at 1. unfold get_book_by_id. rewrite Hb.
  unfold bind at 1. rewrite E. reflexivity.
Qed.

(** X11. Once a book is returned its late fee is out of reach: after a
    borrow and a return of the pair, however late, by a patron who held no
    other copy, the calculator reports no active record with a fee of 0 and
    [pay_late_fees] fails with that text, without a call on the gateway. *)
Theorem no_fee_after_return (w w1 w2 : World) (now1 now2 t : datetime)
    (patron_id : string) (book_id : Z) (msg1 msg2 : string)
    (gw : PaymentGateway) :
  first_open_loan patron_id book_id (db w) = None ->
  borrow_book_by_patron now1 patron_id book_id w
  = (Returned (true, msg1), w1) ->
  return_book_by_patron now2 patron_id book_id w1
  = (Returned (true, msg2), w2) ->
  calculate_late_fee_for_book t patron_id book_id w2
  = (Returned (mkLateFee 0.00 0 "No active borrowing record found."), w2)
  /\ pay_late_fees t patron_id book_id gw w2
     = (Returned (false, PyStr "No active borrowing record found."), w2).
Proof.
  intros Hnone Hb Hr.
  destruct (no_loan_after_round_trip _ _ _ _ _ _ _ _ _ Hnone Hb Hr)
    as [Hn2 Hbooks].
  destruct (borrow_success_inv _ _ _ _ _ _ Hb)
    as (Hp & (book & Hbook & _) & _).
  apply pay_late_fees_no_loan with (book := book).
  - exact Hp.
  - rewrite Hbooks. exact Hbook.
  - exact Hn2.
Qed.

(** ** Payments: the calls on the gateway and what is made of its answers *)

(** X12. [pay_late_fees] calls the gateway at most once, and only to
    charge the patron the fee the calculator computes, a positive amount;
    it consumes none of the answers of the store. *)
Theorem pay_late_fees_calls_once (w : World) (now : datetime)
    (patron_id : string) (book_id : Z) (gw : PaymentGateway) :
  let w' := world (pay_late_fees now patron_id book_id gw w) in
  db_faults w' = db_faults w
  /\ (gateway_calls w' = gateway_calls w
      \/ exists r : LateFee,
           calculate_late_fee_for_book now patron_id book_id w
           = (Returned r, w)
           /\ (0 < fee_amount r)%Q
           /\ gateway_calls w'
              = (gateway_calls w
                 ++ [ProcessPayment patron_id (FFin (fee_amount r))])%list).
Proof.
  cbv zeta. pattern (world (pay_late_fees now patron_id book_id gw w)).
  match goal with |- ?P _ => set (Keeps := P) end.
  assert (Hsame : Keeps w) by (split; [| left]; reflexivity).
  unfold pay_late_fees.
  destruct (negb (str_bool patron_id) || negb (str_isdigit patron_id)
            || negb (len patron_id =? 6)); [exact Hsame |].
  unfold bind at 1. unfold get_book_by_id.
  destruct (books (db w) !! book_id); [| exact Hsame].
  unfold bind at 1.
  destruct (calculate_late_fee_pure w now patron_id book_id) as [r Hr].
  rewrite Hr.
  destruct (String.eqb (status r) "Book not found."
            || String.eqb (status r) "No active borrowing record found.");
    [exact Hsame |].
  destruct (Qle_bool (fee_amount r) 0) eqn:Hfee; [exact Hsame |].
  assert (Hpos : (0 < fee_amount r)%Q).
  { apply Qnot_le_lt. intros Hle. apply Qle_bool_iff in Hle. congruence. }
  assert (Hcall : Keeps
            (mkWorld (db w) (db_faults w)
               (gateway_calls w
                  ++ [ProcessPayment patron_id (FFin (fee_amount r))]))).
  { split; [reflexivity |]. right. exists r. auto. }
  clearbody Keeps.
  unfold bind, attempt, call_process_payment, lift, ret, world.
  destruct (process_payment gw patron_id (FFin (fee_amount r)))
    as [resp | e]; [| exact Hcall].
  destruct resp; split_run; exact Hcall.
Qed.

(** The fee of the calculator is a multiple of one half, which rounding to
    cents leaves as it is. *)
Lemma fee_of_days_cents (d : Z) :
  0 <= d ->
  ((if d <=? 7 then inject_Z d * 0.50
    else Qmin (3.50 + inject_Z (d - 7) * 1.00) 15.00) * 100
   == inject_Z (fee_cents d))%Q.
Proof.
  intros Hd. unfold fee_cents. destruct (Z.leb_spec d 7) as [H7 | H7].
  - rewrite inject_Z_mult. change (inject_Z 50) with (50 # 1)%Q. lra.
  - assert (Hs : (inject_Z (350 + 100 * (d - 7))
                  == 350 + 100 * inject_Z (d - 7))%Q).
    { rewrite inject_Z_plus, inject_Z_mult.
      change (inject_Z 350) with (350 # 1)%Q.
      change (inject_Z 100) with (100 # 1)%Q. reflexivity. }
    destruct (Z.min_spec (350 + 100 * (d - 7)) 1500) as [[Hlt ->] | [Hge ->]].
    + assert (Hq : (inject_Z (350 + 100 * (d - 7)) <= inject_Z 1500)%Q)
        by (apply inject_Z_le; lia).
      change (inject_Z 1500) with (1500 # 1)%Q in Hq.
      rewrite Q.min_l by lra. lra.
    + assert (Hq : (inject_Z 1500 <= inject_Z (350 + 100 * (d - 7)))%Q)
        by (apply inject_Z_le; lia).
      change (inject_Z 1500) with (1500 # 1)%Q in *.
      rewrite Q.min_r by lra. reflexivity.
Qed.

Lemma int_of_Q_Z (q : Q) (n : Z) : (q == inject_Z n)%Q -> int_of_Q q = n.
Proof.
  unfold Qeq, int_of_Q. simpl. intros H. rewrite Z.mul_1_r in H.
  rewrite H. apply Z.quot_mul. discriminate.
Qed.

(** The fee in cents is a number of halves of a dollar. *)
Lemma fee_cents_halves (d : Z) : fee_cents d = 50 * (fee_cents d / 50).
Proof.
  apply Z.div_exact; [lia |]. unfold fee_cents.
  destruct (d <=? 7); [| destruct (Z.min_spec (350 + 100 * (d - 7)) 1500)
                             as [[_ ->] | [_ ->]]].
  - rewrite Z.mul_comm. apply Z.mod_mul. lia.
  - replace (350 + 100 * (d - 7)) with ((7 + 2 * (d - 7)) * 50) by lia.
    apply Z.mod_mul. lia.
  - reflexivity.
Qed.

(** The calculator on an unreturned record: the fee in cents. *)
Lemma calculate_late_fee_cents (w : World) (now : datetime)
    (patron_id : string) (book_id : Z) (book : Book.t)
    (record : BorrowRecord.t) :
  valid_patron_id patron_id = true ->
  books (db w) !! book_id = Some book ->
  first_open_loan patron_id book_id (db w) = Some record ->
  exists r : LateFee,
    calculate_late_fee_for_book now patron_id book_id w = (Returned r, w)
    /\ days_overdue r
       = Z.max 0 (td_days (now - BorrowRecord.due_date record))
    /\ (fee_amount r * 100 == inject_Z (fee_cents (days_overdue r)))%Q
    /\ (round2 (fee_amount r) == fee_amount r)%Q.
Proof.
  intros Hp Hb Hr.
  rewrite (calculate_late_fee_found w now _ _ _ _ Hp Hb Hr). cbv zeta.
  set (d := Z.max 0 (td_days (now - BorrowRecord.due_date record))).
  assert (Hd : 0 <= d) by apply Z.le_max_l.
  eexists. split; [reflexivity |]. cbn [fee_amount days_overdue].
  split; [reflexivity |].
  assert (Hc := fee_of_days_cents d Hd).
  assert (Hf := fee_of_days d Hd).
  match type of Hf with (?x == _)%Q => set (fee := x) in * end.
  rewrite <- Hf in Hc. split; [exact Hc |].
  apply (round2_halves (fee_cents d / 50)).
  assert (H50 := fee_cents_halves d).
  rewrite H50, inject_Z_mult in Hc.
  change (inject_Z 50) with (50 # 1)%Q in Hc. lra.
Qed.

(** The payment on an answer of the gateway that reports success. *)
Lemma pay_late_fees_success_path (w : World) (now : datetime)
    (patron_id : string) (book_id : Z) (gw : PaymentGateway) (book : Book.t)
    (record : BorrowRecord.t) (r : LateFee) (d : list (string * pyval))
    (t : pyval) :
  valid_patron_id patron_id = true ->
  books (db w) !! book_id = Some book ->
  first_open_loan patron_id book_id (db w) = Some record ->
  calculate_late_fee_for_book now patron_id book_id w = (Returned r, w) ->
  (0 < fee_amount r)%Q ->
  process_payment gw patron_id (FFin (fee_amount r)) = Returned (PyDict d) ->
  dict_get d "status" = Some (PyStr "success") ->
  dict_get d "transaction_id" = Some t ->
  result (pay_late_fees now patron_id book_id gw w)
  = Returned
      (true,
       PyDict [("transaction_id", t);
               ("charged", PyFloat (FFin (round2 (fee_amount r))));
               ("days_overdue", PyInt (days_overdue r))]).
Proof.
  intros Hp Hb Hr Hc Hfee Hgw Hst Htx.
  destruct (calculate_late_fee_status _ _ _ _ _ _ _ _ Hp Hb Hr Hc)
    as [_ Hs].
  assert (Hq : Qle_bool (fee_amount r) 0 = false).
  { destruct (Qle_bool (fee_amount r) 0) eqn:E; [| reflexivity].
    apply Qle_bool_iff in E. lra. }
  unfold pay_late_fees. rewrite (patron_check_valid _ Hp).
  unfold bind at 1. unfold get_book_by_id. rewrite Hb.
  unfold bind at 1. rewrite Hc, Hs, Hq.
  unfold bind at 1. unfold attempt, call_process_payment. rewrite Hgw.
  destruct d as [| kv d]; [discriminate Hst |].
  unfold bind, ret, lift, result, py_get, py_getitem. cbn [py_bool negb].
  rewrite Hst, Htx. reflexivity.
Qed.

(** X13. Once there is a fee to charge, an exception of the gateway becomes
    a failure that quotes it, and an answer that reports success becomes a
    success that carries the transaction id of the gateway, the fee of the
    calculator as the amount charged and its days overdue. *)
Theorem pay_late_fees_charged (w : World) (now : datetime)
    (patron_id : string) (book_id : Z) (gw : PaymentGateway) (book : Book.t)
    (record : BorrowRecord.t) (r : LateFee) :
  valid_patron_id patron_id = true ->
  books (db w) !! book_id = Some book ->
  first_open_loan patron_id book_id (db w) = Some record ->
  calculate_late_fee_for_book now patron_id book_id w = (Returned r, w) ->
  (0 < fee_amount r)%Q ->
  (forall e : exn,
     process_payment gw patron_id (FFin (fee_amount r)) = Raised e ->
     result (pay_late_fees now patron_id book_id gw w)
     = Returned (false, PyStr ("Payment exception: " +:+ exn_str e)))
  /\ (forall (d : list (string * pyval)) (t : pyval),
        process_payment gw patron_id (FFin (fee_amount r))
        = Returned (PyDict d) ->
        dict_get d "status" = Some (PyStr "success") ->
        dict_get d "transaction_id" = Some t ->
        exists charged : Q,
          result (pay_late_fees now patron_id book_id gw w)
          = Returned
              (true,
               PyDict [("transaction_id", t);
                       ("charged", PyFloat (FFin charged));
                       ("days_overdue", PyInt (days_overdue r))])
          /\ (charged == fee_amount r)%Q).
Proof.
  intros Hp Hb Hr Hc Hfee.
  destruct (calculate_late_fee_status _ _ _ _ _ _ _ _ Hp Hb Hr Hc)
    as [_ Hs].
  assert (Hq : Qle_bool (fee_amount r) 0 = false).
  { destruct (Qle_bool (fee_amount r) 0) eqn:E; [| reflexivity].
    apply Qle_bool_iff in E. lra. }
  destruct (calculate_late_fee_cents w now _ _ _ _ Hp Hb Hr)
    as (r0 & Hc0 & _ & _ & Hround).
  rewrite Hc in Hc0. injection Hc0 as <-.
  split.
  - intros e Hgw. unfold pay_late_fees. rewrite (patron_check_valid _ Hp).
    unfold bind at 1. unfold get_book_by_id. rewrite Hb.
    unfold bind at 1. rewrite Hc, Hs, Hq.
    unfold bind at 1. unfold attempt, call_process_payment. rewrite Hgw.
    reflexivity.
  - intros d t Hgw Hst Htx. exists (round2 (fee_amount r)).
    split; [| exact Hround].
    now apply pay_late_fees_success_path with (book := book)
      (record := record) (d := d).
Qed.

(** X14. With the gateway of the repository a payment on an unreturned
    record never fails: with no day overdue it reports that no fee is due,
    and otherwise it charges the fee and returns the transaction id made of
    "TXN", the patron id and the fee in cents -- 50 a day for the first
    seven days, 100 a day after, 1500 at most. *)
Theorem pay_late_fees_repository_gateway (w : World) (now : datetime)
    (patron_id : string) (book_id : Z) (book : Book.t)
    (record : BorrowRecord.t) :
  valid_patron_id patron_id = true ->
  books (db w) !! book_id = Some book ->
  first_open_loan patron_id book_id (db w) = Some record ->
  let d := Z.max 0 (td_days (now - BorrowRecord.due_date record)) in
  (d = 0 ->
   result (pay_late_fees now patron_id book_id payment_gateway w)
   = Returned (true, PyStr "No late fees"))
  /\ (0 < d ->
      exists charged : Q,
        result (pay_late_fees now patron_id book_id payment_gateway w)
        = Returned
            (true,
             PyDict [("transaction_id",
                      PyStr ("TXN" +:+ patron_id +:+ pretty (fee_cents d)));
                     ("charged", PyFloat (FFin charged));
                     ("days_overdue", PyInt d)])
        /\ (charged * 100 == inject_Z (fee_cents d))%Q).
Proof.
  intros Hp Hb Hr. cbv zeta.
  destruct (calculate_late_fee_cents w now _ _ _ _ Hp Hb Hr)
    as (r & Hc & Hd & Hcents & Hround).
  rewrite <- Hd.
  destruct (calculate_late_fee_status _ _ _ _ _ _ _ _ Hp Hb Hr Hc)
    as [_ Hs].
  assert (Hd0 : 0 <= days_overdue r) by (rewrite Hd; apply Z.le_max_l).
  split.
  - intros E0. rewrite E0 in Hcents. change (fee_cents 0) with 0 in Hcents.
    assert (Hq : Qle_bool (fee_amount r) 0 = true).
    { apply Qle_bool_iff. change (inject_Z 0) with (0 # 1)%Q in Hcents. lra. }
    unfold pay_late_fees. rewrite (patron_check_valid _ Hp).
    unfold bind at 1. unfold get_book_by_id. rewrite Hb.
    unfold bind at 1. rewrite Hc, Hs, Hq. reflexivity.
  - intros Hpos.
    assert (Hcpos : 0 < fee_cents (days_overdue r)).
    { unfold fee_cents. destruct (Z.leb_spec (days_overdue r) 7); lia. }
    assert (Hfee : (0 < fee_amount r)%Q).
    { assert (Hq : (inject_Z 0 < inject_Z (fee_cents (days_overdue r)))%Q)
        by (rewrite <- Zlt_Qlt; exact Hcpos).
      change (inject_Z 0) with (0 # 1)%Q in Hq. lra. }
    assert (Hle : float_le (FFin (fee_amount r)) (FFin 0) = false).
    { simpl. destruct (Qle_bool (fee_amount r) 0) eqn:E; [| reflexivity].
      apply Qle_bool_iff in E. lra. }
    exists (round2 (fee_amount r)). split.
    + rewrite <- (int_of_Q_Z _ _ Hcents).
      apply pay_late_fees_success_path with (book := book) (record := record)
        (d := [("status", PyStr "success");
               ("transaction_id",
                PyStr ("TXN" +:+ patron_id
                       +:+ pretty (int_of_Q (fee_amount r * 100))))]);
        try assumption; try reflexivity.
      unfold payment_gateway, process_payment. rewrite Hle. reflexivity.
    + now rewrite Hround.
Qed.

(** The refund on a request that passes the checks: the call and what
    follows the answer. *)
Lemma refund_passes (float_of_str : string -> option pyfloat) (w : World)
    (t : string) (amount : pyval) (amt : pyfloat) (gw : PaymentGateway) :
  t <> EmptyString ->
  py_float float_of_str amount = Returned amt ->
  float_le amt (FFin 0) = false ->
  float_gt amt (FFin 15.0) = false ->
  refund_late_fee_payment float_of_str (PyStr t) amount gw w
  = (match refund_payment gw t amt with
     | Raised e =>
         Returned (false, PyStr ("Refund exception: " +:+ exn_str e))
     | Returned resp =>
         if negb (py_bool resp) || py_ne_str (default PyNone
                                               match resp with
                                               | PyDict d => dict_get d "status"
                                               | _ => None
                                               end) "refunded"
         then
           match resp with
           | PyDict d => Returned (false, default PyNone (dict_get d "reason"))
           | _ =>
               if py_bool resp then
                 Raised (Exn "AttributeError"
                           ("'" +:+ py_type_name resp
                            +:+ "' object has no attribute 'get'"))
               else Returned (false, PyStr "Refund failed")
           end
         else
           match resp with
           | PyDict d =>
               match dict_get d "refund_id" with
               | Some refund_id =>
                   Returned
                     (true,
                      PyDict [("refund_id", refund_id);
                              ("refunded", PyFloat (float_round2 amt))])
               | None => Raised (Exn "KeyError" "'refund_id'")
               end
           | _ => Returned (false, PyStr "Refund failed")
           end
     end,
     mkWorld (db w) (db_faults w)
       (gateway_calls w ++ [RefundPayment t amt])).
Proof.
  intros Ht Hf Hle Hgt. unfold refund_late_fee_payment.
  assert (Hid : negb (py_bool (PyStr t)) || negb (py_isinstance_str (PyStr t))
                = false).
  { destruct t; [contradiction | reflexivity]. }
  rewrite Hid, Hf, Hle, Hgt. cbn [orb].
  unfold bind, attempt, call_refund_payment, lift, ret.
  destruct (refund_payment gw t amt) as [resp | e]; [| reflexivity].
  destruct resp as [| [] | z | x | s | l | d]; try reflexivity.
  - cbn [py_bool negb orb]. destruct (negb (z =? 0)); reflexivity.
  - cbn [py_bool]. destruct x as [q | |]; try reflexivity.
    destruct (negb (Qeq_bool q 0)); reflexivity.
  - destruct s; reflexivity.
  - destruct l; reflexivity.
  - destruct d as [| kv d]; [reflexivity |].
    cbn [py_bool negb orb py_get py_isinstance_dict py_getitem].
    destruct (py_ne_str (default PyNone (dict_get (kv :: d) "status"))
                "refunded"); [reflexivity |].
    destruct (dict_get (kv :: d) "refund_id"); reflexivity.
Qed.

(** X15. [refund_late_fee_payment] calls the gateway at most once, and only
    to refund, on the transaction id as given, an amount that is neither at
    most 0 nor above 15; it writes nothing on the store. *)
Theorem refund_calls_once (float_of_str : string -> option pyfloat)
    (w : World) (transaction_id amount : pyval) (gw : PaymentGateway) :
  let w' :=
    world (refund_late_fee_payment float_of_str transaction_id amount gw w) in
  db w' = db w
  /\ db_faults w' = db_faults w
  /\ (gateway_calls w' = gateway_calls w
      \/ exists (t : string) (amt : pyfloat),
           transaction_id = PyStr t
           /\ t <> EmptyString
           /\ py_float float_of_str amount = Returned amt
           /\ float_le amt (FFin 0) = false
           /\ float_gt amt (FFin 15.0) = false
           /\ gateway_calls w' = (gateway_calls w ++ [RefundPayment t amt])%list).
Proof.
  cbv zeta.
  destruct (negb (py_bool transaction_id)
            || negb (py_isinstance_str transaction_id)) eqn:Hid.
  { unfold refund_late_fee_payment. rewrite Hid. auto. }
  destruct transaction_id as [| b | z | x | t | l | d];
    simpl in Hid; try rewrite orb_true_r in Hid; try discriminate Hid.
  assert (Ht : t <> EmptyString) by (intros ->; discriminate Hid).
  assert (Hid' : negb (py_bool (PyStr t))
                 || negb (py_isinstance_str (PyStr t)) = false) by exact Hid.
  destruct (py_float float_of_str amount) as [amt | e] eqn:Hf.
  2: { unfold refund_late_fee_payment. rewrite Hid', Hf. auto. }
  destruct (float_le amt (FFin 0)) eqn:Hle.
  { unfold refund_late_fee_payment. rewrite Hid', Hf, Hle. auto. }
  destruct (float_gt amt (FFin 15.0)) eqn:Hgt.
  { unfold refund_late_fee_payment. rewrite Hid', Hf, Hle, Hgt. auto. }
  rewrite (refund_passes float_of_str w t amount amt gw Ht Hf Hle Hgt).
  unfold world. simpl. split; [reflexivity |]. split; [reflexivity |].
  right. exists t, amt. repeat split; assumption || reflexivity.
Qed.

(** X16. Once a refund request passes the checks: an exception of the
    gateway becomes a failure that quotes it; an answer with the status
    "refunded" becomes a success that carries the refund id of the gateway
    and the amount, rounded to cents; a dict with another status has its
    reason relayed as it is. *)
Theorem refund_outcomes (float_of_str : string -> option pyfloat) (w : World)
    (t : string) (amount : pyval) (amt : pyfloat) (gw : PaymentGateway) :
  t <> EmptyString ->
  py_float float_of_str amount = Returned amt ->
  float_le amt (FFin 0) = false ->
  float_gt amt (FFin 15.0) = false ->
  (forall e : exn,
     refund_payment gw t amt = Raised e ->
     result (refund_late_fee_payment float_of_str (PyStr t) amount gw w)
     = Returned (false, PyStr ("Refund exception: " +:+ exn_str e)))
  /\ (forall (d : list (string * pyval)) (refund_id : pyval),
        refund_payment gw t amt = Returned (PyDict d) ->
        dict_get d "status" = Some (PyStr "refunded") ->
        dict_get d "refund_id" = Some refund_id ->
        result (refund_late_fee_payment float_of_str (PyStr t) amount gw w)
        = Returned
            (true,
             PyDict [("refund_id", refund_id);
                     ("refunded", PyFloat (float_round2 amt))]))
  /\ (forall d : list (string * pyval),
        refund_payment gw t amt = Returned (PyDict d) ->
        py_ne_str (default PyNone (dict_get d "status")) "refunded" = true ->
        result (refund_late_fee_payment float_of_str (PyStr t) amount gw w)
        = Returned (false, default PyNone (dict_get d "reason"))).
Proof.
  intros Ht Hf Hle Hgt.
  rewrite (refund_passes float_of_str w t amount amt gw Ht Hf Hle Hgt).
  unfold result. simpl. split; [| split].
  - intros e ->. reflexivity.
  - intros d refund_id -> Hst Hid. rewrite Hst, Hid.
    destruct d; [discriminate Hst | reflexivity].
  - intros d -> Hst. rewrite Hst, orb_true_r. reflexivity.
Qed.

(** X17. With the gateway of the repository a refund that passes the
    checks with a finite amount succeeds: the refund id is "RF" followed by
    the transaction id, and the amount refunded is the amount rounded to
    cents. *)
Theorem refund_repository_gateway (float_of_str : string -> option pyfloat)
    (w : World) (t : string) (amount : pyval) (q : Q) :
  t <> EmptyString ->
  py_float float_of_str amount = Returned (FFin q) ->
  (0 < q <= 15.0)%Q ->
  refund_late_fee_payment float_of_str (PyStr t) amount payment_gateway w
  = (Returned
       (true,
        PyDict [("refund_id", PyStr ("RF" +:+ t));
                ("refunded", PyFloat (FFin (round2 q)))]),
     mkWorld (db w) (db_faults w)
       (gateway_calls w ++ [RefundPayment t (FFin q)])).
Proof.
  intros Ht Hf [Hpos Hmax].
  assert (Hle : float_le (FFin q) (FFin 0) = false).
  { simpl. destruct (Qle_bool q 0) eqn:E; [| reflexivity].
    apply Qle_bool_iff in E. lra. }
  assert (Hgt : float_gt (FFin q) (FFin 15.0) = false).
  { simpl. apply Qle_bool_iff in Hmax. now rewrite Hmax. }
  rewrite (refund_passes float_of_str w t amount _ payment_gateway Ht Hf Hle
             Hgt).
  unfold payment_gateway, refund_payment. rewrite Hle.
  destruct t; [contradiction | reflexivity].
Qed.

(** X18. The range check of the refund compares: an infinite amount is
    refused without a call, but NaN, which compares false with every number,
    passes; the gateway is called with it, and the gateway of the repository
    refunds it. *)
Theorem refund_nan_passes (float_of_str : string -> option pyfloat)
    (w : World) (t : string) (gw : PaymentGateway) :
  t <> EmptyString ->
  gateway_calls
    (world
       (refund_late_fee_payment float_of_str (PyStr t) (PyFloat FNan) gw w))
  = (gateway_calls w ++ [RefundPayment t FNan])%list
  /\ result
       (refund_late_fee_payment float_of_str (PyStr t) (PyFloat FNan)
          payment_gateway w)
     = Returned
         (true,
          PyDict [("refund_id", PyStr ("RF" +:+ t));
                  ("refunded", PyFloat FNan)])
  /\ (forall negative : bool,
        exists reason : pyval,
          refund_late_fee_payment float_of_str (PyStr t)
            (PyFloat (FInf negative)) gw w
          = (Returned (false, reason), w)).
Proof.
  intros Ht. split; [| split].
  - rewrite (refund_passes float_of_str w t (PyFloat FNan) FNan gw Ht);
      reflexivity.
  - rewrite (refund_passes float_of_str w t (PyFloat FNan) FNan
               payment_gateway Ht); try reflexivity.
    unfold payment_gateway, refund_payment, result. simpl.
    destruct t; [contradiction | reflexivity].
  - intros negative. unfold refund_late_fee_payment.
    assert (Hid : negb (py_bool (PyStr t))
                  || negb (py_isinstance_str (PyStr t)) = false).
    { destruct t; [contradiction | reflexivity]. }
    rewrite Hid. destruct negative; simpl; eauto.
Qed.

(** ** The catalog: ISBNs *)

Lemma find_none_iff {A : Type} (f : A -> bool) (l : list A) :
  List.find f l = None <-> forall x : A, x ∈ l -> f x = false.
Proof.
  induction l as [| a l IH]; simpl.
  - split; [intros _ x H; inversion H | reflexivity].
  - destruct (f a) eqn:E.
    + split; [discriminate |]. intros H.
      rewrite (H a) in E by apply list_elem_of_here. discriminate.
    + rewrite IH. split.
      * intros H x [-> | Hx]%elem_of_cons; auto.
      * intros H x Hx. apply H. now apply list_elem_of_further.
Qed.

(** The lookup by ISBN finds nothing exactly when no book of the store
    carries the ISBN. *)
Lemma get_book_by_isbn_none (w : World) (isbn : string) :
  get_book_by_isbn isbn w = (Returned None, w)
  <-> forall (i : Z) (b : Book.t),
        books (db w) !! i = Some b -> Book.isbn b <> isbn.
Proof.
  unfold get_book_by_isbn. split.
  - intros [= H] i b Hb. rewrite find_none_iff in H.
    assert (Hin : b ∈ (map_to_list (books (db w))).*2).
    { apply list_elem_of_fmap. exists (i, b).
      split; [reflexivity | now apply elem_of_map_to_list]. }
    specialize (H b Hin). now apply String.eqb_neq in H.
  - intros H. f_equal. f_equal. apply find_none_iff.
    intros b [[i b'] [-> Hin]]%list_elem_of_fmap.
    apply elem_of_map_to_list in Hin. simpl.
    apply String.eqb_neq. exact (H i b' Hin).
Qed.

(** X19. An addition to the catalog succeeds exactly when the stripped
    title has 1 to 200 characters, the stripped author 1 to 100, the ISBN
    is 13 digits, the number of copies is positive, no book of the store
    carries the ISBN and the store answers the write. *)
Theorem add_book_succeeds_iff (w : World) (title author isbn : string)
    (total_copies : Z) :
  (exists (msg : string) (w' : World),
     add_book_to_catalog title author isbn total_copies w
     = (Returned (true, msg), w'))
  <-> 1 <= len (str_strip title) <= 200
      /\ 1 <= len (str_strip author) <= 100
      /\ len isbn = 13 /\ str_isdigit isbn = true
      /\ 0 < total_copies
      /\ (forall (i : Z) (b : Book.t),
            books (db w) !! i = Some b -> Book.isbn b <> isbn)
      /\ write_ok 0 w.
Proof.
  assert (Hlen : forall s : string, 1 <= len s <-> s <> EmptyString).
  { intros [| c s]; unfold len; simpl; split; intros H; try lia;
      congruence. }
  split.
  - intros (msg & w' & H). revert H. unfold add_book_to_catalog.
    rewrite !blank_check.
    destruct (str_strip title) as [| c t] eqn:Et; [discriminate |].
    cbn [str_bool negb].
    destruct (Z.gtb_spec (len (String c t)) 200); [discriminate |].
    destruct (str_strip author) as [| c' a] eqn:Ea; [discriminate |].
    cbn [str_bool negb].
    destruct (Z.gtb_spec (len (String c' a)) 100); [discriminate |].
    destruct (Z.eqb_spec (len isbn) 13); [| discriminate].
    destruct (str_isdigit isbn); [| discriminate]. cbn [negb orb].
    destruct (Z.leb_spec total_copies 0); [discriminate |].
    unfold bind at 1.
    destruct (get_book_by_isbn isbn w) as [o w0] eqn:Hdup.
    assert (Hw0 : w0 = w)
      by (unfold get_book_by_isbn in Hdup; congruence).
    subst w0. destruct o as [[existing |] | err]; try discriminate.
    pose proof (proj1 (get_book_by_isbn_none w isbn) Hdup) as Hnodup.
    unfold bind, insert_book, db_write, ret, write_ok.
    destruct (db_faults w) as [| [] faults]; simpl; intros Hrun;
      try discriminate Hrun;
      repeat split; try lia; try assumption; try reflexivity;
      try apply Hlen; try discriminate.
  - intros ([Ht1 Ht2] & [Ha1 Ha2] & Hi & Hd & Hn & Hdup & H0).
    apply Hlen in Ht1, Ha1.
    pose proof (proj2 (get_book_by_isbn_none w isbn) Hdup) as Hnone.
    rewrite (add_book_success w title author isbn total_copies); eauto.
    unfold write_ok in H0. destruct (db_faults w); simpl in *; congruence.
Qed.

(** X20. No addition to the catalog, whatever its outcome, makes two books
    share an ISBN. *)
Theorem isbn_unique_preserved (w : World) (title author isbn : string)
    (total_copies : Z) :
  isbn_unique (db w) ->
  isbn_unique
    (db (world (add_book_to_catalog title author isbn total_copies w))).
Proof.
  intros Hu. unfold add_book_to_catalog.
  repeat match goal with
         | |- context [if ?c then ret _ else _] => destruct c; [exact Hu |]
         end.
  unfold bind at 1.
  destruct (get_book_by_isbn isbn w) as [o w0] eqn:Hdup.
  assert (Hw0 : w0 = w) by (unfold get_book_by_isbn in Hdup; congruence).
  subst w0. destruct o as [[existing |] | err]; try exact Hu.
  pose proof (proj1 (get_book_by_isbn_none w isbn) Hdup) as Hnodup.
  unfold bind, insert_book, db_write, ret, world.
  assert (Hins : isbn_unique
            (mkStore
               (<[fresh_book_id (books (db w)) :=
                    Book.mk (fresh_book_id (books (db w))) (str_strip title)
                      (str_strip author) isbn total_copies total_copies]>
                  (books (db w)))
               (borrow_records (db w)))).
  { intros i j b1 b2. simpl. rewrite !lookup_insert.
    destruct (decide (fresh_book_id (books (db w)) = i)) as [<- | Hi],
      (decide (fresh_book_id (books (db w)) = j)) as [<- | Hj];
      simpl.
    - reflexivity.
    - intros [= <-] H2 E. simpl in E. symmetry in E.
      destruct (Hnodup j b2 H2 E).
    - intros H1 [= <-] E. simpl in E. destruct (Hnodup i b1 H1 E).
    - apply Hu. }
  destruct (db_faults w) as [| [] faults]; simpl; try exact Hu; exact Hins.
Qed.

(** ** The catalog search *)

Lemma filter_Permutation {A : Type} (f : A -> bool) (l l' : list A) :
  l ≡ₚ l' -> List.filter f l ≡ₚ List.filter f l'.
Proof.
  induction 1 as [| x l l' _ IH | x y l | l l' l'' _ IH1 _ IH2]; simpl.
  - reflexivity.
  - destruct (f x); [now constructor | exact IH].
  - destruct (f x), (f y); try reflexivity. apply perm_swap.
  - now rewrite IH1.
Qed.

Lemma filter_none {A : Type} (f : A -> bool) (l : list A) :
  (forall x : A, x ∈ l -> f x = false) -> List.filter f l = [].
Proof.
  induction l as [| a l IH]; simpl; [reflexivity |]. intros H.
  rewrite (H a) by apply list_elem_of_here.
  apply IH. intros x Hx. apply H. now apply list_elem_of_further.
Qed.

Lemma digit_not_space (c : ascii) :
  chr_isdigit c = true -> chr_isspace c = false.
Proof.
  destruct c as [[] [] [] [] [] [] [] []]; vm_compute; congruence.
Qed.

(** Stripping leaves a string without white space as it is. *)
Lemma str_strip_no_space (s : string) :
  str_forallb (fun c => negb (chr_isspace c)) s = true -> str_strip s = s.
Proof.
  intros H. unfold str_strip.
  assert (Hl : str_lstrip s = s).
  { destruct s as [| c s]; [reflexivity |]. simpl in *.
    apply andb_prop in H as [Hc _].
    destruct (chr_isspace c); [discriminate | reflexivity]. }
  rewrite Hl. induction s as [| c s IH]; [reflexivity |].
  simpl in *. apply andb_prop in H as [Hc Hs].
  assert (Hls : str_lstrip s = s).
  { destruct s as [| c' s]; [reflexivity |]. simpl in *.
    apply andb_prop in Hs as [Hc' _].
    destruct (chr_isspace c'); [discriminate | reflexivity]. }
  rewrite (IH Hs Hls).
  destruct s; [| reflexivity].
  destruct (chr_isspace c); [discriminate | reflexivity].
Qed.

Lemma str_strip_digits (s : string) : str_isdigit s = true -> str_strip s = s.
Proof.
  intros H. apply str_strip_no_space.
  destruct s as [| c s]; [discriminate |]. unfold str_isdigit in H.
  revert H. generalize (String c s). clear. intros s.
  induction s as [| c s IH]; simpl; [reflexivity |].
  intros [Hc Hs]%andb_prop. rewrite (digit_not_space c Hc). simpl. auto.
Qed.

Lemma search_matches_isbn (search_term : string) (book : Book.t) :
  search_matches search_term "isbn" book
  = String.eqb (Book.isbn book) (str_strip search_term).
Proof. reflexivity. Qed.

(** X21. A book just added is found by its ISBN: the lookup by ISBN returns
    it, and the search of kind "isbn" for its ISBN returns it and nothing
    else, with the stripped title and author and all copies available. *)
Theorem add_book_then_search (w w' : World) (title author isbn : string)
    (total_copies : Z) (msg : string) :
  add_book_to_catalog title author isbn total_copies w
  = (Returned (true, msg), w') ->
  let book :=
    Book.mk (fresh_book_id (books (db w))) (str_strip title)
      (str_strip author) isbn total_copies total_copies in
  result (get_book_by_isbn isbn w') = Returned (Some book)
  /\ search_books_in_catalog isbn "isbn" w' = (Returned [book], w').
Proof.
  intros H. cbv zeta.
  set (book := Book.mk (fresh_book_id (books (db w))) (str_strip title)
                 (str_strip author) isbn total_copies total_copies).
  assert (Hcond : len isbn = 13 /\ str_isdigit isbn = true
                  /\ get_book_by_isbn isbn w = (Returned None, w)
                  /\ db w' = mkStore
                               (<[fresh_book_id (books (db w)) := book]>
                                  (books (db w)))
                               (borrow_records (db w))).
  { revert H. unfold add_book_to_catalog.
    repeat match goal with
           | |- context [if ?c then ret _ else _] =>
               destruct c eqn:?; [discriminate |]
           end.
    unfold bind at 1.
    destruct (get_book_by_isbn isbn w) as [o w0] eqn:Hdup.
    assert (Hw0 : w0 = w) by (unfold get_book_by_isbn in Hdup; congruence).
    subst w0. destruct o as [[existing |] | err]; try discriminate.
    unfold bind, insert_book, db_write, ret.
    destruct (db_faults w) as [| [] faults]; simpl; intros Hrun;
      try discriminate Hrun; injection Hrun as _ <-; simpl;
      (split; [| split; [| split; reflexivity]]);
      match goal with
      | Hc : negb (len isbn =? 13) || negb (str_isdigit isbn) = false |- _ =>
          apply orb_false_elim in Hc as [Hc1 Hc2];
          apply negb_false_iff in Hc1, Hc2
      end; try assumption; now apply Z.eqb_eq. }
  destruct Hcond as (Hi & Hd & Hdup & E).
  pose proof (proj1 (get_book_by_isbn_none w isbn) Hdup) as Hnodup.
  assert (Hvals : (map_to_list (books (db w'))).*2
                  ≡ₚ book :: (map_to_list (books (db w))).*2).
  { rewrite E. simpl. rewrite map_to_list_insert by apply fresh_book_id_fresh.
    reflexivity. }
  assert (Hothers : forall b : Book.t,
            b ∈ (map_to_list (books (db w))).*2 ->
            String.eqb (Book.isbn b) isbn = false).
  { intros b [[i b'] [-> Hin]]%list_elem_of_fmap.
    apply elem_of_map_to_list in Hin. apply String.eqb_neq.
    exact (Hnodup i b' Hin). }
  split.
  - unfold get_book_by_isbn, result. simpl. f_equal.
    destruct (List.find (fun b => String.eqb (Book.isbn b) isbn)
                (map_to_list (books (db w'))).*2) as [b |] eqn:Hfind.
    + apply List.find_some in Hfind as [Hin Hb].
      apply list_elem_of_In in Hin. rewrite Hvals in Hin.
      apply elem_of_cons in Hin as [-> | Hin]; [reflexivity |].
      rewrite (Hothers b Hin) in Hb. discriminate.
    + rewrite find_none_iff in Hfind.
      assert (Hin : book ∈ (map_to_list (books (db w'))).*2)
        by (rewrite Hvals; apply list_elem_of_here).
      specialize (Hfind book Hin). simpl in Hfind.
      rewrite String.eqb_refl in Hfind. discriminate.
  - unfold search_books_in_catalog. rewrite blank_check.
    rewrite (str_strip_digits isbn Hd).
    assert (Hne : str_bool isbn = true).
    { destruct isbn; [discriminate Hd | reflexivity]. }
    rewrite Hne. cbv zeta.
    change (existsb (String.eqb "isbn") ["title"; "author"; "isbn"])
      with true.
    cbn [negb].
    unfold bind, get_all_books, ret. f_equal. f_equal.
    apply Permutation_singleton_r.
    rewrite (filter_Permutation _ _ _ (merge_sort_Permutation _ _)).
    rewrite (filter_Permutation _ _ _ Hvals). cbn [List.filter].
    rewrite search_matches_isbn, (str_strip_digits isbn Hd), String.eqb_refl.
    rewrite filter_none; [reflexivity |].
    intros b Hb.
    rewrite search_matches_isbn, (str_strip_digits isbn Hd).
    exact (Hothers b Hb).
Qed.


Lemma chr_lower_idem (c : ascii) : chr_lower (chr_lower c) = chr_lower c.
Proof. destruct c as [[] [] [] [] [] [] [] []]; vm_compute; reflexivity. Qed.

Lemma chr_lower_space (c : ascii) : chr_isspace (chr_lower c) = chr_isspace c.
Proof. destruct c as [[] [] [] [] [] [] [] []]; vm_compute; reflexivity. Qed.

Lemma str_lower_idem (s : string) : str_lower (str_lower s) = str_lower s.
Proof.
  induction s as [| c s IH]; simpl; [reflexivity |].
  now rewrite chr_lower_idem, IH.
Qed.

Lemma str_lstrip_lower (s : string) :
  str_lstrip (str_lower s) = str_lower (str_lstrip s).
Proof.
  induction s as [| c s IH]; simpl; [reflexivity |].
  rewrite chr_lower_space. destruct (chr_isspace c); [exact IH | reflexivity].
Qed.

Lemma str_rstrip_lower (s : string) :
  str_rstrip (str_lower s) = str_lower (str_rstrip s).
Proof.
  induction s as [| c s IH]; simpl; [reflexivity |].
  rewrite IH, chr_lower_space.
  destruct (str_rstrip s); simpl; [| reflexivity].
  destruct (chr_isspace c); reflexivity.
Qed.

(** Lowering a term first changes nothing to the term the search uses. *)
Lemma str_lower_strip_lower (s : string) :
  str_lower (str_strip (str_lower s)) = str_lower (str_strip s).
Proof.
  unfold str_strip.
  now rewrite str_lstrip_lower, str_rstrip_lower, str_lower_idem.
Qed.

(** X23. The search by title or author ignores the case of the term and
    the white space around it: two terms that are equal once stripped and
    lowered give the same books; so does a term and its lower case. *)
Theorem search_ignores_case (w : World) (term term' search_type : string) :
  search_type = "title" \/ search_type = "author" ->
  str_lower (str_strip term) = str_lower (str_strip term') ->
  search_books_in_catalog term search_type w
  = search_books_in_catalog term' search_type w
  /\ search_books_in_catalog (str_lower term) search_type w
     = search_books_in_catalog term search_type w.
Proof.
  assert (Hgen : forall t t' : string,
            search_type = "title" \/ search_type = "author" ->
            str_lower (str_strip t) = str_lower (str_strip t') ->
            search_books_in_catalog t search_type w
            = search_books_in_catalog t' search_type w).
  { intros t t' Hty Heq. unfold search_books_in_catalog.
    rewrite !blank_check.
    assert (Hblank : str_bool (str_strip t) = str_bool (str_strip t')).
    { destruct (str_strip t), (str_strip t'); simpl in *; congruence. }
    rewrite Hblank.
    destruct (negb (str_bool (str_strip t'))); [reflexivity |]. cbv zeta.
    destruct (negb (existsb (String.eqb search_type)
                      ["title"; "author"; "isbn"])); [reflexivity |].
    unfold bind, get_all_books, ret. f_equal. f_equal.
    apply List.filter_ext. intros book. unfold search_matches.
    destruct Hty as [-> | ->]; simpl; now rewrite Heq. }
  intros Hty Heq. split; [now apply Hgen |].
  apply Hgen; [exact Hty | apply str_lower_strip_lower].
Qed.

(** ** The patron report *)

Lemma sum_late_fees_compat (now : datetime) (rows : list BorrowedBook.t)
    (a a' : Q) :
  (a == a')%Q ->
  (fold_left
     (fun total record =>
        if BorrowedBook.is_overdue record then
          (total + report_late_fee now record)%Q
        else total)
     rows a
   == fold_left
        (fun total record =>
           if BorrowedBook.is_overdue record then
             (total + report_late_fee now record)%Q
           else total)
        rows a')%Q.
Proof.
  revert a a'. induction rows as [| row rows IH]; simpl; intros a a' H;
    [exact H |].
  apply IH. destruct (BorrowedBook.is_overdue row); [| exact H].
  now rewrite H.
Qed.

(** The fee of the report for an overdue row: a number of halves, thirty at
    most. *)
Lemma report_late_fee_halves (now : datetime) (r : BorrowRecord.t) :
  BorrowRecord.due_date r < now ->
  exists k : Z,
    0 <= k <= 30
    /\ (report_late_fee now (borrowed_row now r) == inject_Z k * (1 # 2))%Q.
Proof.
  intros Ho. unfold report_late_fee. simpl.
  assert (Hd : 0 <= td_days (now - BorrowRecord.due_date r))
    by (apply td_days_nonneg; lia).
  set (d := td_days (now - BorrowRecord.due_date r)) in *.
  assert (Hc := fee_of_days_cents d Hd).
  assert (Hb := fee_of_days_bounds d Hd).
  assert (Hsame : (Qmin
                     (if d <=? 7 then inject_Z d * 0.50
                      else 7 * 0.50 + inject_Z (d - 7) * 1.00) 15.00
                   == (if d <=? 7 then inject_Z d * 0.50
                       else Qmin (3.50 + inject_Z (d - 7) * 1.00) 15.00))%Q).
  { destruct (Z.leb_spec d 7) as [H7 | H7].
    - apply Q.min_l. assert (Hq := inject_Z_le _ _ H7).
      change (inject_Z 7) with (7 # 1)%Q in Hq. lra.
    - apply Q.min_compat; lra. }
  exists (fee_cents d / 50).
  assert (H50 := fee_cents_halves d).
  assert (Hrange : 0 <= fee_cents d <= 1500).
  { unfold fee_cents. destruct (Z.leb_spec d 7); lia. }
  split; [lia |]. rewrite Hsame.
  rewrite H50, inject_Z_mult in Hc.
  change (inject_Z 50) with (50 # 1)%Q in Hc. lra.
Qed.

Lemma sum_late_fees_halves (now : datetime) (l : list BorrowRecord.t)
    (a : Q) (k : Z) :
  (a == inject_Z k * (1 # 2))%Q ->
  exists k' : Z,
    k <= k' <= k + 30 * Z.of_nat (length l)
    /\ (fold_left
          (fun total record =>
             if BorrowedBook.is_overdue record then
               (total + report_late_fee now record)%Q
             else total)
          (List.map (borrowed_row now) l) a
        == inject_Z k' * (1 # 2))%Q.
Proof.
  revert a k. induction l as [| r l IH]; intros a k Ha.
  - exists k. simpl. split; [lia | exact Ha].
  - cbn [List.map fold_left length].
    destruct (BorrowedBook.is_overdue (borrowed_row now r)) eqn:Ho.
    + simpl in Ho. apply Z.ltb_lt in Ho.
      destruct (report_late_fee_halves now r Ho) as (j & Hj & Hfee).
      destruct (IH (a + report_late_fee now (borrowed_row now r))%Q (k + j))
        as (k' & Hk' & Hsum).
      { rewrite Ha, Hfee, inject_Z_plus. ring. }
      exists k'. split; [lia | exact Hsum].
    + destruct (IH a k Ha) as (k' & Hk' & Hsum).
      exists k'. split; [lia | exact Hsum].
Qed.

(** X24. The report of a valid patron lists the unreturned records of the
    patron, counts them as [total_borrowed], and writes nothing; its
    [total_late_fees] is the sum of the fees of the overdue rows -- rounding
    to cents changes nothing -- and lies between 0 and 15.00 times the
    number of rows. *)
Theorem patron_report_totals (w : World) (now : datetime)
    (patron_id : string) :
  valid_patron_id patron_id = true ->
  exists rep : StatusReport,
    get_patron_status_report now patron_id w = (Returned rep, w)
    /\ error rep = None
    /\ currently_borrowed_books rep
       = List.map (borrowed_row now)
           (List.filter (is_borrowed_by patron_id) (borrow_records (db w)))
    /\ total_borrowed rep = patron_loans patron_id (db w)
    /\ (total_late_fees rep
        == sum_late_fees now (currently_borrowed_books rep))%Q
    /\ (0 <= total_late_fees rep <= 15 * inject_Z (total_borrowed rep))%Q.
Proof.
  intros Hp. unfold get_patron_status_report.
  rewrite (patron_check_valid _ Hp).
  unfold bind, get_patron_borrowed_books, history_query, ret.
  eexists. split; [reflexivity |]. cbn [error currently_borrowed_books
    total_borrowed total_late_fees].
  set (l := List.filter (is_borrowed_by patron_id) (borrow_records (db w))).
  split; [reflexivity |]. split; [reflexivity |].
  split; [unfold patron_loans; now rewrite length_map |].
  destruct (sum_late_fees_halves now l 0.00%Q 0) as (k & Hk & Hsum);
    [reflexivity |].
  unfold sum_late_fees.
  match type of Hsum with (?x == _)%Q => set (total := x) in * end.
  assert (Hround : (round2 total == total)%Q)
    by (apply (round2_halves k); exact Hsum).
  split; [exact Hround |].
  rewrite Hround, Hsum, length_map.
  assert (H0 := inject_Z_le _ _ (proj1 Hk)).
  assert (H1 := inject_Z_le _ _ (proj2 Hk)).
  rewrite inject_Z_plus, inject_Z_mult in H1.
  change (inject_Z 0) with (0 # 1)%Q in *.
  change (inject_Z 30) with (30 # 1)%Q in *.
  split; lra.
Qed.

#[local] Instance newer_first_total : Total newer_first.
Proof. intros a b. unfold newer_first. lia. Qed.


(** ** Patron ids *)

(** A patron id that is not six digits is refused by the five
    functions that take one, each with its own text, with nothing written
    and no call on the gateway. *)
Theorem invalid_patron_id_refused (w : World) (now : datetime)
    (patron_id : string) (book_id : Z) (gw : PaymentGateway) :
  valid_patron_id patron_id = false ->
  borrow_book_by_patron now patron_id book_id w
  = (Returned (false, "Invalid patron ID. Must be exactly 6 digits."), w)
  /\ return_book_by_patron now patron_id book_id w
     = (Returned (false, "Invalid patron ID. Must be exactly 6 digits."), w)
  /\ calculate_late_fee_for_book now patron_id book_id w
     = (Returned
          (mkLateFee 0.00 0 "Invalid patron ID. Must be exactly 6 digits."),
        w)
  /\ get_patron_status_report now patron_id w
     = (Returned
          (mkStatusReport
             (Some "Invalid patron ID. Must be exactly 6 digits.") [] 0
             0.00%Q []), w)
  /\ pay_late_fees now patron_id book_id gw w
     = (Returned (false, PyStr "Invalid patron ID"), w).
Proof.
  intros Hp.
  unfold borrow_book_by_patron, return_book_by_patron,
    calculate_late_fee_for_book, get_patron_status_report, pay_late_fees.
  rewrite (patron_check_invalid _ Hp). repeat split; reflexivity.
Qed.

(** ** The further properties on the example stores *)

Lemma loan_limit_few_records (s : Store) :
  (length (borrow_records s) <= 5)%nat -> loan_limit s.
Proof.
  intros H p. unfold patron_loans.
  assert (Hle := List.filter_length_le (is_borrowed_by p) (borrow_records s)).
  lia.
Qed.

Lemma available_nonneg_check (s : Store) :
  bool_decide
    (map_Forall (fun (_ : Z) (b : Book.t) => 0 <= Book.available_copies b)
       (books s)) = true ->
  available_nonneg s.
Proof.
  intros H%bool_decide_eq_true i b Hb. exact (H i b Hb).
Qed.

Lemma example_world_isbn_unique : isbn_unique (db example_world).
Proof.
  intros i j b1 b2 H1 H2 _. unfold example_world in *. cbn [db books] in *.
  apply lookup_singleton_Some in H1 as [<- _].
  apply lookup_singleton_Some in H2 as [<- _]. reflexivity.
Qed.

Lemma refusal_writes_nothing_witness :
  borrow_book_by_patron (day 19001) "222222" 1 lent_out_world
  = (Returned (false, "This book is currently not available."),
     lent_out_world)
  /\ return_book_by_patron (day 19001) "222222" 1 lent_out_world
     = (Returned
          (false, "No borrowing record found for this patron and book."),
        lent_out_world)
  /\ add_book_to_catalog " T2 " "A2" "1234567890123" 2 lent_out_world
     = (Returned (false, "A book with this ISBN already exists."),
        lent_out_world).
Proof.
  destruct (refusal_writes_nothing lent_out_world (day 19001) "222222"
              " T2 " "A2" "1234567890123" 1 2) as (Hb & Hr & Ha).
  - vm_compute. discriminate.
  - vm_compute. discriminate.
  - assert (Eb : result (borrow_book_by_patron (day 19001) "222222" 1
                           lent_out_world)
                 = Returned (false, "This book is currently not available."))
      by reflexivity.
    assert (Er : result (return_book_by_patron (day 19001) "222222" 1
                           lent_out_world)
                 = Returned
                     (false,
                      "No borrowing record found for this patron and book."))
      by reflexivity.
    assert (Ea : result (add_book_to_catalog " T2 " "A2" "1234567890123" 2
                           lent_out_world)
                 = Returned (false, "A book with this ISBN already exists."))
      by (vm_compute; reflexivity).
    specialize (Hb _ Eb). specialize (Hr _ Er). specialize (Ha _ Ea).
    unfold result, world in *.
    split; [| split]; apply injective_projections; assumption.
Defined.

Lemma paired_writes_not_atomic_witness :
  result (borrow_book_by_patron (day 19000) "123456" 1 faulty_world)
  = Returned
      (false, "Database error occurred while updating book availability.")
  /\ ~ availability_invariant
         (db (world (borrow_book_by_patron (day 19000) "123456" 1
                       faulty_world))).
Proof.
  destruct (paired_writes_not_atomic faulty_world (day 19000) "123456" 1
              example_book) as [Hb _].
  - reflexivity.
  - vm_compute. reflexivity.
  - vm_compute. discriminate.
  - reflexivity.
  - exact example_world_invariant.
  - destruct Hb as (H1 & _ & _ & H4).
    + vm_compute. reflexivity.
    + vm_compute. reflexivity.
    + split; [exact H1 | exact H4].
Defined.

Lemma loan_limit_preserved_witness :
  loan_limit (db lent_world) /\ loan_limit (db returned_world).
Proof.
  split.
  - apply (loan_limit_preserved example_world (day 19000) "123456" 1).
    apply loan_limit_few_records. vm_compute. lia.
  - apply (loan_limit_preserved lent_world (day 19002) "123456" 1).
    apply loan_limit_few_records. vm_compute. lia.
Defined.

Lemma available_nonneg_preserved_witness :
  available_nonneg (db lent_world) /\ available_nonneg (db returned_world).
Proof.
  split.
  - apply (available_nonneg_preserved example_world (day 19000) "123456" 1).
    apply available_nonneg_check. vm_compute. reflexivity.
  - apply (available_nonneg_preserved lent_world (day 19002) "123456" 1).
    apply available_nonneg_check. vm_compute. reflexivity.
Defined.

Lemma return_frees_a_loan_witness :
  patron_loans "123456" (db returned_world)
  < patron_loans "123456" (db lent_world)
  /\ exists (msg2 : string) (w2 : World),
       borrow_book_by_patron (day 19003) "123456" 1 returned_world
       = (Returned (true, msg2), w2).
Proof.
  destruct (return_frees_a_loan lent_world returned_world (day 19002)
              (day 19003) "123456" 1
              ("Successfully returned " +:+ dquote +:+ "T" +:+ dquote
               +:+ ". Return date: 2022-01-10.")) as (H1 & _ & H3).
  - apply loan_limit_few_records. vm_compute. lia.
  - apply available_nonneg_check. vm_compute. reflexivity.
  - vm_compute. reflexivity.
  - split; [exact H1 |]. apply H3; vm_compute; discriminate.
Defined.

Lemma late_fee_monotone_witness :
  exists r r' : LateFee,
    calculate_late_fee_for_book (day 19019) "123456" 1 lent_world
    = (Returned r, lent_world)
    /\ calculate_late_fee_for_book (day 19024) "123456" 1 lent_world
       = (Returned r', lent_world)
    /\ days_overdue r <= days_overdue r'
    /\ (fee_amount r <= fee_amount r')%Q.
Proof.
  apply (late_fee_monotone lent_world (day 19019) (day 19024) "123456" 1).
  vm_compute. discriminate.
Defined.

Lemma borrow_then_late_fee_witness :
  exists r : LateFee,
    calculate_late_fee_for_book (day 19014) "123456" 1 lent_world
    = (Returned r, lent_world)
    /\ (fee_amount r == 0)%Q /\ status r = "Success".
Proof.
  destruct (borrow_then_late_fee example_world lent_world (day 19000)
              (day 19014) "123456" 1
              ("Successfully borrowed " +:+ dquote +:+ "T" +:+ dquote
               +:+ ". Due date: 2022-01-22."))
    as (r & Hr & _ & H0 & _).
  - reflexivity.
  - vm_compute. reflexivity.
  - exists r. split; [exact Hr |]. apply H0. vm_compute. reflexivity.
Defined.

Lemma no_fee_after_return_witness :
  calculate_late_fee_for_book (day 19030) "123456" 1 returned_world
  = (Returned (mkLateFee 0.00 0 "No active borrowing record found."),
     returned_world)
  /\ pay_late_fees (day 19030) "123456" 1 payment_gateway returned_world
     = (Returned (false, PyStr "No active borrowing record found."),
        returned_world).
Proof.
  apply (no_fee_after_return example_world lent_world returned_world
           (day 19000) (day 19002) (day 19030) "123456" 1
           ("Successfully borrowed " +:+ dquote +:+ "T" +:+ dquote
            +:+ ". Due date: 2022-01-22.")
           ("Successfully returned " +:+ dquote +:+ "T" +:+ dquote
            +:+ ". Return date: 2022-01-10.")
           payment_gateway).
  - reflexivity.
  - vm_compute. reflexivity.
  - vm_compute. reflexivity.
Defined.

Lemma pay_late_fees_charged_witness :
  exists charged : Q,
    result (pay_late_fees (day 19019) "123456" 1
              (mock_gateway
                 (Returned (PyDict [("status", PyStr "success");
                                    ("transaction_id", PyStr "TXN1")])))
              lent_world)
    = Returned
        (true,
         PyDict [("transaction_id", PyStr "TXN1");
                 ("charged", PyFloat (FFin charged));
                 ("days_overdue", PyInt 5)])
    /\ (charged == 2.50)%Q.
Proof.
  destruct (pay_late_fees_charged lent_world (day 19019) "123456" 1
              (mock_gateway
                 (Returned (PyDict [("status", PyStr "success");
                                    ("transaction_id", PyStr "TXN1")])))
              (add_available (-1) example_book)
              (BorrowRecord.mk "123456" 1 (day 19000) (day 19014) None)
              (mkLateFee 2.50 5 "Overdue by 5 days")) as [_ H].
  - reflexivity.
  - vm_compute. reflexivity.
  - vm_compute. reflexivity.
  - vm_compute. reflexivity.
  - vm_compute. reflexivity.
  - apply (H [("status", PyStr "success"); ("transaction_id", PyStr "TXN1")]
             (PyStr "TXN1")); reflexivity.
Defined.

Lemma pay_late_fees_repository_gateway_witness :
  exists charged : Q,
    result (pay_late_fees (day 19024) "123456" 1 payment_gateway lent_world)
    = Returned
        (true,
         PyDict [("transaction_id", PyStr "TXN123456650");
                 ("charged", PyFloat (FFin charged));
                 ("days_overdue", PyInt 10)])
    /\ (charged * 100 == 650)%Q.
Proof.
  destruct (pay_late_fees_repository_gateway lent_world (day 19024) "123456"
              1 (add_available (-1) example_book)
              (BorrowRecord.mk "123456" 1 (day 19000) (day 19014) None))
    as [_ H].
  - reflexivity.
  - vm_compute. reflexivity.
  - vm_compute. reflexivity.
  - apply H. vm_compute. reflexivity.
Defined.

Lemma refund_outcomes_witness :
  result
    (refund_late_fee_payment (fun _ => None) (PyStr "tx")
       (PyFloat (FFin 3.0))
       (mock_gateway (Raised (Exn "RuntimeError" "boom"))) example_world)
  = Returned (false, PyStr "Refund exception: boom").
Proof.
  destruct (refund_outcomes (fun _ => None) example_world "tx"
              (PyFloat (FFin 3.0)) (FFin 3.0)
              (mock_gateway (Raised (Exn "RuntimeError" "boom"))))
    as [H _].
  - discriminate.
  - reflexivity.
  - reflexivity.
  - reflexivity.
  - apply (H (Exn "RuntimeError" "boom")). reflexivity.
Defined.

Lemma refund_repository_gateway_witness :
  refund_late_fee_payment (fun _ => None) (PyStr "tx") (PyFloat (FFin 3.0))
    payment_gateway example_world
  = (Returned
       (true,
        PyDict [("refund_id", PyStr "RFtx");
                ("refunded", PyFloat (FFin (round2 3.0)))]),
     mkWorld (db example_world) [] [RefundPayment "tx" (FFin 3.0)]).
Proof.
  apply (refund_repository_gateway (fun _ => None) example_world "tx"
           (PyFloat (FFin 3.0)) 3.0%Q).
  - discriminate.
  - reflexivity.
  - split; vm_compute; [reflexivity | discriminate].
Defined.

Lemma refund_nan_passes_witness :
  result
    (refund_late_fee_payment (fun _ => None) (PyStr "tx") (PyFloat FNan)
       payment_gateway example_world)
  = Returned
      (true,
       PyDict [("refund_id", PyStr "RFtx"); ("refunded", PyFloat FNan)]).
Proof.
  destruct (refund_nan_passes (fun _ => None) example_world "tx"
              payment_gateway) as (_ & H & _).
  - discriminate.
  - exact H.
Defined.

Lemma isbn_unique_preserved_witness : isbn_unique (db added_world).
Proof.
  apply (isbn_unique_preserved example_world "  Hello " " Bob  "
           "9783862902279" 2).
  exact example_world_isbn_unique.
Defined.

Lemma add_book_then_search_witness :
  search_books_in_catalog "9783862902279" "isbn" added_world
  = (Returned [Book.mk 2 "Hello" "Bob" "9783862902279" 2 2], added_world).
Proof.
  destruct (add_book_then_search example_world added_world "  Hello "
              " Bob  " "9783862902279" 2
              ("Book " +:+ dquote +:+ "Hello" +:+ dquote
               +:+ " has been successfully added to the catalog."))
    as [_ H].
  - vm_compute. reflexivity.
  - exact H.
Defined.

Lemma search_ignores_case_witness :
  search_books_in_catalog " SCIENCE " "title" three_books_world
  = search_books_in_catalog "science" "title" three_books_world.
Proof.
  destruct (search_ignores_case three_books_world " SCIENCE " "science"
              "title") as [H _].
  - left. reflexivity.
  - vm_compute. reflexivity.
  - exact H.
Defined.

Lemma patron_report_totals_witness :
  exists rep : StatusReport,
    get_patron_status_report (day 19024) "123456" lent_world
    = (Returned rep, lent_world)
    /\ total_borrowed rep = patron_loans "123456" (db lent_world)
    /\ (0 <= total_late_fees rep <= 15 * inject_Z (total_borrowed rep))%Q.
Proof.
  destruct (patron_report_totals lent_world (day 19024) "123456")
    as (rep & H1 & _ & _ & H4 & _ & H6).
  - reflexivity.
  - exists rep. auto.
Defined.


(** The history of the patron on that store, as the report lists it: the
    later borrow first. *)
Example borrowing_history_newest_first :
  borrowing_history
    <$> match result (get_patron_status_report (day 19024) "123456"
                        history_world)
        with Returned r => Some r | Raised _ => None end
  = Some [HistoryRow.mk 1 "T" "A" (day 19005) (day 19019) None;
          HistoryRow.mk 1 "T" "A" (day 19000) (day 19014) (Some (day 19002))].
Proof. vm_compute. reflexivity. Qed.

Lemma invalid_patron_id_refused_witness :
  borrow_book_by_patron (day 19000) "12A456" 1 example_world
  = (Returned (false, "Invalid patron ID. Must be exactly 6 digits."),
     example_world)
  /\ pay_late_fees (day 19000) "12A456" 1 payment_gateway example_world
     = (Returned (false, PyStr "Invalid patron ID"), example_world).
Proof.
  destruct (invalid_patron_id_refused example_world (day 19000) "12A456" 1
              payment_gateway) as (H1 & _ & _ & _ & H5).
  - reflexivity.
  - split; [exact H1 | exact H5].
Defined.

(** The searches of the test suite on a catalog of three books. *)
Example search_examples :
  let titles r :=
    match result r with
    | Returned l => List.map Book.title l
    | Raised _ => []
    end in
  titles (search_books_in_catalog " SCIENCE " "title" three_books_world)
  = ["Semiotics: The Science of Signs"]
  /\ titles (search_books_in_catalog "ken" "author" three_books_world)
     = ["Discrete Math"]
  /\ titles (search_books_in_catalog "9781119320913" "isbn" three_books_world)
     = ["Operating Systems"]
  /\ titles (search_books_in_catalog "s" "title" three_books_world)
     = ["Discrete Math"; "Operating Systems";
        "Semiotics: The Science of Signs"]
  /\ titles (search_books_in_catalog "test" "invalid" three_books_world) = [].
Proof. cbv zeta. repeat split; vm_compute; reflexivity. Qed.
